(** * QuickSell admin backend: metrics aggregation, user/listing queries
      and the mutating admin endpoints.

    Shallow embedding of
      - backend/src/controllers/adminController.ts
          (getDashboardMetrics, getUsers, getSystemStats, getAdminActivity)
      - the admin router (dashboard, users, listings, system, analytics
          routes, all mounted behind [authenticate, isAdmin]).
      - frontend/src/pages/AdminDashboard.tsx
          (the marketplace statistics and the edit dialog of the admin page).

    The relational store is a record of row lists; every SQL statement of
    the source is a [Query]: its text, its bound parameter vector and its
    meaning on the store.  Handlers are written in a small state-and-error
    monad whose [pool_query] can reject, so that the [try]/[catch] of each
    handler is modelled and not assumed away. *)

From Stdlib Require Import ZArith List String Ascii Bool Lia.
From Stdlib Require Import Floats Uint63 DecimalString.
From Stdlib Require Import Permutation Sorted.
Import ListNotations.

Set Warnings "-inexact-float".

Open Scope string_scope.
Open Scope list_scope.
Open Scope Z_scope.

(* ================================================================= *)
(** ** JavaScript helpers used by the handlers *)

Module Js.

(** A JS number that came out of [parseInt]: an integer or NaN ([None]).
    Integers are exact here; a double would round them above 2^53. *)
Definition number := option Z.

Definition is_space (c : ascii) : bool :=
  let n := nat_of_ascii c in
  ((9 <=? n) && (n <=? 13))%nat || (n =? 32)%nat.

Fixpoint trim_start (s : string) : string :=
  match s with
  | String c s' => if is_space c then trim_start s' else s
  | EmptyString => EmptyString
  end.

Definition digit_value (c : ascii) : option Z :=
  let n := Z.of_nat (nat_of_ascii c) in
  if (48 <=? n) && (n <=? 57) then Some (n - 48)
  else if (97 <=? n) && (n <=? 122) then Some (n - 87)
  else if (65 <=? n) && (n <=? 90) then Some (n - 55)
  else None.

(** Longest prefix of radix-[r] digits, folded into its value; [None]
    when the prefix is empty. *)
Fixpoint digits (r : Z) (acc : option Z) (s : string) : option Z :=
  match s with
  | String c s' =>
      match digit_value c with
      | Some d =>
          if d <? r
          then digits r (Some (match acc with Some a => a | None => 0 end * r + d)) s'
          else acc
      | None => acc
      end
  | EmptyString => acc
  end.

(** [parseInt(s)] with no radix argument: leading (ASCII) white space,
    an optional sign, an optional [0x]/[0X] prefix, then digits. *)
Definition parseInt (s : string) : number :=
  let s := trim_start s in
  let '(sign, s) :=
    match s with
    | String "-" s' => (-1, s')
    | String "+" s' => (1, s')
    | _ => (1, s)
    end in
  let '(r, s) :=
    match s with
    | String "0" (String "x" s') => (16, s')
    | String "0" (String "X" s') => (16, s')
    | _ => (10, s)
    end in
  option_map (Z.mul sign) (digits r None s).

(** [String(n)] / template interpolation of an integer-valued number
    below 10^21 in magnitude (from there on JavaScript prints exponent
    notation, which is not modelled). *)
Definition string_of_Z (n : Z) : string :=
  NilZero.string_of_int (Z.to_int n).

Definition to_string (n : number) : string :=
  match n with
  | Some z => string_of_Z z
  | None => "NaN"
  end.

Definition sub (a b : number) : number :=
  match a, b with Some x, Some y => Some (x - y) | _, _ => None end.

Definition mul (a b : number) : number :=
  match a, b with Some x, Some y => Some (x * y) | _, _ => None end.

(** Truthiness of a string: [if (search)]. *)
Definition truthy (s : string) : bool :=
  match s with EmptyString => false | _ => true end.

(** [Math.ceil(a / b)]; [None] is also the non-finite quotient of a
    division by zero (serialised as null). *)
Definition ceil_div (a : Z) (b : number) : number :=
  match b with
  | Some b => if b =? 0 then None else Some (- ((- a) / b))
  | None => None
  end.

(** *** Doubles: [Number.prototype.toFixed] *)

(** The double nearest to a non-negative integer below 2^63. *)
Definition of_count (n : Z) : float := PrimFloat.of_uint63 (Uint63.of_Z n).

(** Result of [x.toFixed(f)]: the digit string, or, for [x >= 1e21]
    and the infinities, whatever [Number::toString] prints for [x]
    (exponent notation, not rendered here: the value is kept). *)
Inductive rendered : Type :=
| Fixed (s : string)
| ViaToString (x : float).

Fixpoint zeros (n : nat) : string :=
  match n with O => EmptyString | S n' => String "0" (zeros n') end.

(** Pad on the left with zeros to [f + 1] characters and put the point
    before the last [f] of them. *)
Definition insert_point (f : nat) (ds : string) : string :=
  let k := String.length ds in
  let ds := if (k <=? f)%nat then (zeros (f + 1 - k) ++ ds)%string else ds in
  let k := String.length ds in
  match f with
  | O => ds
  | _ => (substring 0 (k - f) ds ++ "." ++ substring (k - f) f ds)%string
  end.

(** The integer [n] for which [n / 10^f - m * 2^e] is closest to zero,
    the larger one on a tie. *)
Definition nearest_scaled (f : nat) (m : positive) (e : Z) : Z :=
  let scale := 10 ^ Z.of_nat f in
  if 0 <=? e then Z.pos m * 2 ^ e * scale
  else
    let den := 2 ^ (- e) in
    (2 * (Z.pos m * scale) + den) / (2 * den).

Definition toFixed (f : nat) (x : float) : rendered :=
  match Prim2SF x with
  | S754_nan => Fixed "NaN"
  | S754_zero _ => Fixed (insert_point f "0")
  | S754_infinity _ => ViaToString x
  | S754_finite s m e =>
      if (0 <=? e) && (10 ^ 21 <=? Z.pos m * 2 ^ e) then ViaToString x
      else
        let n := nearest_scaled f m e in
        Fixed ((if s then "-" else "") ++ insert_point f (string_of_Z n))%string
  end.

End Js.

(* ================================================================= *)
(** ** The relational store *)

(** Row identifiers are integers (serial keys); time stamps are seconds
    on the store's clock.  The five user columns that [PUT /users/:id]
    overwrites from the request body are SQL-nullable values: a body
    field that is absent is bound as NULL. *)

Module User.
Record row : Type := mk {
  id : Z;
  username : option string;
  email : option string;
  subscription_tier : option string;
  points : option Z;
  current_level : Z;
  is_admin : option bool;
  created_at : Z;
  updated_at : Z
}.
End User.

Module Listing.
Record row : Type := mk {
  id : Z;
  user_id : Z;
  title : string;
  description : string;
  status : string;
  price : string;
  category : string;
  marketplace_listings : string;
  created_at : Z;
  deleted_at : option Z
}.
End Listing.

Module Account.
Record row : Type := mk {
  id : Z;
  user_id : Z;
  is_active : bool
}.
End Account.

(** [admin_activity_log]. [details] is the serialised
    [{ timestamp: new Date() }] payload, kept as the time stamp. *)
Module Activity.
Record row : Type := mk {
  id : Z;
  admin_id : Z;
  action : string;
  target_type : option string;
  target_id : option Z;
  details : Z;
  ip_address : string;
  created_at : Z
}.
End Activity.

Record DB : Type := mkDB {
  users : list User.row;
  listings : list Listing.row;
  marketplace_accounts : list Account.row;
  ebay_listings : list Z;
  admin_activity_log : list Activity.row
}.

Definition set_users (f : list User.row -> list User.row) (d : DB) : DB :=
  mkDB (f (users d)) (listings d) (marketplace_accounts d)
       (ebay_listings d) (admin_activity_log d).

Definition set_listings (f : list Listing.row -> list Listing.row) (d : DB) : DB :=
  mkDB (users d) (f (listings d)) (marketplace_accounts d)
       (ebay_listings d) (admin_activity_log d).

Definition set_admin_activity_log
  (f : list Activity.row -> list Activity.row) (d : DB) : DB :=
  mkDB (users d) (listings d) (marketplace_accounts d)
       (ebay_listings d) (f (admin_activity_log d)).

(* ----------------------------------------------------------------- *)
(** *** Relational operators *)

Module Sql.

(** [COUNT( * )] over the rows that pass [p]. *)
Definition count {A : Type} (p : A -> bool) (l : list A) : Z :=
  Z.of_nat (List.length (filter p l)).

(** [a LEFT JOIN b ON on]: every left row, paired with each matching
    right row, or once with NULL when none matches. *)
Definition left_join {A B : Type} (on : A -> B -> bool)
  (l : list A) (r : list B) : list (A * option B) :=
  flat_map (fun a =>
              match filter (on a) r with
              | [] => [(a, None)]
              | ms => map (fun b => (a, Some b)) ms
              end) l.

(** [a JOIN b ON on]. *)
Definition inner_join {A B : Type} (on : A -> B -> bool)
  (l : list A) (r : list B) : list (A * B) :=
  flat_map (fun a => map (fun b => (a, b)) (filter (on a) r)) l.

(** [COUNT(col)]: the rows whose [col] is not NULL. *)
Definition count_some {A B : Type} (col : A -> option B) (l : list A) : Z :=
  count (fun a => match col a with Some _ => true | None => false end) l.

(** The distinct values of a column, in order of first appearance. *)
Fixpoint distinct {K : Type} (eqb : K -> K -> bool) (seen : list K) (l : list K)
  : list K :=
  match l with
  | [] => []
  | k :: l' =>
      if existsb (eqb k) seen then distinct eqb seen l'
      else k :: distinct eqb (k :: seen) l'
  end.

(** [GROUP BY key]: one group per distinct key, in order of first
    appearance; a group is the first row carrying the key together with
    all rows that carry it. *)
Definition group_by {A K : Type} (eqb : K -> K -> bool) (key : A -> K)
  (l : list A) : list (A * list A) :=
  flat_map (fun k =>
              match filter (fun a => eqb (key a) k) l with
              | [] => []
              | a :: g => [(a, a :: g)]
              end)
           (distinct eqb [] (map key l)).

(** Equality of nullable text, as [GROUP BY] sees it (NULLs together). *)
Definition option_string_eqb (a b : option string) : bool :=
  match a, b with
  | Some x, Some y => String.eqb x y
  | None, None => true
  | _, _ => false
  end.

(** [ORDER BY key DESC]: rows with equal keys come in an order the store
    chooses; here they keep their relative order. *)
Fixpoint insert_desc {A : Type} (key : A -> Z) (a : A) (l : list A) : list A :=
  match l with
  | [] => [a]
  | b :: l' => if key b <=? key a then a :: l else b :: insert_desc key a l'
  end.

Definition order_by_desc {A : Type} (key : A -> Z) (l : list A) : list A :=
  fold_right (insert_desc key) [] l.

(** [ORDER BY key] ascending, same convention. *)
Fixpoint insert_asc {A : Type} (key : A -> Z) (a : A) (l : list A) : list A :=
  match l with
  | [] => [a]
  | b :: l' => if key a <=? key b then a :: l else b :: insert_asc key a l'
  end.

Definition order_by_asc {A : Type} (key : A -> Z) (l : list A) : list A :=
  fold_right (insert_asc key) [] l.

(** [LIMIT n OFFSET k], both already checked to be non-negative. *)
Definition limit_offset {A : Type} (n k : Z) (l : list A) : list A :=
  firstn (Z.to_nat n) (skipn (Z.to_nat k) l).

(** [COUNT(DISTINCT col)]. *)
Definition count_distinct (l : list Z) : Z :=
  Z.of_nat (List.length (nodup Z.eq_dec l)).

(** *** LIKE / ILIKE *)

(** [s LIKE p]: [%] stands for any run of characters, [_] for exactly
    one, a backslash takes the next pattern character literally.  (A
    pattern that ends in a lone backslash is an error in the store; the
    patterns built here always end in [%].) *)
Fixpoint like (p : list ascii) (s : list ascii) {struct p} : bool :=
  match p with
  | [] => match s with [] => true | _ => false end
  | c :: p' =>
      if Ascii.eqb c "%" then
        (fix skip (s : list ascii) : bool :=
           like p' s || match s with [] => false | _ :: s' => skip s' end) s
      else if Ascii.eqb c "_" then
        match s with [] => false | _ :: s' => like p' s' end
      else if Ascii.eqb c "\" then
        match p' with
        | [] => false
        | d :: p'' =>
            match s with
            | [] => false
            | x :: s' => Ascii.eqb d x && like p'' s'
            end
        end
      else
        match s with
        | [] => false
        | x :: s' => Ascii.eqb c x && like p' s'
        end
  end.

Definition lower (c : ascii) : ascii :=
  let n := nat_of_ascii c in
  if ((65 <=? n) && (n <=? 90))%nat then ascii_of_nat (n + 32) else c.

(** [s ILIKE p]: [LIKE] without regard to letter case. *)
Definition ilike (s p : string) : bool :=
  like (map lower (list_ascii_of_string p)) (map lower (list_ascii_of_string s)).

(** [col ILIKE p] on a nullable column: NULL matches nothing. *)
Definition ilike_col (col : option string) (p : string) : bool :=
  match col with
  | Some s => ilike s p
  | None => false
  end.

End Sql.

(* ================================================================= *)
(** ** Talking to the store: [pool.query], [try]/[catch], the logger *)

(** A value bound to a [$n] placeholder. *)
Inductive Param : Type :=
| PText (s : string)
| PNumber (n : Js.number)
| PBool (b : bool)
| PJsonTimestamp (t : Z)
| PNull.

Definition param_of_option {A : Type} (f : A -> Param) (o : option A) : Param :=
  match o with Some a => f a | None => PNull end.

(** A statement as handed to [pool.query(text, values)], with what it
    means on the store at time [now]: the rows it returns and the store
    it leaves, or the message of the error the store raises. *)
Record Query (R : Type) : Type := mkQuery {
  sql : string;
  params : list Param;
  answer : Z -> DB -> string + (R * DB)
}.
Arguments mkQuery {R} _ _ _.
Arguments sql {R} _.
Arguments params {R} _.
Arguments answer {R} _ _ _.

(** What one request leaves behind: the statements it sent, each with
    the store as it was once the statement had run ([None] when the
    statement failed), and the lines given to [logger.error]. *)
Record Statement : Type := mkStatement {
  text : string;
  bound : list Param;
  after : option DB
}.

Record World : Type := mkWorld {
  db : DB;
  issued : list Statement;
  logged : list string
}.

(** The surroundings of one request: the clock, the process uptime in
    whole seconds, and which of the statements it sends will fail (the
    [n]-th statement of the request rejects with message [m] when
    [fault n = Some m]: connection loss, constraint violation, ...). *)
Record Env : Type := mkEnv {
  now : Z;
  uptime : Z;
  fault : nat -> option string
}.

(** Handler code: reads the surroundings, changes the world, and either
    returns or throws an error with a message. *)
Definition M (A : Type) : Type := Env -> World -> (string + A) * World.

Definition ret {A : Type} (a : A) : M A := fun _ w => (inr a, w).

Definition bind {A B : Type} (m : M A) (k : A -> M B) : M B :=
  fun env w =>
    match m env w with
    | (inr a, w') => k a env w'
    | (inl e, w') => (inl e, w')
    end.

Declare Scope handler_scope.
Delimit Scope handler_scope with handler.
Notation "x <- m ;; k" := (bind m (fun x => k))
  (at level 100, m at next level, right associativity) : handler_scope.
Notation "' p <- m ;; k" := (bind m (fun x => let p := x in k))
  (at level 100, p pattern, m at next level, right associativity) : handler_scope.
Open Scope handler_scope.

Definition throw {A : Type} (e : string) : M A := fun _ w => (inl e, w).

Definition try_catch {A : Type} (body : M A) (handler : string -> M A) : M A :=
  fun env w =>
    match body env w with
    | (inr a, w') => (inr a, w')
    | (inl e, w') => handler e env w'
    end.

Definition logger_error (line : string) : M unit :=
  fun _ w => (inr tt, mkWorld (db w) (issued w) (logged w ++ [line])).

Definition get_now : M Z := fun env w => (inr (now env), w).

Definition get_uptime : M Z := fun env w => (inr (uptime env), w).

(** [pool.query(...)] without the [await]: the statement is sent and
    settles, to rows or to an error. *)
Definition pool_query_settled {R : Type} (q : Query R) : M (string + R) :=
  fun env w =>
    let sent (d : option DB) := issued w ++ [mkStatement (sql q) (params q) d] in
    match fault env (List.length (issued w)) with
    | Some e => (inr (inl e), mkWorld (db w) (sent None) (logged w))
    | None =>
        match answer q (now env) (db w) with
        | inl e => (inr (inl e), mkWorld (db w) (sent None) (logged w))
        | inr (rows, d) => (inr (inr rows), mkWorld d (sent (Some d)) (logged w))
        end
    end.

Definition await {R : Type} (p : string + R) : M R :=
  match p with
  | inr r => ret r
  | inl e => throw e
  end.

(** [await pool.query(...)]. *)
Definition pool_query {R : Type} (q : Query R) : M R :=
  p <- pool_query_settled q ;; await p.

(** The JSON envelope and the HTTP status it is sent with. *)
Module Res.
Record t (T : Type) : Type := mk {
  status : Z;
  success : bool;
  data : option T;
  message : option string;
  error : option string;
  statusCode : option Z
}.
Arguments mk {T} _ _ _ _ _ _.
Arguments status {T} _.
Arguments success {T} _.
Arguments data {T} _.
Arguments message {T} _.
Arguments error {T} _.
Arguments statusCode {T} _.
End Res.

(** A read: the store is left as it was. *)
Definition reading {R : Type} (f : Z -> DB -> R) : Z -> DB -> string + (R * DB) :=
  fun t d => inr (f t d, d).

Definition day : Z := 86400.

(** [DATE(ts)]. *)
Definition DATE (ts : Z) : Z := ts / day.

Definition tuple4_eqb (a b : Z * option string * option string * option string) : bool :=
  let '(i, u, e, t) := a in
  let '(i', u', e', t') := b in
  (i =? i') && Sql.option_string_eqb u u' && Sql.option_string_eqb e e'
  && Sql.option_string_eqb t t'.

(* ================================================================= *)
(** ** The SQL text of every statement, as the source spells it *)

Module Text.

Definition adminCheck : string :=
"SELECT is_admin FROM users WHERE id = $1".

Definition usersResult : string :=
"SELECT COUNT(*) as total FROM users".

Definition listingsResult : string :=
"SELECT COUNT(*) as total FROM listings".

Definition marketplaceAccountsResult : string :=
"SELECT COUNT(*) as total FROM marketplace_accounts WHERE is_active = true".

Definition ebayListingsResult : string :=
"SELECT COUNT(*) as total FROM ebay_listings".

Definition subscriptionTiersResult : string :=
"
        SELECT subscription_tier, COUNT(*) as count
        FROM users
        GROUP BY subscription_tier
      ".

Definition recentUsersResult : string :=
"
        SELECT COUNT(*) as count
        FROM users
        WHERE created_at > NOW() - INTERVAL '7 days'
      ".

Definition activeUsersResult : string :=
"
        SELECT COUNT(DISTINCT user_id) as count
        FROM listings
        WHERE created_at > NOW() - INTERVAL '30 days'
      ".

Definition listingsByStatusResult : string :=
"
      SELECT
        COUNT(*) FILTER (WHERE status = 'draft') as drafts,
        COUNT(*) FILTER (WHERE status = 'active') as active,
        COUNT(*) FILTER (WHERE status = 'sold') as sold,
        COUNT(*) FILTER (WHERE status = 'archived') as archived
      FROM listings
    ".

Definition topUsersResult : string :=
"
      SELECT
        u.id,
        u.username,
        u.email,
        u.subscription_tier,
        COUNT(l.id) as listing_count
      FROM users u
      LEFT JOIN listings l ON u.id = l.user_id
      GROUP BY u.id, u.username, u.email, u.subscription_tier
      ORDER BY listing_count DESC
      LIMIT 10
    ".

Definition revenueResult : string :=
"
      SELECT
        COUNT(*) FILTER (WHERE subscription_tier = 'premium') as premium_count,
        COUNT(*) FILTER (WHERE subscription_tier = 'premium_plus') as premium_plus_count
      FROM users
    ".

Definition logActivity : string :=
"INSERT INTO admin_activity_log (admin_id, action, details, ip_address)
       VALUES ($1, 'view_dashboard', $2, $3)".

Definition query : string :=
"
      SELECT
        u.id, u.username, u.email, u.subscription_tier,
        u.points, u.current_level, u.is_admin,
        u.created_at, u.updated_at,
        COUNT(l.id) as listing_count,
        COUNT(ma.id) as connected_accounts
      FROM users u
      LEFT JOIN listings l ON u.id = l.user_id
      LEFT JOIN marketplace_accounts ma ON u.id = ma.user_id AND ma.is_active = true
      WHERE 1=1
    ".

Definition countQuery : string :=
"SELECT COUNT(*) FROM users WHERE 1=1".

Definition signupsResult_before : string :=
"
      SELECT
        DATE(created_at) as date,
        COUNT(*) as count
      FROM users
      WHERE created_at > NOW() - INTERVAL '".

Definition signupsResult_after : string :=
" days'
      GROUP BY DATE(created_at)
      ORDER BY date DESC
    ".

Definition statsListingsResult_before : string :=
"
      SELECT
        DATE(created_at) as date,
        COUNT(*) as count
      FROM listings
      WHERE created_at > NOW() - INTERVAL '".

Definition statsListingsResult_after : string :=
" days'
      GROUP BY DATE(created_at)
      ORDER BY date DESC
    ".

Definition activity : string :=
"
      SELECT
        aal.id, aal.action, aal.target_type, aal.target_id,
        aal.details, aal.ip_address, aal.created_at,
        u.username, u.email
      FROM admin_activity_log aal
      JOIN users u ON aal.admin_id = u.id
      ORDER BY aal.created_at DESC
      LIMIT $1
    ".

Definition dashboardUsers : string :=
"SELECT COUNT(*) as count FROM users".

Definition dashboardListings : string :=
"SELECT COUNT(*) as count FROM listings WHERE deleted_at IS NULL".

Definition statusResult : string :=
"
      SELECT status, COUNT(*) as count
      FROM listings
      WHERE deleted_at IS NULL
      GROUP BY status
    ".

Definition pointsResult : string :=
"SELECT SUM(points) as total FROM users".

Definition allUsers : string :=
"
      SELECT id, username, email, subscription_tier, points, current_level, is_admin, created_at, updated_at
      FROM users
      ORDER BY created_at DESC
    ".

Definition oneUser : string :=
"
      SELECT id, username, email, subscription_tier, points, current_level, is_admin, created_at, updated_at
      FROM users
      WHERE id = $1
    ".

Definition updateUser : string :=
"
      UPDATE users
      SET username = $1, email = $2, subscription_tier = $3, points = $4, is_admin = $5, updated_at = NOW()
      WHERE id = $6
      RETURNING id, username, email, subscription_tier, points, is_admin
    ".

Definition softDeleteUserListings : string :=
"UPDATE listings SET deleted_at = NOW() WHERE user_id = $1".

Definition deleteUser : string :=
"DELETE FROM users WHERE id = $1 RETURNING id".

Definition allListings : string :=
"
      SELECT id, user_id, title, description, status, price, category, marketplace_listings, created_at
      FROM listings
      WHERE deleted_at IS NULL
      ORDER BY created_at DESC
    ".

Definition deleteListing : string :=
"
      UPDATE listings
      SET deleted_at = NOW()
      WHERE id = $1
      RETURNING id
    ".

Definition dbCheck : string :=
"SELECT NOW()".

Definition tablesResult : string :=
"
      SELECT
        (SELECT COUNT(*) FROM users) as users,
        (SELECT COUNT(*) FROM listings WHERE deleted_at IS NULL) as listings,
        (SELECT COUNT(*) FROM marketplace_accounts) as marketplace_accounts
    ".

Definition userGrowth : string :=
"
      SELECT DATE(created_at) as date, COUNT(*) as count
      FROM users
      WHERE created_at >= NOW() - INTERVAL '7 days'
      GROUP BY DATE(created_at)
      ORDER BY date
    ".

Definition listingGrowth : string :=
"
      SELECT DATE(created_at) as date, COUNT(*) as count
      FROM listings
      WHERE created_at >= NOW() - INTERVAL '7 days' AND deleted_at IS NULL
      GROUP BY DATE(created_at)
      ORDER BY date
    ".

End Text.

(* ================================================================= *)
(** ** adminController.ts *)

Module Metrics.
Record Overview : Type := mkOverview {
  totalUsers : Z;
  totalListings : Z;
  connectedAccounts : Z;
  ebayListings : Z;
  recentUsers : Z;
  activeUsers : Z
}.

Record Listings : Type := mkListings {
  drafts : Z;
  active : Z;
  sold : Z;
  archived : Z
}.

Record Revenue : Type := mkRevenue {
  monthlyRevenue : Js.rendered;
  annualRevenue : Js.rendered;
  premiumUsers : Z;
  premiumPlusUsers : Z
}.

Record TopUser : Type := mkTopUser {
  id : Z;
  username : option string;
  email : option string;
  subscription_tier : option string;
  listing_count : Z
}.

Record Report : Type := mkReport {
  overview : Overview;
  subscriptions : list (string * Z);
  listings : Listings;
  revenue : Revenue;
  topUsers : list TopUser
}.
End Metrics.

Module Controller.

Definition denied {T : Type} (msg : string) : Res.t T :=
  Res.mk 403 false None None (Some msg) (Some 403).

Definition ok {T : Type} (d : T) : Res.t T :=
  Res.mk 200 true (Some d) None None (Some 200).

Definition failed {T : Type} (msg : string) : Res.t T :=
  Res.mk 500 false None None (Some msg) (Some 500).

(** [SELECT is_admin FROM users WHERE id = $1]. *)
Definition adminCheck (userId : Z) : Query (list (option bool)) :=
  mkQuery Text.adminCheck [PNumber (Some userId)]
    (reading (fun _ d =>
       map User.is_admin (filter (fun u => User.id u =? userId) (users d)))).

(** [adminCheck.rows[0]?.is_admin], as a condition. *)
Definition first_is_admin (rows : list (option bool)) : bool :=
  match rows with
  | Some true :: _ => true
  | _ => false
  end.

Definition usersResult : Query Z :=
  mkQuery Text.usersResult []
    (reading (fun _ d => Sql.count (fun _ => true) (users d))).

Definition listingsResult : Query Z :=
  mkQuery Text.listingsResult []
    (reading (fun _ d => Sql.count (fun _ => true) (listings d))).

Definition marketplaceAccountsResult : Query Z :=
  mkQuery Text.marketplaceAccountsResult []
    (reading (fun _ d => Sql.count Account.is_active (marketplace_accounts d))).

Definition ebayListingsResult : Query Z :=
  mkQuery Text.ebayListingsResult []
    (reading (fun _ d => Sql.count (fun _ => true) (ebay_listings d))).

Definition subscriptionTiersResult : Query (list (option string * Z)) :=
  mkQuery Text.subscriptionTiersResult []
    (reading (fun _ d =>
       map (fun t =>
              (t, Sql.count
                    (fun u => Sql.option_string_eqb (User.subscription_tier u) t)
                    (users d)))
           (Sql.distinct Sql.option_string_eqb []
              (map User.subscription_tier (users d))))).

Definition recentUsersResult : Query Z :=
  mkQuery Text.recentUsersResult []
    (reading (fun t d =>
       Sql.count (fun u => t - 7 * day <? User.created_at u) (users d))).

Definition activeUsersResult : Query Z :=
  mkQuery Text.activeUsersResult []
    (reading (fun t d =>
       Sql.count_distinct
         (map Listing.user_id
            (filter (fun l => t - 30 * day <? Listing.created_at l)
                    (listings d))))).

Definition has_status (s : string) (l : Listing.row) : bool :=
  String.eqb (Listing.status l) s.

Definition listingsByStatusResult : Query Metrics.Listings :=
  mkQuery Text.listingsByStatusResult []
    (reading (fun _ d =>
       Metrics.mkListings
         (Sql.count (has_status "draft") (listings d))
         (Sql.count (has_status "active") (listings d))
         (Sql.count (has_status "sold") (listings d))
         (Sql.count (has_status "archived") (listings d)))).

Definition owns (u : User.row) (l : Listing.row) : bool :=
  User.id u =? Listing.user_id l.

Definition topUsersResult : Query (list Metrics.TopUser) :=
  mkQuery Text.topUsersResult []
    (reading (fun _ d =>
       let joined := Sql.left_join owns (users d) (listings d) in
       let groups :=
         Sql.group_by tuple4_eqb
           (fun r : User.row * option Listing.row =>
              let u := fst r in
              (User.id u, User.username u, User.email u, User.subscription_tier u))
           joined in
       let rows :=
         map (fun g : (User.row * option Listing.row)
                      * list (User.row * option Listing.row) =>
                let u := fst (fst g) in
                Metrics.mkTopUser (User.id u) (User.username u) (User.email u)
                  (User.subscription_tier u)
                  (Sql.count_some snd (snd g)))
             groups in
       firstn 10 (Sql.order_by_desc Metrics.listing_count rows))).

Definition has_tier (t : string) (u : User.row) : bool :=
  Sql.option_string_eqb (User.subscription_tier u) (Some t).

Definition revenueResult : Query (Z * Z) :=
  mkQuery Text.revenueResult []
    (reading (fun _ d =>
       (Sql.count (has_tier "premium") (users d),
        Sql.count (has_tier "premium_plus") (users d)))).

(** [INSERT INTO admin_activity_log (admin_id, action, details,
    ip_address) VALUES ($1, 'view_dashboard', $2, $3)]; the key and the
    creation time take their column defaults. *)
Definition logActivity (userId stamp : Z) (ip : string) : Query unit :=
  mkQuery Text.logActivity [PNumber (Some userId); PJsonTimestamp stamp; PText ip]
    (fun t d =>
       inr (tt,
            set_admin_activity_log
              (fun l =>
                 l ++ [Activity.mk (Z.of_nat (List.length l) + 1) userId
                         "view_dashboard" None None stamp ip t])
              d)).

(** [acc[key] = value] on a plain object. *)
Fixpoint obj_set (k : string) (v : Z) (o : list (string * Z)) : list (string * Z) :=
  match o with
  | [] => [(k, v)]
  | (k', v') :: o' =>
      if String.eqb k k' then (k, v) :: o' else (k', v') :: obj_set k v o'
  end.

(** A property key made of a nullable column value. *)
Definition key_of (t : option string) : string :=
  match t with Some s => s | None => "null" end.

Definition monthly (premiumCount premiumPlusCount : Z) : float :=
  (Js.of_count premiumCount * 4.99 + Js.of_count premiumPlusCount * 9.99)%float.

Definition annual (monthlyRevenue : float) : float :=
  (monthlyRevenue * 12)%float.

Definition revenue_of (premiumCount premiumPlusCount : Z) : Metrics.Revenue :=
  let monthlyRevenue := monthly premiumCount premiumPlusCount in
  let annualRevenue := annual monthlyRevenue in
  Metrics.mkRevenue (Js.toFixed 2 monthlyRevenue) (Js.toFixed 2 annualRevenue)
    premiumCount premiumPlusCount.

(** GET /api/v1/admin/metrics *)
Definition getDashboardMetrics (userId : Z) (ip : string)
  : M (Res.t Metrics.Report) :=
  try_catch
    (adminRows <- pool_query (adminCheck userId) ;;
     if negb (first_is_admin adminRows) then
       ret (denied "Access denied. Admin privileges required.")
     else
       (* Promise.all: the seven reads are all sent, then awaited *)
       p1 <- pool_query_settled usersResult ;;
       p2 <- pool_query_settled listingsResult ;;
       p3 <- pool_query_settled marketplaceAccountsResult ;;
       p4 <- pool_query_settled ebayListingsResult ;;
       p5 <- pool_query_settled subscriptionTiersResult ;;
       p6 <- pool_query_settled recentUsersResult ;;
       p7 <- pool_query_settled activeUsersResult ;;
       totalUsers <- await p1 ;;
       totalListings <- await p2 ;;
       connectedAccounts <- await p3 ;;
       ebayListings <- await p4 ;;
       tiers <- await p5 ;;
       recentUsers <- await p6 ;;
       activeUsers <- await p7 ;;
       byStatus <- pool_query listingsByStatusResult ;;
       topUsers <- pool_query topUsersResult ;;
       counts <- pool_query revenueResult ;;
       let metrics :=
         Metrics.mkReport
           (Metrics.mkOverview totalUsers totalListings connectedAccounts
              ebayListings recentUsers activeUsers)
           (fold_left (fun acc row => obj_set (key_of (fst row)) (snd row) acc)
              tiers [])
           byStatus
           (revenue_of (fst counts) (snd counts))
           topUsers in
       stamp <- get_now ;;
       _ <- pool_query (logActivity userId stamp ip) ;;
       ret (ok metrics))
    (fun e =>
       _ <- logger_error ("Admin metrics error: " ++ e) ;;
       ret (failed "Failed to fetch dashboard metrics")).

(** *** getUsers: the filtered, paginated listing *)

(** One row of the listing: the nine selected user columns and the two
    counts. *)
Record UserSummary : Type := mkUserSummary {
  user : User.row;
  listing_count : Z;
  connected_accounts : Z
}.

Record Pagination : Type := mkPagination {
  page : Js.number;
  limit : Js.number;
  total : Z;
  totalPages : Js.number
}.

Record UsersPage : Type := mkUsersPage {
  page_users : list UserSummary;
  pagination : Pagination
}.

(** A condition appended to [WHERE 1=1]; the numbers are the
    placeholders it mentions. *)
Inductive Clause : Type :=
| NameOrEmailIlike (i j : nat)
| TierEquals (i : nat).

(** [$n]. *)
Definition placeholder (n : nat) : string :=
  "$" ++ Js.string_of_Z (Z.of_nat n).

(** The value bound to [$n]. *)
Definition param (ps : list Param) (n : nat) : Param :=
  nth (n - 1) ps PNull.

Definition holds (ps : list Param) (u : User.row) (c : Clause) : bool :=
  match c with
  | NameOrEmailIlike i j =>
      match param ps i with
      | PText p => Sql.ilike_col (User.username u) p
      | _ => false
      end
      || match param ps j with
         | PText p => Sql.ilike_col (User.email u) p
         | _ => false
         end
  | TierEquals i =>
      match param ps i, User.subscription_tier u with
      | PText t, Some t' => String.eqb t' t
      | _, _ => false
      end
  end.

Definition where_ (ps : list Param) (cs : list Clause) (u : User.row) : bool :=
  forallb (holds ps u) cs.

(** A value given for [LIMIT] or [OFFSET]: the store takes a
    non-negative integer and raises an error on anything else. *)
Definition row_count (what : string) (p : Param) : string + Z :=
  match p with
  | PNumber (Some n) =>
      if n <? 0 then inl (what ++ " must not be negative")%string else inr n
  | _ => inl "invalid input syntax for type bigint"
  end.

Definition is_active_account_of (r : User.row * option Listing.row)
  (ma : Account.row) : bool :=
  (User.id (fst r) =? Account.user_id ma) && Account.is_active ma.

(** The rows of
    [users u LEFT JOIN listings l ON u.id = l.user_id
             LEFT JOIN marketplace_accounts ma
               ON u.id = ma.user_id AND ma.is_active = true]. *)
Definition joined_rows (d : DB)
  : list (User.row * option Listing.row * option Account.row) :=
  Sql.left_join is_active_account_of
    (Sql.left_join owns (users d) (listings d))
    (marketplace_accounts d).

(** [... WHERE cs GROUP BY u.id], with [COUNT(l.id)] and [COUNT(ma.id)]
    taken over each group. *)
Definition grouped_rows (ps : list Param) (cs : list Clause) (d : DB)
  : list UserSummary :=
  map (fun g : (User.row * option Listing.row * option Account.row)
               * list (User.row * option Listing.row * option Account.row) =>
         mkUserSummary (fst (fst (fst g)))
           (Sql.count_some (fun r => snd (fst r)) (snd g))
           (Sql.count_some snd (snd g)))
      (Sql.group_by Z.eqb
         (fun r : User.row * option Listing.row * option Account.row =>
            User.id (fst (fst r)))
         (filter (fun r => where_ ps cs (fst (fst r))) (joined_rows d))).

Definition users_answer (ps : list Param) (cs : list Clause) (li oi : nat)
  : Z -> DB -> string + (list UserSummary * DB) :=
  fun _ d =>
    match row_count "LIMIT" (param ps li), row_count "OFFSET" (param ps oi) with
    | inr n, inr k =>
        inr (Sql.limit_offset n k
               (Sql.order_by_desc (fun r => User.created_at (user r))
                  (grouped_rows ps cs d)),
             d)
    | inl e, _ => inl e
    | _, inl e => inl e
    end.

(** The statement that [getUsers] assembles: text, values and, next to
    them, the conditions the text spells. *)
Definition usersQuery (search tier : string) (limit offset : Js.number)
  : Query (list UserSummary) :=
  let query := Text.query in
  let params := @nil Param in
  let cs := @nil Clause in
  let paramIndex := 1%nat in
  let '(query, params, cs, paramIndex) :=
    if Js.truthy search then
      ((query ++ " AND (u.username ILIKE " ++ placeholder paramIndex
          ++ " OR u.email ILIKE " ++ placeholder (paramIndex + 1) ++ ")")%string,
       params ++ [PText ("%" ++ search ++ "%"); PText ("%" ++ search ++ "%")],
       cs ++ [NameOrEmailIlike paramIndex (paramIndex + 1)],
       (paramIndex + 2)%nat)
    else (query, params, cs, paramIndex) in
  let '(query, params, cs, paramIndex) :=
    if Js.truthy tier then
      ((query ++ " AND u.subscription_tier = " ++ placeholder paramIndex)%string,
       params ++ [PText tier],
       cs ++ [TierEquals paramIndex],
       (paramIndex + 1)%nat)
    else (query, params, cs, paramIndex) in
  let query :=
    (query ++ " GROUP BY u.id ORDER BY u.created_at DESC LIMIT "
       ++ placeholder paramIndex ++ " OFFSET " ++ placeholder (paramIndex + 1))%string in
  let params := params ++ [PNumber limit; PNumber offset] in
  mkQuery query params (users_answer params cs paramIndex (paramIndex + 1)).

(** The matching [COUNT( * )]. *)
Definition countQuery (search tier : string) : Query Z :=
  let countQuery := Text.countQuery in
  let countParams := @nil Param in
  let cs := @nil Clause in
  let countParamIndex := 1%nat in
  let '(countQuery, countParams, cs, countParamIndex) :=
    if Js.truthy search then
      ((countQuery ++ " AND (username ILIKE " ++ placeholder countParamIndex
          ++ " OR email ILIKE " ++ placeholder (countParamIndex + 1) ++ ")")%string,
       countParams ++ [PText ("%" ++ search ++ "%"); PText ("%" ++ search ++ "%")],
       cs ++ [NameOrEmailIlike countParamIndex (countParamIndex + 1)],
       (countParamIndex + 2)%nat)
    else (countQuery, countParams, cs, countParamIndex) in
  let '(countQuery, countParams, cs) :=
    if Js.truthy tier then
      ((countQuery ++ " AND subscription_tier = " ++ placeholder countParamIndex)%string,
       countParams ++ [PText tier],
       cs ++ [TierEquals countParamIndex])
    else (countQuery, countParams, cs) in
  mkQuery countQuery countParams
    (reading (fun _ d => Sql.count (where_ countParams cs) (users d))).

(** A query-string field with a numeric default, through [parseInt]. *)
Definition parseInt_or (default : Z) (v : option string) : Js.number :=
  match v with
  | Some s => Js.parseInt s
  | None => Some default
  end.

Definition text_or_empty (v : option string) : string :=
  match v with Some s => s | None => "" end.

(** GET /api/v1/admin/users *)
Definition getUsers (userId : Z) (page limit search tier : option string)
  : M (Res.t UsersPage) :=
  try_catch
    (let search := text_or_empty search in
     let tier := text_or_empty tier in
     adminRows <- pool_query (adminCheck userId) ;;
     if negb (first_is_admin adminRows) then ret (denied "Access denied")
     else
       let offset :=
         Js.mul (Js.sub (parseInt_or 1 page) (Some 1)) (parseInt_or 50 limit) in
       result <- pool_query (usersQuery search tier (parseInt_or 50 limit) offset) ;;
       total <- pool_query (countQuery search tier) ;;
       ret (ok (mkUsersPage result
                  (mkPagination (parseInt_or 1 page) (parseInt_or 50 limit) total
                     (Js.ceil_div total (parseInt_or 50 limit))))))
    (fun e =>
       _ <- logger_error ("Admin get users error: " ++ e) ;;
       ret (failed "Failed to fetch users")).

(** *** getSystemStats: signups and listings per day *)

Record Stats : Type := mkStats {
  signups : list (Z * Z);
  stats_listings : list (Z * Z)
}.

(** [SELECT DATE(created_at), COUNT( * ) ... WHERE created_at > since
    GROUP BY DATE(created_at)], before the ordering. *)
Definition per_day (keep : Z -> bool) (stamps : list Z) : list (Z * Z) :=
  let recent := filter keep stamps in
  map (fun dt => (dt, Sql.count (fun t => DATE t =? dt) recent))
      (Sql.distinct Z.eqb [] (map DATE recent)).

(** The number of days is written into the text, after [parseInt]. *)
Definition signupsResult (days : Js.number) : Query (list (Z * Z)) :=
  mkQuery (Text.signupsResult_before ++ Js.to_string days
             ++ Text.signupsResult_after)%string []
    (fun t d =>
       match days with
       | Some n =>
           inr (Sql.order_by_desc fst
                  (per_day (fun c => t - n * day <? c)
                     (map User.created_at (users d))), d)
       | None => inl "invalid input syntax for type interval"
       end).

Definition statsListingsResult (days : Js.number) : Query (list (Z * Z)) :=
  mkQuery (Text.statsListingsResult_before ++ Js.to_string days
             ++ Text.statsListingsResult_after)%string []
    (fun t d =>
       match days with
       | Some n =>
           inr (Sql.order_by_desc fst
                  (per_day (fun c => t - n * day <? c)
                     (map Listing.created_at (listings d))), d)
       | None => inl "invalid input syntax for type interval"
       end).

(** GET /api/v1/admin/stats *)
Definition getSystemStats (userId : Z) (days : option string) : M (Res.t Stats) :=
  try_catch
    (adminRows <- pool_query (adminCheck userId) ;;
     if negb (first_is_admin adminRows) then ret (denied "Access denied")
     else
       signupsRows <- pool_query (signupsResult (parseInt_or 30 days)) ;;
       listingsRows <- pool_query (statsListingsResult (parseInt_or 30 days)) ;;
       ret (ok (mkStats signupsRows listingsRows)))
    (fun e =>
       _ <- logger_error ("Admin stats error: " ++ e) ;;
       ret (failed "Failed to fetch system stats")).

(** *** getAdminActivity *)

Record ActivityEntry : Type := mkActivityEntry {
  entry : Activity.row;
  entry_username : option string;
  entry_email : option string
}.

Definition activityResult (limit : Js.number) : Query (list ActivityEntry) :=
  mkQuery Text.activity [PNumber limit]
    (fun _ d =>
       match row_count "LIMIT" (PNumber limit) with
       | inr n =>
           inr (firstn (Z.to_nat n)
                  (Sql.order_by_desc (fun r => Activity.created_at (entry r))
                     (map (fun r : Activity.row * User.row =>
                             mkActivityEntry (fst r) (User.username (snd r))
                               (User.email (snd r)))
                          (Sql.inner_join
                             (fun a u => Activity.admin_id a =? User.id u)
                             (admin_activity_log d) (users d)))),
                d)
       | inl e => inl e
       end).

(** GET /api/v1/admin/activity *)
Definition getAdminActivity (userId : Z) (limit : option string)
  : M (Res.t (list ActivityEntry)) :=
  try_catch
    (adminRows <- pool_query (adminCheck userId) ;;
     if negb (first_is_admin adminRows) then ret (denied "Access denied")
     else
       rows <- pool_query (activityResult (parseInt_or 50 limit)) ;;
       ret (ok rows))
    (fun e =>
       _ <- logger_error ("Admin activity error: " ++ e) ;;
       ret (failed "Failed to fetch admin activity")).

End Controller.

(* ================================================================= *)
(** ** The admin router *)

Module Router.

(** [res.json({ success: true, ... })]. *)
Definition sent {T : Type} (d : option T) (msg : option string) : Res.t T :=
  Res.mk 200 true d msg None None.

Definition not_found {T : Type} (msg : string) : Res.t T :=
  Res.mk 404 false None (Some msg) None None.

(** The 500 envelope carries the message of the error that was caught. *)
Definition failed {T : Type} (msg e : string) : Res.t T :=
  Res.mk 500 false None (Some msg) (Some e) None.

(** Modelled from the spec: the [isAdmin] middleware every route is
    mounted behind (middleware/isAdmin is not among the sources).  The
    spec has it as the same capability check the controller makes
    inline: the caller's user row must carry a true admin flag, otherwise
    the request is answered 403 and the handler never runs. *)
Definition isAdmin {T : Type} (userId : Z) (next : M (Res.t T)) : M (Res.t T) :=
  fun env w =>
    if Controller.first_is_admin
         (map User.is_admin (filter (fun u => User.id u =? userId) (users (db w))))
    then next env w
    else (inr (Res.mk 403 false None (Some "Access denied") None None), w).

(** *** GET /dashboard *)

Record Dashboard : Type := mkDashboard {
  totalUsers : Z;
  totalListings : Z;
  activeListings : Z;
  draftListings : Z;
  publishedListings : Z;
  totalPoints : Z;
  avgListingsPerUser : float
}.

Definition live (l : Listing.row) : bool :=
  match Listing.deleted_at l with None => true | Some _ => false end.

Definition usersResult : Query Z :=
  mkQuery Text.dashboardUsers []
    (reading (fun _ d => Sql.count (fun _ => true) (users d))).

Definition listingsResult : Query Z :=
  mkQuery Text.dashboardListings []
    (reading (fun _ d => Sql.count live (listings d))).

Definition statusResult : Query (list (string * Z)) :=
  mkQuery Text.statusResult []
    (reading (fun _ d =>
       let rows := filter live (listings d) in
       map (fun s => (s, Sql.count (Controller.has_status s) rows))
           (Sql.distinct String.eqb [] (map Listing.status rows)))).

(** [SUM(points)]: NULL when no row has points. *)
Definition pointsResult : Query (option Z) :=
  mkQuery Text.pointsResult []
    (reading (fun _ d =>
       fold_left (fun acc u =>
                    match User.points u, acc with
                    | Some p, Some a => Some (a + p)
                    | Some p, None => Some p
                    | None, _ => acc
                    end)
                 (users d) None)).

(** The body of [statusResult.rows.forEach], on the three counters. *)
Definition tally (acc : Z * Z * Z) (row : string * Z) : Z * Z * Z :=
  let '(activeListings, draftListings, publishedListings) := acc in
  let activeListings :=
    if String.eqb (fst row) "active" then snd row else activeListings in
  let draftListings :=
    if String.eqb (fst row) "draft" then snd row else draftListings in
  let publishedListings :=
    if String.eqb (fst row) "published" then snd row else publishedListings in
  (activeListings, draftListings, publishedListings).

Definition dashboard : M (Res.t Dashboard) :=
  try_catch
    (totalUsers <- pool_query usersResult ;;
     totalListings <- pool_query listingsResult ;;
     rows <- pool_query statusResult ;;
     let '(activeListings, draftListings, publishedListings) :=
       fold_left tally rows (0, 0, 0) in
     total <- pool_query pointsResult ;;
     let totalPoints := match total with Some n => n | None => 0 end in
     let avgListingsPerUser :=
       if 0 <? totalUsers
       then (Js.of_count totalListings / Js.of_count totalUsers)%float
       else 0%float in
     ret (sent (Some (mkDashboard totalUsers totalListings activeListings
                        draftListings publishedListings totalPoints
                        avgListingsPerUser))
               None))
    (fun e =>
       _ <- logger_error ("Admin dashboard error: " ++ e) ;;
       ret (failed "Failed to fetch dashboard stats" e)).

(** *** GET /users, GET /users/:id *)

Definition allUsers : Query (list User.row) :=
  mkQuery Text.allUsers []
    (reading (fun _ d => Sql.order_by_desc User.created_at (users d))).

Definition getUsers : M (Res.t (list User.row * Z)) :=
  try_catch
    (rows <- pool_query allUsers ;;
     ret (sent (Some (rows, Z.of_nat (List.length rows))) None))
    (fun e =>
       _ <- logger_error ("Get users error: " ++ e) ;;
       ret (failed "Failed to fetch users" e)).

Definition oneUser (id : Z) : Query (list User.row) :=
  mkQuery Text.oneUser [PNumber (Some id)]
    (reading (fun _ d => filter (fun u => User.id u =? id) (users d))).

Definition getUser (id : Z) : M (Res.t User.row) :=
  try_catch
    (rows <- pool_query (oneUser id) ;;
     match rows with
     | [] => ret (not_found "User not found")
     | u :: _ => ret (sent (Some u) None)
     end)
    (fun e =>
       _ <- logger_error ("Get user error: " ++ e) ;;
       ret (failed "Failed to fetch user" e)).

(** *** PUT /users/:id *)

(** [req.body]: a field that is absent (or null) is [None]. *)
Record Body : Type := mkBody {
  username : option string;
  email : option string;
  subscription_tier : option string;
  points : option Z;
  is_admin : option bool
}.

(** The columns after [RETURNING]. *)
Record Projection : Type := mkProjection {
  p_id : Z;
  p_username : option string;
  p_email : option string;
  p_subscription_tier : option string;
  p_points : option Z;
  p_is_admin : option bool
}.

Definition projection (u : User.row) : Projection :=
  mkProjection (User.id u) (User.username u) (User.email u)
    (User.subscription_tier u) (User.points u) (User.is_admin u).

(** [SET username = $1, email = $2, subscription_tier = $3, points = $4,
    is_admin = $5, updated_at = NOW()] on one row. *)
Definition assign (b : Body) (t : Z) (u : User.row) : User.row :=
  User.mk (User.id u) (username b) (email b) (subscription_tier b) (points b)
    (User.current_level u) (is_admin b) (User.created_at u) t.

Definition updateUser (id : Z) (b : Body) : Query (list Projection) :=
  mkQuery Text.updateUser
    [param_of_option PText (username b); param_of_option PText (email b);
     param_of_option PText (subscription_tier b);
     param_of_option (fun n => PNumber (Some n)) (points b);
     param_of_option PBool (is_admin b); PNumber (Some id)]
    (fun t d =>
       let hit u := User.id u =? id in
       inr (map (fun u => projection (assign b t u)) (filter hit (users d)),
            set_users (map (fun u => if hit u then assign b t u else u)) d)).

Definition putUser (id : Z) (b : Body) : M (Res.t Projection) :=
  try_catch
    (rows <- pool_query (updateUser id b) ;;
     match rows with
     | [] => ret (not_found "User not found")
     | r :: _ => ret (sent (Some r) (Some "User updated successfully"))
     end)
    (fun e =>
       _ <- logger_error ("Update user error: " ++ e) ;;
       ret (failed "Failed to update user" e)).

(** *** DELETE /users/:id *)

Definition mark_deleted (t : Z) (l : Listing.row) : Listing.row :=
  Listing.mk (Listing.id l) (Listing.user_id l) (Listing.title l)
    (Listing.description l) (Listing.status l) (Listing.price l)
    (Listing.category l) (Listing.marketplace_listings l)
    (Listing.created_at l) (Some t).

(** [UPDATE listings SET deleted_at = NOW() WHERE user_id = $1]. *)
Definition softDeleteUserListings (id : Z) : Query unit :=
  mkQuery Text.softDeleteUserListings [PNumber (Some id)]
    (fun t d =>
       inr (tt,
            set_listings
              (map (fun l => if Listing.user_id l =? id then mark_deleted t l else l))
              d)).

(** [DELETE FROM users WHERE id = $1 RETURNING id]. *)
Definition deleteUserRow (id : Z) : Query (list Z) :=
  mkQuery Text.deleteUser [PNumber (Some id)]
    (fun _ d =>
       inr (map User.id (filter (fun u => User.id u =? id) (users d)),
            set_users (filter (fun u => negb (User.id u =? id))) d)).

Definition deleteUser (id : Z) : M (Res.t unit) :=
  try_catch
    (_ <- pool_query (softDeleteUserListings id) ;;
     rows <- pool_query (deleteUserRow id) ;;
     match rows with
     | [] => ret (not_found "User not found")
     | _ :: _ => ret (sent None (Some "User deleted successfully"))
     end)
    (fun e =>
       _ <- logger_error ("Delete user error: " ++ e) ;;
       ret (failed "Failed to delete user" e)).

(** *** GET /listings, DELETE /listings/:id *)

(** The selected columns are all but [deleted_at], which the [WHERE]
    clause holds to NULL. *)
Definition allListings : Query (list Listing.row) :=
  mkQuery Text.allListings []
    (reading (fun _ d =>
       Sql.order_by_desc Listing.created_at (filter live (listings d)))).

Definition getListings : M (Res.t (list Listing.row * Z)) :=
  try_catch
    (rows <- pool_query allListings ;;
     ret (sent (Some (rows, Z.of_nat (List.length rows))) None))
    (fun e =>
       _ <- logger_error ("Get listings error: " ++ e) ;;
       ret (failed "Failed to fetch listings" e)).

(** [UPDATE listings SET deleted_at = NOW() WHERE id = $1 RETURNING id]. *)
Definition deleteListingRow (id : Z) : Query (list Z) :=
  mkQuery Text.deleteListing [PNumber (Some id)]
    (fun t d =>
       let hit l := Listing.id l =? id in
       inr (map Listing.id (filter hit (listings d)),
            set_listings (map (fun l => if hit l then mark_deleted t l else l)) d)).

Definition deleteListing (id : Z) : M (Res.t unit) :=
  try_catch
    (rows <- pool_query (deleteListingRow id) ;;
     match rows with
     | [] => ret (not_found "Listing not found")
     | _ :: _ => ret (sent None (Some "Listing deleted successfully"))
     end)
    (fun e =>
       _ <- logger_error ("Delete listing error: " ++ e) ;;
       ret (failed "Failed to delete listing" e)).

(** *** GET /system, GET /analytics *)

Record Health : Type := mkHealth {
  database_status : string;
  connected : bool;
  tables : Z * Z * Z;
  uptime_text : string
}.

Definition dbCheck : Query (list Z) :=
  mkQuery Text.dbCheck [] (reading (fun t _ => [t])).

Definition tablesResult : Query (Z * Z * Z) :=
  mkQuery Text.tablesResult []
    (reading (fun _ d =>
       (Sql.count (fun _ => true) (users d),
        Sql.count live (listings d),
        Sql.count (fun _ => true) (marketplace_accounts d)))).

Definition system : M (Res.t Health) :=
  try_catch
    (rows <- pool_query dbCheck ;;
     let dbConnected := match rows with [] => false | _ :: _ => true end in
     tables <- pool_query tablesResult ;;
     uptime <- get_uptime ;;
     let hours := uptime / 3600 in
     let minutes := (uptime mod 3600) / 60 in
     let uptimeString :=
       (Js.string_of_Z hours ++ "h " ++ Js.string_of_Z minutes ++ "m")%string in
     ret (sent (Some (mkHealth "healthy" dbConnected tables uptimeString)) None))
    (fun e =>
       _ <- logger_error ("System health error: " ++ e) ;;
       ret (failed "Failed to fetch system health" e)).

Definition userGrowth : Query (list (Z * Z)) :=
  mkQuery Text.userGrowth []
    (reading (fun t d =>
       Sql.order_by_asc fst
         (Controller.per_day (fun c => t - 7 * day <=? c)
            (map User.created_at (users d))))).

Definition listingGrowth : Query (list (Z * Z)) :=
  mkQuery Text.listingGrowth []
    (reading (fun t d =>
       Sql.order_by_asc fst
         (Controller.per_day (fun c => t - 7 * day <=? c)
            (map Listing.created_at (filter live (listings d)))))).

Definition analytics : M (Res.t (list (Z * Z) * list (Z * Z))) :=
  try_catch
    (users <- pool_query userGrowth ;;
     listings <- pool_query listingGrowth ;;
     ret (sent (Some (users, listings)) None))
    (fun e =>
       _ <- logger_error ("Analytics error: " ++ e) ;;
       ret (failed "Failed to fetch analytics" e)).

End Router.

(* ================================================================= *)
(** ** The admin API as a whole *)

(** What a handler reads from a request: the caller identity left by
    [authenticate], the network address, the query string, the [:id]
    path parameter and the JSON body. *)
Record Request : Type := mkRequest {
  userId : Z;
  ip : string;
  page : option string;
  limit : option string;
  search : option string;
  tier : option string;
  days : option string;
  id : Z;
  body : Router.Body
}.

Inductive Endpoint : Type :=
| GetMetrics
| GetUsersPage
| GetStats
| GetActivity
| GetDashboard
| GetAllUsers
| GetUser
| PutUser
| DeleteUser
| GetListings
| DeleteListing
| GetSystem
| GetAnalytics.

(** The world at the start of a request: nothing sent, nothing logged. *)
Definition fresh (d : DB) : World := mkWorld d [] [].

(** The status and the [success] flag of the envelope a run ends with;
    [None] if an error escaped the handler. *)
Definition outcome {T : Type} (r : (string + Res.t T) * World)
  : option (Z * bool) * World :=
  (match fst r with
   | inr res => Some (Res.status res, Res.success res)
   | inl _ => None
   end,
   snd r).

Definition serve (e : Endpoint) (req : Request) (env : Env) (w : World)
  : option (Z * bool) * World :=
  match e with
  | GetMetrics =>
      outcome (Controller.getDashboardMetrics (userId req) (ip req) env w)
  | GetUsersPage =>
      outcome (Controller.getUsers (userId req) (page req) (limit req)
                 (search req) (tier req) env w)
  | GetStats => outcome (Controller.getSystemStats (userId req) (days req) env w)
  | GetActivity =>
      outcome (Controller.getAdminActivity (userId req) (limit req) env w)
  | GetDashboard => outcome (Router.isAdmin (userId req) Router.dashboard env w)
  | GetAllUsers => outcome (Router.isAdmin (userId req) Router.getUsers env w)
  | GetUser => outcome (Router.isAdmin (userId req) (Router.getUser (id req)) env w)
  | PutUser =>
      outcome (Router.isAdmin (userId req) (Router.putUser (id req) (body req)) env w)
  | DeleteUser =>
      outcome (Router.isAdmin (userId req) (Router.deleteUser (id req)) env w)
  | GetListings => outcome (Router.isAdmin (userId req) Router.getListings env w)
  | DeleteListing =>
      outcome (Router.isAdmin (userId req) (Router.deleteListing (id req)) env w)
  | GetSystem => outcome (Router.isAdmin (userId req) Router.system env w)
  | GetAnalytics => outcome (Router.isAdmin (userId req) Router.analytics env w)
  end.

(** The user row with a given key, if there is one. *)
Definition user_by_id (userId : Z) (d : DB) : option User.row :=
  find (fun u => User.id u =? userId) (users d).

(** No statement of the request fails. *)
Definition healthy (env : Env) : Prop := forall n, fault env n = None.

(** A store at rest, for examples. *)
Definition no_faults : nat -> option string := fun _ => None.

(* ================================================================= *)
(** ** The admin page *)

Module Frontend.

(** [listing.marketplace_listings] as the page tests it: [None] when
    the value is falsy, otherwise the truthiness of its three
    properties. *)
Record Posted : Type := mkPosted {
  on_craigslist : bool;
  on_ebay : bool;
  on_facebook : bool
}.

Record Listing : Type := mkListing {
  id : Z;
  status : string;
  marketplace_listings : option Posted
}.

Record MarketplaceStats : Type := mkMarketplaceStats {
  craigslist : Z;
  ebay : Z;
  facebook : Z;
  total : Z
}.

(** The callback of [allListings.reduce]. *)
Definition tallyListing (acc : MarketplaceStats) (listing : Listing)
  : MarketplaceStats :=
  match marketplace_listings listing with
  | Some mp =>
      let acc :=
        if on_craigslist mp
        then mkMarketplaceStats (craigslist acc + 1) (ebay acc) (facebook acc)
               (total acc)
        else acc in
      let acc :=
        if on_ebay mp
        then mkMarketplaceStats (craigslist acc) (ebay acc + 1) (facebook acc)
               (total acc)
        else acc in
      let acc :=
        if on_facebook mp
        then mkMarketplaceStats (craigslist acc) (ebay acc) (facebook acc + 1)
               (total acc)
        else acc in
      acc
  | None => acc
  end.

Definition mpStats (allListings : list Listing) : MarketplaceStats :=
  fold_left tallyListing allListings
    (mkMarketplaceStats 0 0 0 (Z.of_nat (List.length allListings))).

(** [marketplaceStats.total || 1], the divisor of the three bars. *)
Definition total_or_one (s : MarketplaceStats) : Z :=
  if total s =? 0 then 1 else total s.

(** [handleUpdateUser]: the key and the body of the request sent for
    the user in the edit dialog; nothing is sent when no user is
    selected. *)
Definition handleUpdateUser (selectedUser : option User.row)
  : option (Z * Router.Body) :=
  match selectedUser with
  | None => None
  | Some su =>
      Some (User.id su,
            Router.mkBody (User.username su) (User.email su)
              (User.subscription_tier su) (User.points su) (User.is_admin su))
  end.

(** The values of the tier select. *)
Definition tier_options : list string := ["free"; "starter"; "pro"; "enterprise"].

(** [setSelectedUser({ ...selectedUser, subscription_tier: v })]. *)
Definition setTier (selectedUser : User.row) (v : string) : User.row :=
  User.mk (User.id selectedUser) (User.username selectedUser)
    (User.email selectedUser) (Some v) (User.points selectedUser)
    (User.current_level selectedUser) (User.is_admin selectedUser)
    (User.created_at selectedUser) (User.updated_at selectedUser).

End Frontend.

(* ================================================================= *)
(** ** Sample data *)

Module Sample.

Definition root : User.row :=
  User.mk 1 (Some "root") (Some "root@quicksell.test") (Some "premium")
    (Some 0) 3 (Some true) 1000 1000.

Definition alice : User.row :=
  User.mk 2 (Some "alice") (Some "Alice@Shop.com") (Some "free")
    (Some 10) 1 (Some false) 2000 2000.

Definition bob : User.row :=
  User.mk 3 (Some "bob") (Some "bob@example.org") (Some "premium_plus")
    (Some 25) 2 (Some false) 3000 3000.

Definition listing (id owner : Z) (status : string) (deleted : option Z)
  : Listing.row :=
  Listing.mk id owner "Bicycle" "A bicycle" status "45.00" "sports" "{}" 2500
    deleted.

Definition account (id owner : Z) (is_active : bool) : Account.row :=
  Account.mk id owner is_active.

(** alice owns two listings and two active marketplace accounts; bob
    owns nothing. *)
Definition store : DB :=
  mkDB [root; alice; bob]
       [listing 10 2 "draft" None; listing 11 2 "active" None]
       [account 20 2 true; account 21 2 true; account 22 2 false]
       [] [].

(** One live listing whose status the metrics handler has no bucket
    for, and two soft-deleted drafts. *)
Definition mixed : DB :=
  mkDB [root]
       [listing 10 1 "published" None; listing 11 1 "draft" (Some 2600);
        listing 12 1 "draft" (Some 2700)]
       [] [] [].


(** One listing that is already soft-deleted. *)
Definition archive : DB :=
  mkDB [root] [listing 10 1 "sold" (Some 2600)] [] [] [].

Definition clock (faults : nat -> option string) : Env := mkEnv 5000 7384 faults.

(** Every statement succeeds but the twelfth of the request. *)
Definition audit_down : nat -> option string :=
  fun n => if (n =? 11)%nat then Some "connection terminated" else None.

Definition only_username : Router.Body :=
  Router.mkBody (Some "alicia") None None None None.

End Sample.

(* ================================================================= *)
(** ** Vocabulary of the statements below *)

(** The world once statement [q] has settled: on the store [d] it left,
    or unchanged when it failed ([None]). *)
Definition settled {R : Type} (w : World) (q : Query R) (d : option DB) : World :=
  mkWorld (match d with Some d' => d' | None => db w end)
          (issued w ++ [mkStatement (sql q) (params q) d]) (logged w).

(** A caller without the admin capability: no user row, or a row whose
    flag is not true. *)
Definition lacks_admin (userId : Z) (d : DB) : Prop :=
  user_by_id userId d = None
  \/ exists u, user_by_id userId d = Some u /\ User.is_admin u <> Some true.

(** A caller with the admin capability. *)
Definition has_admin (userId : Z) (d : DB) : Prop :=
  exists u, user_by_id userId d = Some u /\ User.is_admin u = Some true.

(** What the inline check of the controller leaves behind when it turns
    the caller away ([ok]), or when its own statement fails. *)
Definition checked_world (k : Z) (d : DB) (ok : bool) : World :=
  mkWorld d [mkStatement Text.adminCheck [PNumber (Some k)]
               (if ok then Some d else None)] [].

(** The twelve statements of a metrics request, in the order sent. *)
Definition metrics_texts : list string :=
  [Text.adminCheck; Text.usersResult; Text.listingsResult;
   Text.marketplaceAccountsResult; Text.ebayListingsResult;
   Text.subscriptionTiersResult; Text.recentUsersResult;
   Text.activeUsersResult; Text.listingsByStatusResult; Text.topUsersResult;
   Text.revenueResult; Text.logActivity].



(** The audit row a metrics request appends. *)
Definition audit_row (userId : Z) (ip : string) (t : Z) (d : DB) : Activity.row :=
  Activity.mk (Z.of_nat (List.length (admin_activity_log d)) + 1) userId
    "view_dashboard" None None t ip t.

(** The listings once [DELETE /listings/:id] has run at time [t]. *)
Definition listings_after_delete (id t : Z) (l : list Listing.row)
  : list Listing.row :=
  map (fun r => if Listing.id r =? id then Router.mark_deleted t r else r) l.

(** The users once [PUT /users/:id] has run at time [t]. *)
Definition users_after_update (id : Z) (b : Router.Body) (t : Z)
  (l : list User.row) : list User.row :=
  map (fun u => if User.id u =? id then Router.assign b t u else u) l.

(** The listings once the first statement of [DELETE /users/:id] has
    run at time [t]. *)
Definition listings_after_user_delete (id t : Z) (l : list Listing.row)
  : list Listing.row :=
  map (fun r => if Listing.user_id r =? id then Router.mark_deleted t r else r) l.

(** The users once its second statement has run. *)
Definition users_without (id : Z) (l : list User.row) : list User.row :=
  filter (fun u => negb (User.id u =? id)) l.

(** The characters [parseInt] followed by interpolation can produce:
    decimal digits, a minus sign, and the letters of [NaN]. *)
Definition plain (c : ascii) : bool :=
  let n := nat_of_ascii c in
  ((48 <=? n) && (n <=? 57))%nat || Ascii.eqb c "-" || Ascii.eqb c "N"
  || Ascii.eqb c "a".

(** The values [getUsers] binds for a search text and for a tier. *)
Definition search_values (search : string) : list Param :=
  if Js.truthy search
  then [PText ("%" ++ search ++ "%"); PText ("%" ++ search ++ "%")]
  else [].

Definition tier_values (tier : string) : list Param :=
  if Js.truthy tier then [PText tier] else [].

Definition digit (n : Z) : ascii := ascii_of_nat (48 + Z.to_nat n).

(** An amount of cents written in decimal with two fraction digits. *)
Definition two_places (cents : Z) : string :=
  (Js.string_of_Z (cents / 100) ++ "."
   ++ String (digit (cents mod 100 / 10)) (String (digit (cents mod 10)) ""))%string.

(** The two rendered amounts are the exact ones, in cents
    [499 p + 999 pp] a month and twelve times that a year. *)
Definition revenue_is_exact (p pp : Z) : bool :=
  match Metrics.monthlyRevenue (Controller.revenue_of p pp),
        Metrics.annualRevenue (Controller.revenue_of p pp) with
  | Js.Fixed m, Js.Fixed a =>
      String.eqb m (two_places (499 * p + 999 * pp))
      && String.eqb a (two_places (12 * (499 * p + 999 * pp)))
  | _, _ => false
  end.




(** Requests used in the examples. *)
Definition request_of (userId : Z) : Request :=
  mkRequest userId "10.0.0.1" None None None None None 0
    (Router.mkBody None None None None None).

(** The listings a user owns and the active marketplace accounts the
    user has, counted one table at a time. *)
Definition owned_listings (u : User.row) (d : DB) : Z :=
  Sql.count (Controller.owns u) (listings d).

Definition active_accounts (u : User.row) (d : DB) : Z :=
  Sql.count (fun ma => (User.id u =? Account.user_id ma) && Account.is_active ma)
    (marketplace_accounts d).

(** The rows the two joins of [getUsers] produce for one user. *)
Definition block (d : DB) (u : User.row)
  : list (User.row * option Listing.row * option Account.row) :=
  Sql.left_join Controller.is_active_account_of
    (Sql.left_join Controller.owns [u] (listings d))
    (marketplace_accounts d).

(* ================================================================= *)
(** ** Handlers under every pattern of failures *)

(** Where a run of [m] can end: returning [a] in a world that satisfies
    [Q a], or throwing [e] in a world that satisfies [E e]. *)
Definition ensures {A : Type} (m : M A) (env : Env) (w : World)
  (Q : A -> World -> Prop) (E : string -> World -> Prop) : Prop :=
  match m env w with
  | (inr a, w') => Q a w'
  | (inl e, w') => E e w'
  end.

(** A statement that leaves the store as it found it. *)
Definition read_only {R : Type} (q : Query R) : Prop :=
  forall t d r d', answer q t d = inr (r, d') -> d' = d.

(** The four envelopes the API answers with. *)
Definition well_formed (o : Z * bool) : Prop :=
  o = (200, true) \/ o = (403, false) \/ o = (404, false) \/ o = (500, false).

(** The endpoints that send no writing statement. *)
Definition reads_only (e : Endpoint) : bool :=
  match e with
  | GetMetrics | PutUser | DeleteUser | DeleteListing => false
  | _ => true
  end.

(** The store after the two statements of [DELETE /users/:id], run at
    time [t]: after the first, and after both. *)
Definition after_listings_marked (id t : Z) (d : DB) : DB :=
  set_listings (listings_after_user_delete id t) d.

Definition after_user_deleted (id t : Z) (d : DB) : DB :=
  set_users (users_without id) (after_listings_marked id t d).

(** The store with the audit row of a metrics request appended. *)
Definition with_audit_row (userId : Z) (ip : string) (t : Z) (d : DB) : DB :=
  set_admin_activity_log (fun l => l ++ [audit_row userId ip t d]) d.

(** What one request can do to the store, at time [t]. *)
Definition may_leave (e : Endpoint) (req : Request) (t : Z) (d d' : DB) : Prop :=
  match e with
  | GetMetrics => d' = d \/ d' = with_audit_row (userId req) (ip req) t d
  | PutUser => d' = d \/ d' = set_users (users_after_update (id req) (body req) t) d
  | DeleteListing => d' = d \/ d' = set_listings (listings_after_delete (id req) t) d
  | DeleteUser =>
      d' = d \/ d' = after_listings_marked (id req) t d
      \/ d' = after_user_deleted (id req) t d
  | _ => d' = d
  end.

(** A listing row is left alone or stamped at time [t]. *)
Definition kept_or_stamped (t : Z) (l l' : Listing.row) : Prop :=
  l' = l \/ l' = Router.mark_deleted t l.

(** The fixed texts a controller envelope can carry in [error]. *)
Definition controller_errors : list (option string) :=
  [None;
   Some "Access denied. Admin privileges required.";
   Some "Access denied";
   Some "Failed to fetch dashboard metrics";
   Some "Failed to fetch users";
   Some "Failed to fetch system stats";
   Some "Failed to fetch admin activity"].

(** The envelope is one of the four, and the store is as it was. *)
Definition answered_unchanged {T : Type} (w : World) (a : Res.t T) (w' : World)
  : Prop :=
  well_formed (Res.status a, Res.success a) /\ db w' = db w.

(** The filter of the users listing, as its two [if] blocks spell it:
    the search text between two [%] against name and address, the tier
    by equality; an empty text or tier filters nothing. *)
Definition matches (search tier : string) (u : User.row) : bool :=
  (if Js.truthy search
   then Sql.ilike_col (User.username u) ("%" ++ search ++ "%")
        || Sql.ilike_col (User.email u) ("%" ++ search ++ "%")
   else true)
  && (if Js.truthy tier
      then Sql.option_string_eqb (User.subscription_tier u) (Some tier)
      else true).

(** An integer that a JavaScript number holds exactly, and that the
    store takes as a [bigint]. *)
Definition safe (z : Z) : Prop := - 2 ^ 53 < z < 2 ^ 53.








(** [o[k]]: reading a property of a plain object. *)
Fixpoint obj_get (k : string) (o : list (string * Z)) : option Z :=
  match o with
  | [] => None
  | (k', v) :: o' => if String.eqb k k' then Some v else obj_get k o'
  end.

Definition sum_of (l : list Z) : Z := fold_right Z.add 0 l.

(** A tier whose text is a property key like any other: not ["null"],
    which is also the key of the users without a tier, and not
    ["__proto__"], which names no property of a plain object. *)
Definition ordinary_tier (t : option string) : Prop :=
  t <> Some "null" /\ t <> Some "__proto__".

(** [rows] gives, for each calendar day on which a kept time stamp
    falls, the number of kept stamps of that day, once, and nothing
    else. *)
Definition tallies (keep : Z -> bool) (stamps : list Z) (rows : list (Z * Z))
  : Prop :=
  NoDup (map fst rows)
  /\ (forall dt c,
        In (dt, c) rows
        <-> 0 < c /\ c = Sql.count (fun t => keep t && (DATE t =? dt)) stamps)
  /\ sum_of (map snd rows) = Sql.count keep stamps.

(** [points], NULL read as 0. *)
Definition points_or_zero (u : User.row) : Z :=
  match User.points u with Some p => p | None => 0 end.

(** *** Rows of the admin page *)

(** A user row with [updated_at] moved to [t]. *)
Definition touched (t : Z) (u : User.row) : User.row :=
  User.mk (User.id u) (User.username u) (User.email u) (User.subscription_tier u)
    (User.points u) (User.current_level u) (User.is_admin u) (User.created_at u) t.

(** The listings the page has on a marketplace. *)
Definition posted_on (f : Frontend.Posted -> bool) (l : Frontend.Listing) : bool :=
  match Frontend.marketplace_listings l with
  | Some mp => f mp
  | None => false
  end.

(* ================================================================= *)
(** ** The helpers on small inputs *)

Example parseInt_plain : Js.parseInt "50" = Some 50.
Proof. reflexivity. Qed.

Example parseInt_prefix : Js.parseInt "  -12abc" = Some (-12).
Proof. reflexivity. Qed.

Example parseInt_hex : Js.parseInt "0x1f" = Some 31.
Proof. reflexivity. Qed.

Example parseInt_nan : Js.parseInt "abc" = None.
Proof. reflexivity. Qed.

Example toFixed_half_up : Js.toFixed 2 0.125%float = Js.Fixed "0.13".
Proof. vm_compute. reflexivity. Qed.

Example toFixed_small_negative : Js.toFixed 2 (-0.001)%float = Js.Fixed "-0.00".
Proof. vm_compute. reflexivity. Qed.

Example toFixed_pad : Js.toFixed 2 1198.2%float = Js.Fixed "1198.20".
Proof. vm_compute. reflexivity. Qed.

Example ilike_ignores_case : Sql.ilike "Foo@Bar.com" "%foo%" = true.
Proof. reflexivity. Qed.

Example like_escape : Sql.ilike "50% off" "%50\%%" = true.
Proof. reflexivity. Qed.

Example ceil_div_pages : Js.ceil_div 101 (Some 50) = Some 3.
Proof. reflexivity. Qed.

Example ceil_div_by_zero : Js.ceil_div 101 (Some 0) = None.
Proof. reflexivity. Qed.

Example top_users_order :
  answer Controller.topUsersResult 5000 Sample.store
  = inr ([Metrics.mkTopUser 2 (Some "alice") (Some "Alice@Shop.com") (Some "free") 2;
          Metrics.mkTopUser 1 (Some "root") (Some "root@quicksell.test")
            (Some "premium") 0;
          Metrics.mkTopUser 3 (Some "bob") (Some "bob@example.org")
            (Some "premium_plus") 0],
         Sample.store).
Proof. vm_compute. reflexivity. Qed.

Example uptime_text :
  option_map Router.uptime_text
    (match fst (Router.system (Sample.clock no_faults) (fresh Sample.store)) with
     | inr r => Res.data r
     | inl _ => None
     end)
  = Some "2h 3m".
Proof. vm_compute. reflexivity. Qed.

(* ================================================================= *)
(** ** Running handlers step by step *)

Section Steps.
Context {A R : Type}.
Variables (env : Env) (w : World).

Lemma settled_ok (q : Query R) (k : string + R -> M A) (r : R) (d' : DB) :
  fault env (List.length (issued w)) = None ->
  answer q (now env) (db w) = inr (r, d') ->
  bind (pool_query_settled q) k env w = k (inr r) env (settled w q (Some d')).
Proof.
  intros F Q. unfold bind, pool_query_settled. rewrite F, Q. reflexivity.
Qed.

Lemma settled_fault (q : Query R) (k : string + R -> M A) (e : string) :
  fault env (List.length (issued w)) = Some e ->
  bind (pool_query_settled q) k env w = k (inl e) env (settled w q None).
Proof.
  intros F. unfold bind, pool_query_settled. rewrite F. reflexivity.
Qed.

Lemma settled_rejected (q : Query R) (k : string + R -> M A) (e : string) :
  fault env (List.length (issued w)) = None ->
  answer q (now env) (db w) = inl e ->
  bind (pool_query_settled q) k env w = k (inl e) env (settled w q None).
Proof.
  intros F Q. unfold bind, pool_query_settled. rewrite F, Q. reflexivity.
Qed.

Lemma query_ok (q : Query R) (k : R -> M A) (r : R) (d' : DB) :
  fault env (List.length (issued w)) = None ->
  answer q (now env) (db w) = inr (r, d') ->
  bind (pool_query q) k env w = k r env (settled w q (Some d')).
Proof.
  intros F Q. unfold bind, pool_query, bind, pool_query_settled.
  rewrite F, Q. reflexivity.
Qed.

Lemma query_fault (q : Query R) (k : R -> M A) (e : string) :
  fault env (List.length (issued w)) = Some e ->
  bind (pool_query q) k env w = (inl e, settled w q None).
Proof.
  intros F. unfold bind, pool_query, bind, pool_query_settled.
  rewrite F. reflexivity.
Qed.


Lemma await_ok (r : R) (k : R -> M A) : bind (await (inr r)) k env w = k r env w.
Proof. reflexivity. Qed.

Lemma await_failed (e : string) (k : R -> M A) :
  bind (await (inl e)) k env w = (inl e, w).
Proof. reflexivity. Qed.

End Steps.

Lemma caught {A : Type} (body : M A) (h : string -> M A) env w e w' :
  body env w = (inl e, w') -> try_catch body h env w = h e env w'.
Proof. intros E. unfold try_catch. rewrite E. reflexivity. Qed.

Lemma returned {A : Type} (body : M A) (h : string -> M A) env w a w' :
  body env w = (inr a, w') -> try_catch body h env w = (inr a, w').
Proof. intros E. unfold try_catch. rewrite E. reflexivity. Qed.

(* ================================================================= *)
(** ** The admin check *)

Lemma first_is_admin_caller (k : Z) (d : DB) :
  Controller.first_is_admin
    (map User.is_admin (filter (fun u => User.id u =? k) (users d)))
  = match user_by_id k d with
    | Some u => match User.is_admin u with Some true => true | _ => false end
    | None => false
    end.
Proof.
  unfold user_by_id.
  induction (users d) as [|u l IH]; simpl; [reflexivity|].
  destruct (User.id u =? k); simpl; [|exact IH].
  destruct (User.is_admin u) as [[|]|]; reflexivity.
Qed.

Lemma lacks_admin_check (k : Z) (d : DB) :
  lacks_admin k d ->
  Controller.first_is_admin
    (map User.is_admin (filter (fun u => User.id u =? k) (users d))) = false.
Proof.
  intros H. rewrite first_is_admin_caller.
  destruct H as [-> | (u & -> & Hu)]; [reflexivity|].
  destruct (User.is_admin u) as [[|]|]; congruence.
Qed.

Section InlineCheck.
Context {T : Type}.
Variables (k : Z) (d : DB) (env : Env).
Variable rest : list (option bool) -> M (Res.t T).
Variable msg : string.
Variable h : string -> M (Res.t T).

Lemma inline_check_denies :
  (forall rows, Controller.first_is_admin rows = false ->
                rest rows = ret (Controller.denied msg)) ->
  lacks_admin k d ->
  fault env 0%nat = None ->
  try_catch (bind (pool_query (Controller.adminCheck k)) rest) h env (fresh d)
  = (inr (Controller.denied msg), checked_world k d true).
Proof.
  intros Hrest not_admin F. apply returned.
  erewrite query_ok; [ | exact F | reflexivity ].
  change (db (fresh d)) with d.
  rewrite Hrest by (apply lacks_admin_check, not_admin). reflexivity.
Qed.

Lemma inline_check_fault e :
  fault env 0%nat = Some e ->
  try_catch (bind (pool_query (Controller.adminCheck k)) rest) h env (fresh d)
  = h e env (checked_world k d false).
Proof.
  intros F. apply caught.
  erewrite query_fault; [ | exact F ]. reflexivity.
Qed.

End InlineCheck.

(** The same for a route mounted behind the [isAdmin] gate. *)
Lemma gate_denies {T : Type} (k : Z) (d : DB) (env : Env) (next : M (Res.t T)) :
  lacks_admin k d ->
  exists r, Router.isAdmin k next env (fresh d) = (inr r, fresh d)
            /\ Res.status r = 403 /\ Res.success r = false.
Proof.
  intros H. unfold Router.isAdmin. change (db (fresh d)) with d.
  rewrite (lacks_admin_check _ _ H). eexists; split; [reflexivity|]. split; reflexivity.
Qed.

Lemma gated_outcome {T : Type} (k : Z) (d : DB) (env : Env) (next : M (Res.t T)) :
  lacks_admin k d ->
  outcome (Router.isAdmin k next env (fresh d)) = (Some (403, false), fresh d).
Proof.
  intros H. destruct (gate_denies k d env next H) as (r & -> & S1 & S2).
  unfold outcome. cbn [fst snd]. rewrite S1, S2. reflexivity.
Qed.

Ltac only_the_check :=
  let s := fresh "s" in
  cbn; repeat split; auto;
  try (intros s [<-|[]]; reflexivity);
  try discriminate.

(** C2. A caller whose user row is absent, or whose admin flag is not
    true, is turned away by every admin endpoint: the store is left as it
    was, at most one statement has been sent and it is the admin check
    itself (so the metrics handler has issued no aggregate read and no
    audit insert), and, once that check is answered, the response is the
    403 envelope with [success = false]. *)
Theorem non_admin_is_forbidden (e : Endpoint) (req : Request) (env : Env) (d : DB) :
  lacks_admin (userId req) d ->
  let r := serve e req env (fresh d) in
  db (snd r) = d
  /\ (List.length (issued (snd r)) <= 1)%nat
  /\ (forall s, In s (issued (snd r)) -> text s = Text.adminCheck)
  /\ (fault env 0%nat = None -> fst r = Some (403, false)).
Proof.
  intros H.
  destruct e; cbn [serve]; try rewrite (gated_outcome _ _ _ _ H).
  all: try (cbn; repeat split; auto; intros s []).
  all: unfold Controller.getDashboardMetrics, Controller.getUsers,
         Controller.getSystemStats, Controller.getAdminActivity; cbv zeta.
  all: destruct (fault env 0%nat) as [msg|] eqn:F;
    [ rewrite (inline_check_fault _ _ _ _ _ _ F)
    | erewrite inline_check_denies;
      [ | intros rows E; rewrite E; reflexivity | exact H | exact F ] ];
    only_the_check.
Qed.

Lemma non_admin_is_forbidden_witness :
  let r := serve GetMetrics (request_of 2) (Sample.clock no_faults)
             (fresh Sample.store) in
  fst r = Some (403, false) /\ db (snd r) = Sample.store.
Proof.
  assert (H : lacks_admin (userId (request_of 2)) Sample.store).
  { right. exists Sample.alice. split; [reflexivity | discriminate]. }
  destruct (non_admin_is_forbidden GetMetrics (request_of 2)
              (Sample.clock no_faults) Sample.store H) as (A & _ & _ & D).
  split; [apply D; reflexivity | exact A].
Defined.

(* ================================================================= *)
(** ** The audit write of the metrics handler *)

Lemma has_admin_check (k : Z) (d : DB) :
  has_admin k d ->
  Controller.first_is_admin
    (map User.is_admin (filter (fun u => User.id u =? k) (users d))) = true.
Proof.
  intros (u & E & F). rewrite first_is_admin_caller, E, F. reflexivity.
Qed.

Lemma bind_get_now {A : Type} (k : Z -> M A) env w :
  bind get_now k env w = k (now env) env w.
Proof. reflexivity. Qed.

Ltac tidy := unfold settled, fresh; cbn [db issued logged app].

Ltac send Hf :=
  first [ erewrite query_ok | erewrite settled_ok ];
  [ | apply Hf; cbn; lia | reflexivity ]; tidy.

(** C1, as amended. When the audit-log insert of the metrics handler
    fails, after the admin check and the ten reads before it succeeded,
    the handler answers with the 500 envelope "Failed to fetch dashboard
    metrics" ([success = false], no data): the computed report is
    dropped, the error is logged, and the store is left as it was. *)
Theorem audit_failure_fails_metrics (userId : Z) (ip : string) (env : Env) (d : DB)
  (e : string) :
  has_admin userId d ->
  (forall n, (n < 11)%nat -> fault env n = None) ->
  fault env 11%nat = Some e ->
  let r := Controller.getDashboardMetrics userId ip env (fresh d) in
  fst r = inr (Controller.failed "Failed to fetch dashboard metrics")
  /\ db (snd r) = d
  /\ logged (snd r) = [("Admin metrics error: " ++ e)%string]
  /\ map text (issued (snd r)) = metrics_texts
  /\ map after (issued (snd r)) = repeat (Some d) 11 ++ [None].
Proof.
  intros Hadmin Hf He. cbv zeta.
  unfold Controller.getDashboardMetrics.
  erewrite caught.
  2:{ send Hf. rewrite (has_admin_check _ _ Hadmin). cbn [negb].
      do 7 send Hf. rewrite !await_ok. do 3 send Hf.
      rewrite bind_get_now.
      erewrite query_fault; [ | exact He ]. tidy. reflexivity. }
  cbn. repeat split; reflexivity.
Qed.

Lemma audit_failure_fails_metrics_witness :
  fst (Controller.getDashboardMetrics 1 "10.0.0.1"
         (Sample.clock Sample.audit_down) (fresh Sample.store))
  = inr (Controller.failed "Failed to fetch dashboard metrics").
Proof.
  refine (proj1 (audit_failure_fails_metrics 1 "10.0.0.1"
                   (Sample.clock Sample.audit_down) Sample.store
                   "connection terminated" _ _ _)).
  - exists Sample.root. split; reflexivity.
  - intros n H. unfold Sample.clock, Sample.audit_down. cbn [fault].
    destruct (Nat.eqb_spec n 11); [lia | reflexivity].
  - reflexivity.
Defined.

(** C1, counterexample. The caller is an admin and every statement of
    the request succeeds but the audit insert: the report has been
    computed, yet the response is the 500 envelope and carries no data. *)
Lemma audit_failure_is_not_best_effort :
  let r := Controller.getDashboardMetrics 1 "10.0.0.1"
             (Sample.clock Sample.audit_down) (fresh Sample.store) in
  has_admin 1 Sample.store
  /\ map (fun s => match after s with Some _ => true | None => false end)
         (issued (snd r))
     = [true; true; true; true; true; true; true; true; true; true; true; false]
  /\ map text (issued (snd r)) = metrics_texts
  /\ (forall m, fst r <> inr (Controller.ok m))
  /\ fst r = inr (Res.mk 500 false None None
                    (Some "Failed to fetch dashboard metrics") (Some 500)).
Proof.
  cbv zeta. split; [exists Sample.root; split; reflexivity|].
  split; [vm_compute; reflexivity|]. split; [vm_compute; reflexivity|].
  split; [intros m; vm_compute; discriminate | vm_compute; reflexivity].
Qed.

(* ================================================================= *)
(** ** Counting *)

Lemma count_nonneg {A : Type} (p : A -> bool) (l : list A) : 0 <= Sql.count p l.
Proof. unfold Sql.count. lia. Qed.

Lemma count_cons {A : Type} (p : A -> bool) (a : A) (l : list A) :
  Sql.count p (a :: l) = (if p a then 1 else 0) + Sql.count p l.
Proof.
  unfold Sql.count. simpl. destruct (p a); simpl List.length; lia.
Qed.

Lemma count_le {A : Type} (p q : A -> bool) (l : list A) :
  (forall a, p a = true -> q a = true) -> Sql.count p l <= Sql.count q l.
Proof.
  intros H. induction l as [|a l IH]; [reflexivity|].
  rewrite !count_cons. specialize (H a).
  destruct (p a), (q a); try lia; specialize (H eq_refl); discriminate.
Qed.

(** Counts of rows under conditions that exclude one another add up to
    the count under their disjunction. *)
Lemma count_disjoint {A : Type} (p q : A -> bool) (l : list A) :
  (forall a, p a = true -> q a = false) ->
  Sql.count p l + Sql.count q l = Sql.count (fun a => p a || q a) l.
Proof.
  intros H. induction l as [|a l IH]; [reflexivity|].
  rewrite !count_cons. specialize (H a).
  destruct (p a), (q a); cbn [orb]; try lia; specialize (H eq_refl); discriminate.
Qed.

Lemma count_filter {A : Type} (p q : A -> bool) (l : list A) :
  Sql.count p (filter q l) = Sql.count (fun a => q a && p a) l.
Proof.
  induction l as [|a l IH]; [reflexivity|].
  simpl filter. rewrite count_cons. destruct (q a); cbn [andb].
  - rewrite count_cons, IH. reflexivity.
  - rewrite IH. lia.
Qed.

Lemma count_none {A : Type} (p : A -> bool) (l : list A) :
  (forall a, In a l -> p a = false) -> Sql.count p l = 0.
Proof.
  intros H. induction l as [|a l IH]; [reflexivity|].
  rewrite count_cons, (H a (or_introl eq_refl)), IH; [reflexivity|].
  intros b Hb. apply H. right. exact Hb.
Qed.

Lemma has_status_exclusive (s t : string) (l : Listing.row) :
  s <> t -> Controller.has_status s l = true -> Controller.has_status t l = false.
Proof.
  unfold Controller.has_status. intros N E. apply String.eqb_eq in E.
  apply String.eqb_neq. congruence.
Qed.

(** *** [distinct] *)

Section Distinct.
Context {K : Type}.
Variable eqb : K -> K -> bool.
Hypothesis eqb_spec : forall a b, eqb a b = true <-> a = b.

Lemma existsb_eqb (k : K) (seen : list K) :
  existsb (eqb k) seen = true <-> In k seen.
Proof.
  rewrite existsb_exists. split.
  - intros (x & I & E). apply eqb_spec in E. subst. exact I.
  - intros I. exists k. split; [exact I|]. apply eqb_spec. reflexivity.
Qed.

Lemma in_distinct (k : K) (l seen : list K) :
  In k (Sql.distinct eqb seen l) <-> In k l /\ ~ In k seen.
Proof.
  revert seen. induction l as [|a l IH]; intros seen; simpl.
  - tauto.
  - destruct (existsb (eqb a) seen) eqn:E.
    + apply existsb_eqb in E. rewrite IH. split.
      * intros [I N]. tauto.
      * intros [[->|I] N]; tauto.
    + assert (~ In a seen) as Na.
      { intros I. apply existsb_eqb in I. congruence. }
      simpl. rewrite IH. simpl. split.
      * intros [->|[I N]]; [tauto|]. split; [tauto|]. intros I'. apply N. tauto.
      * intros [[->|I] N]; [tauto|].
        destruct (existsb (eqb k) [a]) eqn:E'.
        -- apply existsb_eqb in E'. destruct E' as [->|[]]. tauto.
        -- right. split; [exact I|]. intros [->|I']; [|tauto].
           assert (In k [k]) as I'' by (left; reflexivity).
           apply existsb_eqb in I''. congruence.
Qed.

Lemma NoDup_distinct (l seen : list K) : NoDup (Sql.distinct eqb seen l).
Proof.
  revert seen. induction l as [|a l IH]; intros seen; simpl.
  - constructor.
  - destruct (existsb (eqb a) seen); [apply IH|].
    constructor; [|apply IH].
    rewrite in_distinct. intros [_ N]. apply N. left. reflexivity.
Qed.

End Distinct.

(** *** The dashboard's three counters *)

Section Tally.
Variable g : string -> Z.

Lemma tally_other (D : list string) (acc : Z * Z * Z) (pick : Z * Z * Z -> Z) (s : string) :
  (pick = (fun t => fst (fst t)) /\ s = "active"
   \/ pick = (fun t => snd (fst t)) /\ s = "draft"
   \/ pick = (fun t => snd t) /\ s = "published") ->
  NoDup D ->
  pick (fold_left Router.tally (map (fun s => (s, g s)) D) acc)
  = if in_dec string_dec s D then g s else pick acc.
Proof.
  intros Hpick. revert acc. induction D as [|x D IH]; intros acc ND.
  - reflexivity.
  - inversion ND as [|? ? Nx ND']; subst. cbn [map fold_left].
    rewrite IH by exact ND'.
    destruct (in_dec string_dec s D) as [I|NI].
    + destruct (in_dec string_dec s (x :: D)) as [_|C]; [reflexivity|].
      exfalso. apply C. right. exact I.
    + destruct acc as [[a dr] p].
      destruct (in_dec string_dec s (x :: D)) as [[->|I]|C].
      * destruct Hpick as [[-> ->]|[[-> ->]|[-> ->]]]; reflexivity.
      * tauto.
      * assert (x <> s) as Nxs by (intros ->; apply C; left; reflexivity).
        apply String.eqb_neq in Nxs.
        destruct Hpick as [[-> ->]|[[-> ->]|[-> ->]]];
          unfold Router.tally; cbn [fst snd]; rewrite Nxs;
          repeat match goal with |- context [if ?b then _ else _] => destruct b end;
          reflexivity.
Qed.

End Tally.

(* ================================================================= *)
(** ** The metrics report *)

Lemma metrics_succeeds (userId : Z) (ip : string) (env : Env) (d : DB) :
  has_admin userId d ->
  (forall n, (n < 12)%nat -> fault env n = None) ->
  let r := Controller.getDashboardMetrics userId ip env (fresh d) in
  exists m,
    fst r = inr (Controller.ok m)
    /\ Metrics.listings m
       = Metrics.mkListings
           (Sql.count (Controller.has_status "draft") (listings d))
           (Sql.count (Controller.has_status "active") (listings d))
           (Sql.count (Controller.has_status "sold") (listings d))
           (Sql.count (Controller.has_status "archived") (listings d))
    /\ Metrics.totalListings (Metrics.overview m)
       = Sql.count (fun _ => true) (listings d)
    /\ Metrics.revenue m
       = Controller.revenue_of
           (Sql.count (Controller.has_tier "premium") (users d))
           (Sql.count (Controller.has_tier "premium_plus") (users d))
    /\ db (snd r)
       = set_admin_activity_log
           (fun l => l ++ [audit_row userId ip (now env) d]) d.
Proof.
  intros Hadmin Hf. cbv zeta.
  unfold Controller.getDashboardMetrics.
  erewrite returned.
  2:{ send Hf. rewrite (has_admin_check _ _ Hadmin). cbn [negb].
      do 7 send Hf. rewrite !await_ok. do 3 send Hf.
      rewrite bind_get_now. send Hf. reflexivity. }
  eexists. split; [reflexivity|]. cbn. repeat split; reflexivity.
Qed.

Lemma dashboard_succeeds (env : Env) (d : DB) :
  (forall n, (n < 4)%nat -> fault env n = None) ->
  let r := Router.dashboard env (fresh d) in
  exists b,
    fst r = inr (Router.sent (Some b) None)
    /\ db (snd r) = d
    /\ Router.totalListings b = Sql.count Router.live (listings d)
    /\ Router.activeListings b
       = Sql.count (Controller.has_status "active") (filter Router.live (listings d))
    /\ Router.draftListings b
       = Sql.count (Controller.has_status "draft") (filter Router.live (listings d))
    /\ Router.publishedListings b
       = Sql.count (Controller.has_status "published")
           (filter Router.live (listings d)).
Proof.
  intros Hf. cbv zeta. unfold Router.dashboard, try_catch.
  do 3 send Hf.
  match goal with
  | |- context [fold_left Router.tally (map ?f ?D) ?acc] =>
      pose proof (tally_other (fun s => snd (f s)) D acc (fun t => fst (fst t))
                    "active" (or_introl (conj eq_refl eq_refl))
                    (NoDup_distinct String.eqb String.eqb_eq _ _)) as Ta;
      pose proof (tally_other (fun s => snd (f s)) D acc (fun t => snd (fst t))
                    "draft" (or_intror (or_introl (conj eq_refl eq_refl)))
                    (NoDup_distinct String.eqb String.eqb_eq _ _)) as Td;
      pose proof (tally_other (fun s => snd (f s)) D acc (fun t => snd t)
                    "published" (or_intror (or_intror (conj eq_refl eq_refl)))
                    (NoDup_distinct String.eqb String.eqb_eq _ _)) as Tp;
      cbn [fst snd] in Ta, Td, Tp;
      destruct (fold_left Router.tally (map f D) acc) as [[a dr] p];
      cbn [fst snd] in Ta, Td, Tp
  end.
  send Hf. cbn [fst snd].
  eexists. split; [reflexivity|]. cbn [Router.totalListings Router.activeListings
    Router.draftListings Router.publishedListings fst snd].
  assert (absent : forall s,
    ~ In s (Sql.distinct String.eqb []
              (map Listing.status (filter Router.live (listings d)))) ->
    0 = Sql.count (Controller.has_status s) (filter Router.live (listings d))).
  { intros s N. symmetry. apply count_none. intros l I.
    unfold Controller.has_status. apply String.eqb_neq. intros E. apply N.
    apply (in_distinct String.eqb String.eqb_eq). split; [|intros []].
    rewrite <- E. apply in_map. exact I. }
  subst a dr p.
  repeat split; try reflexivity;
    match goal with
    | |- (if ?c then _ else _) = _ =>
        destruct c as [I|N]; [reflexivity | apply absent; exact N]
    end.
Qed.







(* ================================================================= *)
(** ** The mutating endpoints *)

Lemma in_insert_desc {A : Type} (key : A -> Z) (a x : A) (l : list A) :
  In x (Sql.insert_desc key a l) <-> x = a \/ In x l.
Proof.
  induction l as [|b l IH]; simpl.
  - intuition.
  - destruct (key b <=? key a); simpl; [intuition|]. rewrite IH. intuition.
Qed.

Lemma in_order_by_desc {A : Type} (key : A -> Z) (x : A) (l : list A) :
  In x (Sql.order_by_desc key l) <-> In x l.
Proof.
  induction l as [|a l IH]; simpl; [tauto|].
  fold (Sql.order_by_desc key l). rewrite in_insert_desc, IH. intuition.
Qed.

Lemma filter_by_id_nil {A : Type} (key : A -> Z) (k : Z) (l : list A) :
  filter (fun a => key a =? k) l = [] <-> ~ In k (map key l).
Proof.
  induction l as [|a l IH]; simpl; [tauto|].
  destruct (key a =? k) eqn:E.
  - apply Z.eqb_eq in E. split; [discriminate|]. intros N. exfalso. apply N. tauto.
  - apply Z.eqb_neq in E. rewrite IH. tauto.
Qed.

Lemma map_id_update {A : Type} (key : A -> Z) (hit : A -> bool) (f : A -> A)
  (l : list A) :
  (forall a, key (f a) = key a) ->
  map key (map (fun a => if hit a then f a else a) l) = map key l.
Proof.
  intros H. induction l as [|a l IH]; simpl; [reflexivity|].
  rewrite IH. destruct (hit a); [rewrite H|]; reflexivity.
Qed.

Lemma update_no_hit {A : Type} (hit : A -> bool) (f : A -> A) (l : list A) :
  filter hit l = [] -> map (fun a => if hit a then f a else a) l = l.
Proof.
  induction l as [|a l IH]; simpl; [reflexivity|].
  destruct (hit a); [discriminate|]. intros E. rewrite IH by exact E. reflexivity.
Qed.

Lemma filter_head_find {A : Type} (p : A -> bool) (l : list A) :
  find p l = match filter p l with [] => None | a :: _ => Some a end.
Proof.
  induction l as [|a l IH]; simpl; [reflexivity|].
  destruct (p a); [reflexivity|exact IH].
Qed.

Lemma deleteListing_run (id : Z) (env : Env) (d : DB) :
  fault env 0%nat = None ->
  Router.deleteListing id env (fresh d)
  = (inr (match filter (fun l => Listing.id l =? id) (listings d) with
          | [] => Router.not_found "Listing not found"
          | _ :: _ => Router.sent None (Some "Listing deleted successfully")
          end),
     mkWorld (set_listings (listings_after_delete id (now env)) d)
       [mkStatement Text.deleteListing [PNumber (Some id)]
          (Some (set_listings (listings_after_delete id (now env)) d))] []).
Proof.
  intros F. unfold Router.deleteListing, try_catch. send F.
  destruct (filter _ (listings d)); reflexivity.
Qed.

Lemma getListings_run (env : Env) (d : DB) :
  fault env 0%nat = None ->
  let rows := Sql.order_by_desc Listing.created_at (filter Router.live (listings d)) in
  fst (Router.getListings env (fresh d))
  = inr (Router.sent (Some (rows, Z.of_nat (List.length rows))) None).
Proof.
  intros F. cbv zeta. unfold Router.getListings, try_catch. send F. reflexivity.
Qed.

(** C4, as amended. Deleting a listing only stamps [deleted_at] and
    removes no row; it answers NotFound exactly when no row has the key,
    whether or not that row was already soft-deleted (a listing that is
    already deleted is stamped again and reported as deleted); a
    listing query that follows does not return a row with that key. *)
Theorem delete_listing_is_soft (id : Z) (env env' : Env) (d : DB) :
  fault env 0%nat = None ->
  fault env' 0%nat = None ->
  let r := Router.deleteListing id env (fresh d) in
  db (snd r) = set_listings (listings_after_delete id (now env)) d
  /\ map Listing.id (listings (db (snd r))) = map Listing.id (listings d)
  /\ (fst r = inr (Router.not_found "Listing not found")
      <-> ~ In id (map Listing.id (listings d)))
  /\ (In id (map Listing.id (listings d)) ->
      fst r = inr (Router.sent None (Some "Listing deleted successfully")))
  /\ (exists rows,
        fst (Router.getListings env' (fresh (db (snd r))))
        = inr (Router.sent (Some (rows, Z.of_nat (List.length rows))) None)
        /\ ~ In id (map Listing.id rows)).
Proof.
  intros F F'. cbv zeta. rewrite (deleteListing_run id env d F). cbn [fst snd db].
  split; [reflexivity|]. split.
  { cbn [set_listings listings]. apply map_id_update. reflexivity. }
  pose proof (filter_by_id_nil Listing.id id (listings d)) as N.
  split; [|split].
  - destruct (filter _ (listings d)).
    + split; [intros _; apply N; reflexivity | reflexivity].
    + split; [discriminate|]. intros C. apply N in C. discriminate.
  - intros I. destruct (filter _ (listings d)); [|reflexivity].
    exfalso. apply (proj1 N); [reflexivity | exact I].
  - eexists. split; [apply (getListings_run env' _ F')|].
    intros I. apply in_map_iff in I. destruct I as (l & E & I).
    apply in_order_by_desc in I. apply filter_In in I. destruct I as [I L].
    cbn [set_listings listings] in I. unfold listings_after_delete in I.
    apply in_map_iff in I. destruct I as (l0 & E0 & _).
    destruct (Listing.id l0 =? id) eqn:H0.
    + subst l. discriminate L.
    + subst l. apply Z.eqb_neq in H0. contradiction.
Qed.

Lemma delete_listing_is_soft_witness :
  map Listing.id
    (listings (db (snd (Router.deleteListing 10 (Sample.clock no_faults)
                          (fresh Sample.store)))))
  = [10; 11].
Proof.
  refine (eq_trans
            (proj1 (proj2 (delete_listing_is_soft 10 (Sample.clock no_faults)
                             (Sample.clock no_faults) Sample.store _ _))) _);
    reflexivity.
Defined.

(** C4, counterexample. Listing 10 is already soft-deleted, so no
    matching undeleted listing exists; the request is nevertheless
    answered as a successful deletion, and the time stamp moves from 2600
    to the time of the request. *)
Lemma delete_listing_twice_is_not_NotFound :
  let r := Router.deleteListing 10 (Sample.clock no_faults) (fresh Sample.archive) in
  filter (fun l => (Listing.id l =? 10) && Router.live l) (listings Sample.archive)
  = []
  /\ fst r <> inr (Router.not_found "Listing not found")
  /\ fst r = inr (Router.sent None (Some "Listing deleted successfully"))
  /\ map Listing.deleted_at (listings Sample.archive) = [Some 2600]
  /\ map Listing.deleted_at (listings (db (snd r))) = [Some 5000].
Proof.
  cbv zeta. split; [reflexivity|].
  split; [vm_compute; discriminate|]. repeat split; vm_compute; reflexivity.
Qed.

Lemma putUser_run (id : Z) (b : Router.Body) (env : Env) (d : DB) :
  fault env 0%nat = None ->
  Router.putUser id b env (fresh d)
  = (inr (match user_by_id id d with
          | None => Router.not_found "User not found"
          | Some u =>
              Router.sent (Some (Router.projection (Router.assign b (now env) u)))
                (Some "User updated successfully")
          end),
     mkWorld (set_users (users_after_update id b (now env)) d)
       [mkStatement Text.updateUser
          (params (Router.updateUser id b))
          (Some (set_users (users_after_update id b (now env)) d))] []).
Proof.
  intros F. unfold Router.putUser, try_catch. send F.
  unfold user_by_id. rewrite filter_head_find.
  destruct (filter _ (users d)); reflexivity.
Qed.

(** C5, as amended. Updating a user overwrites all five columns
    (username, email, tier, points, admin flag) of the row with the
    values of the request body in one statement, a field that is not
    provided being written as NULL rather than left as it was; it sets
    [updated_at] to the time of the statement, leaves the key, the level
    and the creation time alone, and returns the projection of the
    updated row.  When no row has the key it answers NotFound and the
    store is unchanged. *)
Theorem update_user_overwrites_all_five (id : Z) (b : Router.Body) (env : Env)
  (d : DB) :
  fault env 0%nat = None ->
  let r := Router.putUser id b env (fresh d) in
  let t := now env in
  db (snd r) = set_users (users_after_update id b t) d
  /\ (forall u,
        User.username (Router.assign b t u) = Router.username b
        /\ User.email (Router.assign b t u) = Router.email b
        /\ User.subscription_tier (Router.assign b t u) = Router.subscription_tier b
        /\ User.points (Router.assign b t u) = Router.points b
        /\ User.is_admin (Router.assign b t u) = Router.is_admin b
        /\ User.updated_at (Router.assign b t u) = t
        /\ User.id (Router.assign b t u) = User.id u
        /\ User.current_level (Router.assign b t u) = User.current_level u
        /\ User.created_at (Router.assign b t u) = User.created_at u)
  /\ (forall u, user_by_id id d = Some u ->
        fst r = inr (Router.sent
                       (Some (Router.mkProjection id (Router.username b)
                                (Router.email b) (Router.subscription_tier b)
                                (Router.points b) (Router.is_admin b)))
                       (Some "User updated successfully")))
  /\ (user_by_id id d = None ->
        fst r = inr (Router.not_found "User not found") /\ db (snd r) = d).
Proof.
  intros F. cbv zeta. rewrite (putUser_run id b env d F). cbn [fst snd db].
  split; [reflexivity|]. split; [intros u; repeat split|]. split.
  - intros u E. rewrite E. unfold Router.projection, Router.assign. cbn.
    unfold user_by_id in E. apply find_some in E. destruct E as [_ E].
    apply Z.eqb_eq in E. rewrite E. reflexivity.
  - intros E. rewrite E. split; [reflexivity|].
    unfold user_by_id in E. rewrite filter_head_find in E.
    destruct (filter (fun u => User.id u =? id) (users d)) eqn:N; [|discriminate].
    unfold set_users, users_after_update. rewrite update_no_hit by exact N.
    destruct d; reflexivity.
Qed.

Lemma update_user_overwrites_all_five_witness :
  db (snd (Router.putUser 99 Sample.only_username (Sample.clock no_faults)
             (fresh Sample.store)))
  = Sample.store.
Proof.
  refine (proj2 (proj2 (proj2 (proj2
            (update_user_overwrites_all_five 99 Sample.only_username
               (Sample.clock no_faults) Sample.store _))) _));
    reflexivity.
Defined.

(** C5, counterexample. The body provides the username only.  If the
    store accepts the statement, alice's email, tier, points and admin
    flag are not left unchanged but become NULL; if it rejects it (a
    NOT NULL column), the answer is the 500 envelope and not the updated
    projection. *)
Lemma update_user_clears_absent_fields :
  let r := Router.putUser 2 Sample.only_username (Sample.clock no_faults)
             (fresh Sample.store) in
  user_by_id 2 Sample.store = Some Sample.alice
  /\ Router.email Sample.only_username = None
  /\ User.email Sample.alice = Some "Alice@Shop.com"
  /\ (exists p, fst r = inr (Router.sent (Some p) (Some "User updated successfully"))
                /\ Router.p_email p = None)
  /\ (exists u, user_by_id 2 (db (snd r)) = Some u
                /\ User.email u = None
                /\ User.subscription_tier u = None
                /\ User.points u = None
                /\ User.is_admin u = None)
  /\ fst (Router.putUser 2 Sample.only_username
            (Sample.clock (fun _ => Some "violates not-null constraint"))
            (fresh Sample.store))
     = inr (Router.failed "Failed to update user" "violates not-null constraint").
Proof.
  cbv zeta. repeat split; try reflexivity.
  - eexists. split; vm_compute; reflexivity.
  - eexists. repeat split; vm_compute; reflexivity.
Qed.

(** *** DELETE /users/:id *)

Lemma deleteUser_run (id : Z) (env : Env) (d : DB) :
  fault env 0%nat = None ->
  fault env 1%nat = None ->
  let d1 := set_listings (listings_after_user_delete id (now env)) d in
  let d2 := set_users (users_without id) d1 in
  Router.deleteUser id env (fresh d)
  = (inr (match filter (fun u => User.id u =? id) (users d) with
          | [] => Router.not_found "User not found"
          | _ :: _ => Router.sent None (Some "User deleted successfully")
          end),
     mkWorld d2
       [mkStatement Text.softDeleteUserListings [PNumber (Some id)] (Some d1);
        mkStatement Text.deleteUser [PNumber (Some id)] (Some d2)] []).
Proof.
  intros F0 F1. cbv zeta. unfold Router.deleteUser, try_catch.
  send F0. send F1.
  cbn [set_listings users]. destruct (filter _ (users d)); reflexivity.
Qed.

(** C8. Deleting a user sends two statements, in this order: the
    first stamps [deleted_at] on every listing the user owns and leaves
    the user rows alone, so that each of these listings carries a time
    stamp while the user row is still there; the second removes the user
    row, and that row only.  The request is answered NotFound when no
    user row has the key. *)
Theorem delete_user_soft_deletes_listings_first (id : Z) (env : Env) (d : DB) :
  fault env 0%nat = None ->
  fault env 1%nat = None ->
  let r := Router.deleteUser id env (fresh d) in
  exists d1 d2,
    d1 = set_listings (listings_after_user_delete id (now env)) d
    /\ d2 = set_users (users_without id) d1
    /\ map text (issued (snd r)) = [Text.softDeleteUserListings; Text.deleteUser]
    /\ map after (issued (snd r)) = [Some d1; Some d2]
    /\ db (snd r) = d2
    /\ users d1 = users d
    /\ map Listing.id (listings d1) = map Listing.id (listings d)
    /\ (forall l, In l (listings d1) -> Listing.user_id l = id ->
          Listing.deleted_at l = Some (now env))
    /\ listings d2 = listings d1
    /\ ~ In id (map User.id (users d2))
    /\ (forall u, In u (users d) -> User.id u <> id -> In u (users d2))
    /\ (~ In id (map User.id (users d)) ->
          fst r = inr (Router.not_found "User not found"))
    /\ (In id (map User.id (users d)) ->
          fst r = inr (Router.sent None (Some "User deleted successfully"))).
Proof.
  intros F0 F1. cbv zeta. rewrite (deleteUser_run id env d F0 F1).
  do 2 eexists. cbn [fst snd db issued map text after].
  split; [reflexivity|]. split; [reflexivity|].
  split; [reflexivity|]. split; [reflexivity|]. split; [reflexivity|].
  split; [reflexivity|]. split.
  { cbn [set_listings listings]. apply map_id_update. reflexivity. }
  split.
  { cbn [set_listings listings]. unfold listings_after_user_delete.
    intros l I E. apply in_map_iff in I. destruct I as (l0 & E0 & _).
    destruct (Listing.user_id l0 =? id) eqn:H0.
    - subst l. reflexivity.
    - subst l. apply Z.eqb_neq in H0. contradiction. }
  split; [reflexivity|]. split.
  { cbn [set_users set_listings users]. unfold users_without.
    intros I. apply in_map_iff in I. destruct I as (u & E & I).
    apply filter_In in I. destruct I as [_ N].
    apply negb_true_iff, Z.eqb_neq in N. contradiction. }
  split.
  { cbn [set_users set_listings users]. unfold users_without.
    intros u I N. apply filter_In. split; [exact I|].
    apply negb_true_iff, Z.eqb_neq. exact N. }
  pose proof (filter_by_id_nil User.id id (users d)) as N.
  split.
  - intros C. apply N in C. rewrite C. reflexivity.
  - intros I. destruct (filter _ (users d)); [|reflexivity].
    exfalso. apply (proj1 N); [reflexivity | exact I].
Qed.

Lemma delete_user_soft_deletes_listings_first_witness :
  exists d1 d2,
    map after (issued (snd (Router.deleteUser 2 (Sample.clock no_faults)
                              (fresh Sample.store))))
    = [Some d1; Some d2]
    /\ map Listing.deleted_at (listings d1) = [Some 5000; Some 5000]
    /\ map User.id (users d1) = [1; 2; 3]
    /\ map User.id (users d2) = [1; 3].
Proof.
  destruct (delete_user_soft_deletes_listings_first 2 (Sample.clock no_faults)
              Sample.store eq_refl eq_refl)
    as (d1 & d2 & E1 & E2 & _ & A & _).
  exists d1, d2. split; [exact A|]. subst d2 d1. repeat split; reflexivity.
Defined.

(* ================================================================= *)
(** ** Search patterns *)




Lemma in_left_join {A B : Type} (on : A -> B -> bool) (l : list A) (r : list B)
  (a : A) (ob : option B) :
  In (a, ob) (Sql.left_join on l r) -> In a l.
Proof.
  unfold Sql.left_join. intros I. apply in_flat_map in I.
  destruct I as (a' & Ia & I).
  destruct (filter (on a') r) as [|b ms].
  - destruct I as [E|[]]. inversion E. subst. exact Ia.
  - apply in_map_iff in I. destruct I as (b' & E & _). inversion E. subst. exact Ia.
Qed.






Lemma usersQuery_reads (search tier : string) (limit offset : Js.number) (t : Z)
  (d d' : DB) rows :
  answer (Controller.usersQuery search tier limit offset) t d = inr (rows, d') ->
  d' = d.
Proof.
  unfold Controller.usersQuery.
  destruct (Js.truthy search), (Js.truthy tier); cbn [answer];
    unfold Controller.users_answer;
    repeat match goal with
           | |- context [match ?x with _ => _ end] => destruct x
           end; congruence.
Qed.




(* ================================================================= *)
(** ** Statement text and bound values *)

Lemma plain_uint (d : Decimal.uint) :
  forallb plain (list_ascii_of_string (NilEmpty.string_of_uint d)) = true.
Proof. induction d; simpl; auto. Qed.

Lemma plain_to_string (n : Js.number) :
  forallb plain (list_ascii_of_string (Js.to_string n)) = true.
Proof.
  destruct n as [z|]; [|reflexivity].
  unfold Js.to_string, Js.string_of_Z, NilZero.string_of_int.
  destruct (Z.to_int z) as [d|d]; unfold NilZero.string_of_uint.
  - destruct d; try reflexivity; apply plain_uint.
  - cbn [list_ascii_of_string forallb]. rewrite andb_true_iff. split; [reflexivity|].
    destruct d; try reflexivity; apply plain_uint.
Qed.

(** C7, as amended. The search text, the tier and the limit (and the
    offset computed from page and limit) reach the store as bound values
    only: two requests that agree on whether a search text is given and
    on whether a tier is given build the same SQL text, for the listing,
    for its count and for the activity log, and differ in the value
    vector alone.  The number of days is not bound: it is written into
    the text of the two statistics statements, after [parseInt], so what
    is written is made of decimal digits, a minus sign or [NaN] only. *)
Theorem filter_values_are_bound (s1 s2 t1 t2 : string) (l1 l2 o1 o2 : Js.number) :
  Js.truthy s1 = Js.truthy s2 ->
  Js.truthy t1 = Js.truthy t2 ->
  sql (Controller.usersQuery s1 t1 l1 o1) = sql (Controller.usersQuery s2 t2 l2 o2)
  /\ sql (Controller.countQuery s1 t1) = sql (Controller.countQuery s2 t2)
  /\ sql (Controller.activityResult l1) = sql (Controller.activityResult l2)
  /\ params (Controller.usersQuery s1 t1 l1 o1)
     = search_values s1 ++ tier_values t1 ++ [PNumber l1; PNumber o1]
  /\ params (Controller.countQuery s1 t1) = search_values s1 ++ tier_values t1
  /\ params (Controller.activityResult l1) = [PNumber l1]
  /\ (forall days : Js.number,
        sql (Controller.signupsResult days)
        = (Text.signupsResult_before ++ Js.to_string days
             ++ Text.signupsResult_after)%string
        /\ sql (Controller.statsListingsResult days)
           = (Text.statsListingsResult_before ++ Js.to_string days
                ++ Text.statsListingsResult_after)%string
        /\ params (Controller.signupsResult days) = []
        /\ params (Controller.statsListingsResult days) = []
        /\ (match days with Some z => Z.abs z < 10 ^ 21 | None => True end ->
            forallb plain (list_ascii_of_string (Js.to_string days)) = true)).
Proof.
  intros Hs Ht.
  unfold Controller.usersQuery, Controller.countQuery, search_values, tier_values.
  rewrite <- Hs, <- Ht.
  destruct (Js.truthy s1), (Js.truthy t1); cbn [sql params app];
    (repeat split; try reflexivity; intros _; apply plain_to_string).
Qed.

Lemma filter_values_are_bound_witness :
  sql (Controller.usersQuery "bike" "pro" (Some 50) (Some 0))
  = sql (Controller.usersQuery "x' OR 1=1 --" "free" (Some 10) (Some 20)).
Proof.
  refine (proj1 (filter_values_are_bound "bike" "x' OR 1=1 --" "pro" "free"
                   (Some 50) (Some 10) (Some 0) (Some 20) _ _));
    reflexivity.
Defined.

(** C7, counterexample. Two values of [days] give two different SQL
    texts and the same (empty) value vector; and an empty and a
    non-empty search text give two different listing texts. *)
Lemma days_is_written_into_the_text :
  sql (Controller.signupsResult (Controller.parseInt_or 30 (Some "7")))
  <> sql (Controller.signupsResult (Controller.parseInt_or 30 (Some "30")))
  /\ params (Controller.signupsResult (Controller.parseInt_or 30 (Some "7")))
     = params (Controller.signupsResult (Controller.parseInt_or 30 (Some "30")))
  /\ sql (Controller.usersQuery "" "" (Some 50) (Some 0))
     <> sql (Controller.usersQuery "a" "" (Some 50) (Some 0)).
Proof.
  split; [|split]; [ | reflexivity | ];
    apply String.eqb_neq; vm_compute; reflexivity.
Qed.

(* ================================================================= *)
(** ** Revenue *)

Lemma revenue_checked :
  forallb (fun p =>
             forallb (fun pp => revenue_is_exact (Z.of_nat p) (Z.of_nat pp))
                     (seq 0 100))
          (seq 0 100) = true.
Proof. vm_compute. reflexivity. Qed.

Lemma revenue_exact_small (p pp : Z) :
  0 <= p < 100 -> 0 <= pp < 100 -> revenue_is_exact p pp = true.
Proof.
  intros Hp Hpp.
  pose proof (proj1 (forallb_forall _ _) revenue_checked (Z.to_nat p)) as H1.
  assert (I1 : In (Z.to_nat p) (seq 0 100)) by (apply in_seq; lia).
  specialize (H1 I1).
  pose proof (proj1 (forallb_forall _ _) H1 (Z.to_nat pp)) as H2.
  assert (I2 : In (Z.to_nat pp) (seq 0 100)) by (apply in_seq; lia).
  specialize (H2 I2).
  rewrite !Z2Nat.id in H2 by lia.
  exact H2.
Qed.

Lemma length_substring (s : string) (n m : nat) :
  (n + m <= String.length s)%nat -> String.length (substring n m s) = m.
Proof.
  revert n m. induction s as [|c s IH]; intros n m H; simpl in H.
  - destruct n, m; simpl; lia.
  - destruct n as [|n]; simpl.
    + destruct m as [|m]; simpl; [reflexivity|]. rewrite (IH 0%nat m); lia.
    + apply IH. lia.
Qed.

Lemma length_append (a b : string) :
  String.length (a ++ b) = (String.length a + String.length b)%nat.
Proof. induction a as [|x a IH]; simpl; congruence. Qed.

Lemma length_zeros (n : nat) : String.length (Js.zeros n) = n.
Proof. induction n; simpl; congruence. Qed.

Lemma append_assoc (a b c : string) : ((a ++ b) ++ c = a ++ (b ++ c))%string.
Proof. induction a as [|x a IH]; simpl; [reflexivity|]. rewrite IH. reflexivity. Qed.

Lemma insert_point_two (ds : string) :
  exists a b, Js.insert_point 2 ds = (a ++ "." ++ b)%string
              /\ String.length b = 2%nat.
Proof.
  unfold Js.insert_point.
  set (ds' := if (String.length ds <=? 2)%nat
              then (Js.zeros (2 + 1 - String.length ds) ++ ds)%string else ds).
  assert (L : (3 <= String.length ds')%nat).
  { unfold ds'. destruct (String.length ds <=? 2)%nat eqn:E.
    - apply Nat.leb_le in E. rewrite length_append, length_zeros. lia.
    - apply Nat.leb_gt in E. lia. }
  do 2 eexists. split; [reflexivity|]. apply length_substring. lia.
Qed.

(** What [toFixed(2)] prints has exactly two characters after the
    point. *)
Lemma toFixed_two_digits (x : float) (s : string) :
  Js.toFixed 2 x = Js.Fixed s ->
  s = "NaN"
  \/ exists a b, s = (a ++ "." ++ b)%string /\ String.length b = 2%nat.
Proof.
  unfold Js.toFixed. destruct (Prim2SF x) as [sg| sg | | sg m e].
  - intros [= <-]. right. apply (insert_point_two "0").
  - discriminate.
  - intros [= <-]. left. reflexivity.
  - destruct (_ && _); [discriminate|].
    destruct (insert_point_two (Js.string_of_Z (Js.nearest_scaled 2 m e)))
      as (a & b & E & L).
    cbv zeta. rewrite E. intros [= <-]. right.
    exists ((if sg then "-" else "") ++ a)%string, b. split; [|exact L].
    rewrite append_assoc. reflexivity.
Qed.

(** C9. The revenue estimate is computed as
    [premiumCount * 4.99 + premiumPlusCount * 9.99] a month and twelve
    times that a year, in double precision, and each amount is rendered
    by [toFixed(2)], which prints exactly two digits after the point.
    Ten premium and five premium-plus users give "99.85" and "1198.20";
    for all counts below 100 the two strings are the exact amounts
    [(499 p + 999 pp) / 100] and twelve times that; and these are the
    amounts the metrics report carries, taken over the users of either
    tier. *)
Theorem revenue_estimate :
  (forall p pp,
     Controller.monthly p pp
     = (Js.of_count p * 4.99 + Js.of_count pp * 9.99)%float
     /\ Controller.annual (Controller.monthly p pp)
        = (Controller.monthly p pp * 12)%float
     /\ Controller.revenue_of p pp
        = Metrics.mkRevenue (Js.toFixed 2 (Controller.monthly p pp))
            (Js.toFixed 2 (Controller.annual (Controller.monthly p pp))) p pp)
  /\ Controller.revenue_of 10 5
     = Metrics.mkRevenue (Js.Fixed "99.85") (Js.Fixed "1198.20") 10 5
  /\ (forall x s, Js.toFixed 2 x = Js.Fixed s ->
        s = "NaN"
        \/ exists a b, s = (a ++ "." ++ b)%string /\ String.length b = 2%nat)
  /\ (forall p pp, 0 <= p < 100 -> 0 <= pp < 100 ->
        Metrics.monthlyRevenue (Controller.revenue_of p pp)
        = Js.Fixed (two_places (499 * p + 999 * pp))
        /\ Metrics.annualRevenue (Controller.revenue_of p pp)
           = Js.Fixed (two_places (12 * (499 * p + 999 * pp))))
  /\ (forall userId ip env d,
        has_admin userId d -> healthy env ->
        exists m,
          fst (Controller.getDashboardMetrics userId ip env (fresh d))
          = inr (Controller.ok m)
          /\ Metrics.revenue m
             = Controller.revenue_of
                 (Sql.count (Controller.has_tier "premium") (users d))
                 (Sql.count (Controller.has_tier "premium_plus") (users d))).
Proof.
  split; [intros p pp; repeat split|].
  split; [vm_compute; reflexivity|].
  split; [exact toFixed_two_digits|].
  split.
  - intros p pp Hp Hpp. pose proof (revenue_exact_small p pp Hp Hpp) as H.
    unfold revenue_is_exact in H.
    destruct (Metrics.monthlyRevenue _) as [m|]; [|discriminate].
    destruct (Metrics.annualRevenue _) as [a|]; [|discriminate].
    apply andb_true_iff in H. destruct H as [H1 H2].
    apply String.eqb_eq in H1, H2. subst. split; reflexivity.
  - intros userId ip env d Hadmin Hh.
    destruct (metrics_succeeds userId ip env d Hadmin (fun n _ => Hh n))
      as (m & E & _ & _ & R & _).
    exists m. split; assumption.
Qed.

Lemma revenue_estimate_witness :
  Metrics.monthlyRevenue (Controller.revenue_of 10 5) = Js.Fixed (two_places 9985)
  /\ Metrics.annualRevenue (Controller.revenue_of 10 5)
     = Js.Fixed (two_places 119820).
Proof.
  refine (proj1 (proj2 (proj2 (proj2 revenue_estimate))) 10 5 _ _); lia.
Defined.

(* ================================================================= *)
(** ** The two joins of the users listing *)

Lemma flat_map_flat_map {A B C : Type} (g : B -> list C) (h : A -> list B)
  (l : list A) :
  flat_map g (flat_map h l) = flat_map (fun a => flat_map g (h a)) l.
Proof.
  induction l as [|a l IH]; simpl; [reflexivity|].
  rewrite flat_map_app, IH. reflexivity.
Qed.

Lemma filter_flat_map {A B : Type} (p : B -> bool) (f : A -> list B) (l : list A) :
  filter p (flat_map f l) = flat_map (fun a => filter p (f a)) l.
Proof.
  induction l as [|a l IH]; simpl; [reflexivity|].
  rewrite filter_app, IH. reflexivity.
Qed.

Lemma flat_map_filter {A B : Type} (p : A -> bool) (f : A -> list B) (l : list A) :
  flat_map (fun a => if p a then f a else []) l = flat_map f (filter p l).
Proof.
  induction l as [|a l IH]; simpl; [reflexivity|].
  rewrite IH. destruct (p a); reflexivity.
Qed.

Lemma flat_map_agree {A B : Type} (f g : A -> list B) (l : list A) :
  (forall a, In a l -> f a = g a) -> flat_map f l = flat_map g l.
Proof.
  intros H. induction l as [|a l IH]; simpl; [reflexivity|].
  rewrite (H a (or_introl eq_refl)), IH; [reflexivity|].
  intros b I. apply H. right. exact I.
Qed.

Lemma count_app {A : Type} (p : A -> bool) (l1 l2 : list A) :
  Sql.count p (l1 ++ l2) = Sql.count p l1 + Sql.count p l2.
Proof.
  unfold Sql.count. rewrite filter_app, length_app. lia.
Qed.

Lemma joined_rows_blocks (d : DB) :
  Controller.joined_rows d = flat_map (block d) (users d).
Proof.
  unfold Controller.joined_rows, block.
  unfold Sql.left_join at 1 2. rewrite flat_map_flat_map.
  apply flat_map_ext. intros u. unfold Sql.left_join. simpl flat_map at 3.
  rewrite app_nil_r. reflexivity.
Qed.

Lemma in_block_user (d : DB) (u : User.row) r :
  In r (block d u) -> fst (fst r) = u.
Proof.
  destruct r as [[u' ol] oa]. unfold block. intros I.
  apply in_left_join in I. apply in_left_join in I.
  destruct I as [<-|[]]. reflexivity.
Qed.

Lemma left_join_nonempty {A B : Type} (on : A -> B -> bool) (a : A) (l : list A)
  (r : list B) :
  Sql.left_join on (a :: l) r <> [].
Proof.
  unfold Sql.left_join. simpl. destruct (filter (on a) r); simpl; discriminate.
Qed.

Lemma block_nonempty (d : DB) (u : User.row) : block d u <> [].
Proof.
  unfold block.
  destruct (Sql.left_join Controller.owns [u] (listings d)) eqn:E.
  - exfalso. exact (left_join_nonempty _ _ _ _ E).
  - apply left_join_nonempty.
Qed.

(** *** Counting inside one block *)

Section Product.
Context {L A : Type}.
Variable accounts : list A.

Let rows (inner : list (User.row * option L))
  : list (User.row * option L * option A) :=
  flat_map (fun ul => map (fun b => (ul, Some b)) accounts) inner.

Lemma count_paired_right (inner : list (User.row * option L)) :
  Sql.count_some snd (rows inner)
  = Z.of_nat (List.length inner) * Z.of_nat (List.length accounts).
Proof.
  unfold rows, Sql.count_some.
  induction inner as [|ul inner IH]; [reflexivity|].
  cbn [flat_map]. rewrite count_app, IH.
  assert (E : Sql.count
                (fun a : User.row * option L * option A =>
                   match snd a with Some _ => true | None => false end)
                (map (fun b => (ul, Some b)) accounts)
              = Z.of_nat (List.length accounts)).
  { clear. induction accounts as [|b l IH]; [reflexivity|].
    cbn [map]. rewrite count_cons, IH. cbn [snd List.length]. lia. }
  rewrite E. cbn [List.length]. lia.
Qed.

Lemma count_paired_left (inner : list (User.row * option L)) :
  Sql.count_some (fun r => snd (fst r)) (rows inner)
  = Sql.count_some snd inner * Z.of_nat (List.length accounts).
Proof.
  unfold rows, Sql.count_some.
  induction inner as [|ul inner IH]; [reflexivity|].
  cbn [flat_map]. rewrite count_app, IH, count_cons.
  assert (E : Sql.count
                (fun a : User.row * option L * option A =>
                   match snd (fst a) with Some _ => true | None => false end)
                (map (fun b => (ul, Some b)) accounts)
              = (if match snd ul with Some _ => true | None => false end
                 then 1 else 0) * Z.of_nat (List.length accounts)).
  { clear. induction accounts as [|b l IH]; [cbn; lia|].
    cbn [map]. rewrite count_cons, IH. cbn [snd fst List.length].
    destruct (snd ul); lia. }
  rewrite E. lia.
Qed.

End Product.

Lemma count_unpaired {L A : Type} (f : User.row * option L * option A -> bool)
  (g : User.row * option L -> bool) (inner : list (User.row * option L)) :
  (forall ul, f (ul, None) = g ul) ->
  Sql.count f (flat_map (fun ul => [(ul, @None A)]) inner) = Sql.count g inner.
Proof.
  intros H. induction inner as [|ul inner IH]; [reflexivity|].
  cbn [flat_map app]. rewrite !count_cons, IH, H. reflexivity.
Qed.

Lemma count_map_some {A B : Type} (f : A -> B) (l : list A) (u : User.row) :
  Sql.count_some snd (map (fun a => (u, Some (f a))) l) = Z.of_nat (List.length l).
Proof.
  unfold Sql.count_some.
  induction l as [|a l IH]; [reflexivity|].
  cbn [map]. rewrite count_cons, IH. cbn [snd List.length]. lia.
Qed.

(** In the block of a user with [m] listings and [n] active accounts,
    [COUNT(l.id)] is [m * max 1 n] and [COUNT(ma.id)] is [max 1 m * n]. *)
Lemma block_counts (d : DB) (u : User.row) :
  Sql.count_some (fun r => snd (fst r)) (block d u)
  = owned_listings u d * Z.max 1 (active_accounts u d)
  /\ Sql.count_some snd (block d u)
     = Z.max 1 (owned_listings u d) * active_accounts u d.
Proof.
  unfold block, owned_listings, active_accounts.
  set (inner := Sql.left_join Controller.owns [u] (listings d)).
  assert (Hu : forall ul, In ul inner -> fst ul = u).
  { intros [u' ol] I. apply in_left_join in I. destruct I as [<-|[]]. reflexivity. }
  assert (Hlen : Z.of_nat (List.length inner)
                 = Z.max 1 (Sql.count (Controller.owns u) (listings d))
                 /\ Sql.count_some snd inner
                    = Sql.count (Controller.owns u) (listings d)).
  { unfold inner, Sql.left_join, Sql.count. cbn [flat_map]. rewrite app_nil_r.
    destruct (filter (Controller.owns u) (listings d)) as [|l ms] eqn:E.
    - split; reflexivity.
    - rewrite (count_map_some (fun x => x)), length_map. split; [|reflexivity].
      cbn [List.length]. lia. }
  destruct Hlen as [Hlen Hsome].
  set (As := filter (fun ma => (User.id u =? Account.user_id ma)
                               && Account.is_active ma) (marketplace_accounts d)).
  assert (Hrows : Sql.left_join Controller.is_active_account_of inner
                    (marketplace_accounts d)
                  = flat_map (fun ul => match As with
                                        | [] => [(ul, None)]
                                        | _ :: _ => map (fun b => (ul, Some b)) As
                                        end) inner).
  { unfold Sql.left_join. apply flat_map_agree. intros ul I.
    unfold Controller.is_active_account_of. rewrite (Hu ul I). fold As.
    destruct As; reflexivity. }
  rewrite Hrows.
  assert (Hn : Sql.count (fun ma => (User.id u =? Account.user_id ma)
                                    && Account.is_active ma)
                 (marketplace_accounts d) = Z.of_nat (List.length As))
    by reflexivity.
  rewrite Hn. clear Hn Hrows. clearbody As.
  destruct As as [|a As'].
  - cbn [List.length]. change (Z.of_nat 0) with 0.
    split.
    + unfold Sql.count_some. rewrite (count_unpaired _
        (fun ul => match snd ul with Some _ => true | None => false end));
        [|reflexivity].
      fold (Sql.count_some (@snd User.row (option Listing.row)) inner).
      rewrite Hsome. lia.
    + unfold Sql.count_some. rewrite (count_unpaired _ (fun _ => false));
        [|reflexivity].
      rewrite count_none by reflexivity. lia.
  - split.
    + rewrite (count_paired_left (a :: As') inner), Hsome.
      rewrite Z.max_r by (cbn [List.length]; lia). reflexivity.
    + rewrite (count_paired_right (a :: As') inner), Hlen. reflexivity.
Qed.

(** *** Grouping by user *)

Lemma filter_all {A : Type} (p : A -> bool) (l : list A) :
  (forall a, In a l -> p a = true) -> filter p l = l.
Proof.
  intros H. induction l as [|a l IH]; simpl; [reflexivity|].
  rewrite (H a (or_introl eq_refl)), IH; [reflexivity|].
  intros b I. apply H. right. exact I.
Qed.

Lemma filter_nothing {A : Type} (p : A -> bool) (l : list A) :
  (forall a, In a l -> p a = false) -> filter p l = [].
Proof.
  intros H. induction l as [|a l IH]; simpl; [reflexivity|].
  rewrite (H a (or_introl eq_refl)). apply IH.
  intros b I. apply H. right. exact I.
Qed.

Lemma NoDup_map_filter {A B : Type} (f : A -> B) (p : A -> bool) (l : list A) :
  NoDup (map f l) -> NoDup (map f (filter p l)).
Proof.
  induction l as [|a l IH]; simpl; intros N; [constructor|].
  inversion N as [|? ? Na N']; subst.
  destruct (p a); simpl; [|apply IH; exact N'].
  constructor; [|apply IH; exact N'].
  intros I. apply Na. apply in_map_iff in I. destruct I as (b & E & I).
  apply filter_In in I. rewrite <- E. apply in_map. apply I.
Qed.

Lemma in_firstn {A : Type} (x : A) (n : nat) (l : list A) :
  In x (firstn n l) -> In x l.
Proof.
  revert l. induction n as [|n IH]; intros [|a l]; simpl; try tauto.
  intros [E|I]; [left; exact E | right; apply IH; exact I].
Qed.

Lemma in_skipn {A : Type} (x : A) (n : nat) (l : list A) :
  In x (skipn n l) -> In x l.
Proof.
  revert l. induction n as [|n IH]; intros [|a l]; simpl; try tauto.
  intros I. right. apply IH. exact I.
Qed.

Section Groups.
Variable d : DB.

Let key (r : User.row * option Listing.row * option Account.row) : Z :=
  User.id (fst (fst r)).

Lemma filter_block_key (U : list User.row) (u : User.row) :
  NoDup (map User.id U) -> In u U ->
  filter (fun r => key r =? User.id u) (flat_map (block d) U) = block d u.
Proof.
  induction U as [|a U IH]; intros N I; [destruct I|].
  inversion N as [|? ? Na N']; subst.
  cbn [flat_map]. rewrite filter_app.
  destruct (Z.eq_dec (User.id a) (User.id u)) as [E|E].
  - assert (a = u) as ->.
    { destruct I as [E'|I]; [exact E'|]. exfalso. apply Na. rewrite E.
      apply in_map. exact I. }
    rewrite filter_all, filter_nothing; [apply app_nil_r | | ].
    + intros r Ir. apply in_flat_map in Ir. destruct Ir as (u' & Iu' & Ir).
      unfold key. rewrite (in_block_user d u' r Ir). apply Z.eqb_neq.
      intros E'. apply Na. rewrite <- E'. apply in_map. exact Iu'.
    + intros r Ir. unfold key. rewrite (in_block_user d u r Ir). apply Z.eqb_refl.
  - destruct I as [E'|I]; [congruence|].
    rewrite filter_nothing, IH; [reflexivity | exact N' | exact I | ].
    intros r Ir. unfold key. rewrite (in_block_user d a r Ir).
    apply Z.eqb_neq. exact E.
Qed.

Lemma kept_rows (ps : list Param) (cs : list Controller.Clause) :
  filter (fun r => Controller.where_ ps cs (fst (fst r))) (Controller.joined_rows d)
  = flat_map (block d) (filter (Controller.where_ ps cs) (users d)).
Proof.
  rewrite joined_rows_blocks, filter_flat_map, <- flat_map_filter.
  apply flat_map_agree. intros u _.
  destruct (Controller.where_ ps cs u) eqn:W.
  - apply filter_all. intros r I. rewrite (in_block_user d u r I). exact W.
  - apply filter_nothing. intros r I. rewrite (in_block_user d u r I). exact W.
Qed.

(** Every row of the grouped result is the row of one selected user,
    with the two counts taken over that user's block. *)
Lemma in_grouped_rows (ps : list Param) (cs : list Controller.Clause)
  (row : Controller.UserSummary) :
  NoDup (map User.id (users d)) ->
  In row (Controller.grouped_rows ps cs d) ->
  exists u,
    In u (users d) /\ Controller.where_ ps cs u = true
    /\ row = Controller.mkUserSummary u
               (Sql.count_some (fun r => snd (fst r)) (block d u))
               (Sql.count_some snd (block d u)).
Proof.
  intros N I. unfold Controller.grouped_rows in I. rewrite kept_rows in I.
  set (U := filter (Controller.where_ ps cs) (users d)) in *.
  assert (NU : NoDup (map User.id U)) by (apply NoDup_map_filter; exact N).
  apply in_map_iff in I. destruct I as ([a grp] & <- & I).
  unfold Sql.group_by in I. apply in_flat_map in I. destruct I as (k & _ & I).
  destruct (filter _ (flat_map (block d) U)) as [|a0 g] eqn:F; [destruct I|].
  destruct I as [E|[]]. inversion E; subst a grp. clear E.
  assert (Ia : In a0 (a0 :: g)) by (left; reflexivity).
  rewrite <- F in Ia. apply filter_In in Ia. destruct Ia as [Ia Ek].
  apply Z.eqb_eq in Ek.
  apply in_flat_map in Ia. destruct Ia as (u & Iu & Ia).
  pose proof (in_block_user d u a0 Ia) as Eu.
  assert (k = User.id u) as -> by (rewrite <- Ek, Eu; reflexivity).
  change (filter (fun r => key r =? User.id u) (flat_map (block d) U) = a0 :: g) in F.
  rewrite (filter_block_key U u NU Iu) in F.
  exists u. unfold U in Iu. apply filter_In in Iu. destruct Iu as [Iu W].
  split; [exact Iu|]. split; [exact W|].
  cbn [fst snd]. rewrite Eu, <- F. reflexivity.
Qed.

(** Every selected user has a row, also with no listing and no
    account. *)
Lemma grouped_rows_complete (ps : list Param) (cs : list Controller.Clause)
  (u : User.row) :
  NoDup (map User.id (users d)) ->
  In u (users d) -> Controller.where_ ps cs u = true ->
  In (Controller.mkUserSummary u
        (Sql.count_some (fun r => snd (fst r)) (block d u))
        (Sql.count_some snd (block d u)))
     (Controller.grouped_rows ps cs d).
Proof.
  intros N Iu W. unfold Controller.grouped_rows. rewrite kept_rows.
  set (U := filter (Controller.where_ ps cs) (users d)).
  assert (NU : NoDup (map User.id U)) by (apply NoDup_map_filter; exact N).
  assert (IU : In u U) by (apply filter_In; split; assumption).
  destruct (block d u) as [|a0 g] eqn:B; [exfalso; exact (block_nonempty d u B)|].
  assert (Ia : In a0 (block d u)) by (rewrite B; left; reflexivity).
  pose proof (in_block_user d u a0 Ia) as Eu.
  apply in_map_iff. exists (a0, a0 :: g). split.
  { cbn [fst snd]. rewrite Eu. reflexivity. }
  unfold Sql.group_by. apply in_flat_map. exists (User.id u). split.
  - apply (in_distinct Z.eqb Z.eqb_eq). split; [|intros []].
    apply in_map_iff. exists a0. split; [rewrite Eu; reflexivity|].
    apply in_flat_map. exists u. split; assumption.
  - change (In (a0, a0 :: g)
              match filter (fun r => key r =? User.id u) (flat_map (block d) U) with
              | [] => []
              | a :: g0 => [(a, a :: g0)]
              end).
    rewrite (filter_block_key U u NU IU), B. left. reflexivity.
Qed.

End Groups.

(** What the listing statement answers, for any filter and page: each
    row carries [m * max 1 n] as [listing_count] and [max 1 m * n] as
    [connected_accounts], where the user owns [m] listings and has [n]
    active accounts. *)
Lemma usersQuery_counts (search tier : string) (limit offset : Js.number)
  (t : Z) (d d' : DB) (rows : list Controller.UserSummary) :
  NoDup (map User.id (users d)) ->
  answer (Controller.usersQuery search tier limit offset) t d = inr (rows, d') ->
  forall r, In r rows ->
    Controller.listing_count r
    = owned_listings (Controller.user r) d
      * Z.max 1 (active_accounts (Controller.user r) d)
    /\ Controller.connected_accounts r
       = Z.max 1 (owned_listings (Controller.user r) d)
         * active_accounts (Controller.user r) d.
Proof.
  intros N A r I.
  assert (G : exists ps cs, In r (Controller.grouped_rows ps cs d)).
  { unfold Controller.usersQuery in A.
    destruct (Js.truthy search), (Js.truthy tier); cbn [answer] in A;
      unfold Controller.users_answer in A;
      repeat match type of A with
             | context [match ?x with _ => _ end] => destruct x; try discriminate
             end;
      injection A as <- <-;
      unfold Sql.limit_offset in I;
      apply in_firstn, in_skipn, in_order_by_desc in I;
      do 2 eexists; exact I. }
  destruct G as (ps & cs & G).
  destruct (in_grouped_rows d ps cs r N G) as (u & _ & _ & ->).
  cbn [Controller.listing_count Controller.connected_accounts Controller.user].
  apply block_counts.
Qed.

(* ================================================================= *)
(** ** Counts in the users listing *)

(** C3, at the failing input. alice owns two listings and has two
    active marketplace accounts (and one inactive); the listing reports
    [listing_count = 4] and [connected_accounts = 4] for her: each count
    runs over the rows of both joins together, two listings times two
    accounts.  bob and root, with no listing and no account, appear with
    zero counts. *)
Theorem users_listing_counts_multiply :
  exists rows pagination,
    fst (Controller.getUsers 1 None None None None (Sample.clock no_faults)
           (fresh Sample.store))
    = inr (Controller.ok (Controller.mkUsersPage rows pagination))
    /\ rows = [Controller.mkUserSummary Sample.bob 0 0;
               Controller.mkUserSummary Sample.alice 4 4;
               Controller.mkUserSummary Sample.root 0 0]
    /\ Sql.count (Controller.owns Sample.alice) (listings Sample.store) = 2
    /\ Sql.count (fun ma => (Account.user_id ma =? User.id Sample.alice)
                            && Account.is_active ma)
         (marketplace_accounts Sample.store) = 2.
Proof. do 2 eexists. repeat split; vm_compute; reflexivity. Qed.

(* ================================================================= *)
(** ** A small program logic for handlers *)

Section Ensures.
Context {A B : Type}.
Variables (env : Env) (w : World).
Variable Q : B -> World -> Prop.
Variable E : string -> World -> Prop.

Lemma ensures_ret (b : B) : Q b w -> ensures (ret b) env w Q E.
Proof. intros H. exact H. Qed.

Lemma ensures_bind (m : M A) (k : A -> M B) :
  ensures m env w (fun a w' => ensures (k a) env w' Q E) E ->
  ensures (bind m k) env w Q E.
Proof.
  unfold ensures, bind. destruct (m env w) as [[e|a] w']; auto.
Qed.

Lemma ensures_try_catch (body : M B) (h : string -> M B) :
  ensures body env w Q (fun e w' => ensures (h e) env w' Q E) ->
  ensures (try_catch body h) env w Q E.
Proof.
  unfold ensures, try_catch. destruct (body env w) as [[e|a] w']; auto.
Qed.

Lemma ensures_settled (q : Query A) (k : string + A -> M B) :
  (forall e w1, db w1 = db w -> ensures (k (inl e)) env w1 Q E) ->
  (forall r d' w1, answer q (now env) (db w) = inr (r, d') -> db w1 = d' ->
                   ensures (k (inr r)) env w1 Q E) ->
  ensures (bind (pool_query_settled q) k) env w Q E.
Proof.
  intros Hf Hok. unfold ensures, bind, pool_query_settled.
  destruct (fault env _) as [e|].
  - apply (Hf e). reflexivity.
  - destruct (answer q (now env) (db w)) as [e|[r d']] eqn:An.
    + apply (Hf e). reflexivity.
    + apply (Hok r d'); reflexivity.
Qed.

Lemma ensures_query (q : Query A) (k : A -> M B) :
  (forall e w1, db w1 = db w -> E e w1) ->
  (forall r d' w1, answer q (now env) (db w) = inr (r, d') -> db w1 = d' ->
                   ensures (k r) env w1 Q E) ->
  ensures (bind (pool_query q) k) env w Q E.
Proof.
  intros Hf Hok. unfold ensures, bind, pool_query, pool_query_settled.
  unfold bind. destruct (fault env _) as [e|].
  - apply (Hf e). reflexivity.
  - destruct (answer q (now env) (db w)) as [e|[r d']] eqn:An.
    + apply (Hf e). reflexivity.
    + apply (Hok r d'); reflexivity.
Qed.

Lemma ensures_read (q : Query A) (k : A -> M B) :
  read_only q ->
  (forall e w1, db w1 = db w -> E e w1) ->
  (forall r w1, db w1 = db w -> ensures (k r) env w1 Q E) ->
  ensures (bind (pool_query q) k) env w Q E.
Proof.
  intros Hr Hf Hok. apply ensures_query; [exact Hf|].
  intros r d' w1 An Hd. apply Hok. rewrite Hd. exact (Hr _ _ _ _ An).
Qed.

Lemma ensures_settled_read (q : Query A) (k : string + A -> M B) :
  read_only q ->
  (forall p w1, db w1 = db w -> ensures (k p) env w1 Q E) ->
  ensures (bind (pool_query_settled q) k) env w Q E.
Proof.
  intros Hr H. apply ensures_settled.
  - intros e w1 Hd. apply H. exact Hd.
  - intros r d' w1 An Hd. apply H. rewrite Hd. exact (Hr _ _ _ _ An).
Qed.

Lemma ensures_await (p : string + A) (k : A -> M B) :
  (forall e, p = inl e -> E e w) ->
  (forall r, p = inr r -> ensures (k r) env w Q E) ->
  ensures (bind (await p) k) env w Q E.
Proof.
  intros Hf Hok. destruct p as [e|r].
  - exact (Hf e eq_refl).
  - exact (Hok r eq_refl).
Qed.

End Ensures.

Lemma ensures_logger {B : Type} env w (Q : B -> World -> Prop) E line
  (k : unit -> M B) :
  (forall w1, db w1 = db w -> ensures (k tt) env w1 Q E) ->
  ensures (bind (logger_error line) k) env w Q E.
Proof. intros H. apply H. reflexivity. Qed.

Lemma ensures_now {B : Type} env w (Q : B -> World -> Prop) E (k : Z -> M B) :
  ensures (k (now env)) env w Q E -> ensures (bind get_now k) env w Q E.
Proof. intros H. exact H. Qed.

Lemma ensures_uptime {B : Type} env w (Q : B -> World -> Prop) E (k : Z -> M B) :
  ensures (k (uptime env)) env w Q E -> ensures (bind get_uptime k) env w Q E.
Proof. intros H. exact H. Qed.

(** A run that cannot end in an escaped error returns. *)
Lemma ensures_returns {A : Type} (m : M A) env w (Q : A -> World -> Prop) :
  ensures m env w Q (fun _ _ => False) ->
  exists a, fst (m env w) = inr a /\ Q a (snd (m env w)).
Proof.
  unfold ensures. destruct (m env w) as [[e|a] w']; [intros []|].
  intros H. exists a. split; [reflexivity | exact H].
Qed.

(** *** The statements that only read *)

Lemma read_only_reading {R : Type} txt ps (f : Z -> DB -> R) :
  read_only (mkQuery txt ps (reading f)).
Proof. intros t d r d' H. cbn in H. unfold reading in H. congruence. Qed.

Lemma read_only_usersQuery search tier limit offset :
  read_only (Controller.usersQuery search tier limit offset).
Proof. intros t d r d' H. eapply usersQuery_reads. exact H. Qed.

Lemma read_only_activityResult limit : read_only (Controller.activityResult limit).
Proof.
  intros t d r d' H. cbn in H.
  destruct limit as [n|]; [destruct (n <? 0)|]; congruence.
Qed.

Lemma read_only_signupsResult days : read_only (Controller.signupsResult days).
Proof. intros t d r d' H. cbn in H. destruct days; [congruence | discriminate]. Qed.

Lemma read_only_statsListingsResult days :
  read_only (Controller.statsListingsResult days).
Proof. intros t d r d' H. cbn in H. destruct days; [congruence | discriminate]. Qed.

Lemma read_only_countQuery search tier : read_only (Controller.countQuery search tier).
Proof.
  unfold Controller.countQuery.
  destruct (Js.truthy search), (Js.truthy tier); apply read_only_reading.
Qed.

Create HintDb reads.
#[export] Hint Resolve read_only_usersQuery read_only_activityResult
  read_only_signupsResult read_only_statsListingsResult read_only_countQuery
  : reads.
#[export] Hint Extern 1 (read_only _) => apply read_only_reading : reads.

Ltac walk :=
  repeat (cbv beta;
    lazymatch goal with
    | |- ensures (try_catch _ _) _ _ _ _ => apply ensures_try_catch
    | |- ensures (bind (pool_query _) _) _ _ _ _ =>
        apply ensures_read; [auto with reads | intros ? ? ? | intros ? ? ?]
    | |- ensures (bind (pool_query_settled _) _) _ _ _ _ =>
        apply ensures_settled_read; [auto with reads | intros ? ? ?]
    | |- ensures (bind (await _) _) _ _ _ _ => apply ensures_await; intros ? ?
    | |- ensures (bind (logger_error _) _) _ _ _ _ =>
        apply ensures_logger; intros ? ?
    | |- ensures (bind get_now _) _ _ _ _ => apply ensures_now
    | |- ensures (bind get_uptime _) _ _ _ _ => apply ensures_uptime
    | |- ensures (ret _) _ _ _ _ => apply ensures_ret
    | |- ensures (if ?c then _ else _) _ _ _ _ => destruct c
    | |- ensures (match ?x with _ => _ end) _ _ _ _ => destruct x
    end).

Ltac settle :=
  unfold answered_unchanged; split;
  [ cbn; unfold well_formed; auto | congruence ].

Lemma getUsers_reads userId page limit search tier env w :
  ensures (Controller.getUsers userId page limit search tier) env w
    (answered_unchanged w) (fun _ _ => False).
Proof. unfold Controller.getUsers. cbv zeta. walk; settle. Qed.

Lemma getSystemStats_reads userId days env w :
  ensures (Controller.getSystemStats userId days) env w
    (answered_unchanged w) (fun _ _ => False).
Proof. unfold Controller.getSystemStats. walk; settle. Qed.

Lemma getAdminActivity_reads userId limit env w :
  ensures (Controller.getAdminActivity userId limit) env w
    (answered_unchanged w) (fun _ _ => False).
Proof. unfold Controller.getAdminActivity. walk; settle. Qed.

Lemma dashboard_reads env w :
  ensures Router.dashboard env w (answered_unchanged w) (fun _ _ => False).
Proof. unfold Router.dashboard. walk; settle. Qed.

Lemma router_getUsers_reads env w :
  ensures Router.getUsers env w (answered_unchanged w) (fun _ _ => False).
Proof. unfold Router.getUsers. walk; settle. Qed.

Lemma getUser_reads id env w :
  ensures (Router.getUser id) env w (answered_unchanged w) (fun _ _ => False).
Proof. unfold Router.getUser. walk; settle. Qed.

Lemma getListings_reads env w :
  ensures Router.getListings env w (answered_unchanged w) (fun _ _ => False).
Proof. unfold Router.getListings. walk; settle. Qed.

Lemma system_reads env w :
  ensures Router.system env w (answered_unchanged w) (fun _ _ => False).
Proof. unfold Router.system. walk; settle. Qed.

Lemma analytics_reads env w :
  ensures Router.analytics env w (answered_unchanged w) (fun _ _ => False).
Proof. unfold Router.analytics. walk; settle. Qed.

Ltac walk_any :=
  repeat (cbv beta;
    lazymatch goal with
    | |- ensures (try_catch _ _) _ _ _ _ => apply ensures_try_catch
    | |- ensures (bind (pool_query _) _) _ _ _ _ =>
        first [ apply ensures_read;
                [solve [auto with reads] | intros ? ? ? | intros ? ? ?]
              | apply ensures_query; [intros ? ? ? | intros ? ? ? ? ?] ]
    | |- ensures (bind (pool_query_settled _) _) _ _ _ _ =>
        apply ensures_settled_read; [auto with reads | intros ? ? ?]
    | |- ensures (bind (await _) _) _ _ _ _ => apply ensures_await; intros ? ?
    | |- ensures (bind (logger_error _) _) _ _ _ _ =>
        apply ensures_logger; intros ? ?
    | |- ensures (bind get_now _) _ _ _ _ => apply ensures_now
    | |- ensures (bind get_uptime _) _ _ _ _ => apply ensures_uptime
    | |- ensures (ret _) _ _ _ _ => apply ensures_ret
    | |- ensures (if ?c then _ else _) _ _ _ _ => destruct c
    | |- ensures (match ?x with _ => _ end) _ _ _ _ => destruct x
    end).

Ltac unwind :=
  repeat match goal with H : db _ = _ |- _ => rewrite H end; reflexivity.

Lemma ensures_isAdmin {T : Type} (k : Z) (next : M (Res.t T)) env w
  (Q : Res.t T -> World -> Prop) E :
  Q (Res.mk 403 false None (Some "Access denied") None None) w ->
  ensures next env w Q E ->
  ensures (Router.isAdmin k next) env w Q E.
Proof.
  intros H403 Hnext. unfold ensures, Router.isAdmin.
  destruct (Controller.first_is_admin _); [exact Hnext | exact H403].
Qed.

Lemma ensures_weaken {A : Type} (m : M A) env w (Q Q' : A -> World -> Prop) E :
  (forall a w', Q a w' -> Q' a w') ->
  ensures m env w Q E -> ensures m env w Q' E.
Proof.
  unfold ensures. intros H. destruct (m env w) as [[e|a] w']; auto.
Qed.

(** *** The metrics handler *)

Lemma metrics_ensures userId ip env w :
  ensures (Controller.getDashboardMetrics userId ip) env w
    (fun a w' =>
       (Res.status a = 200 /\ Res.success a = true
        /\ db w' = with_audit_row userId ip (now env) (db w))
       \/ ((Res.status a = 403 \/ Res.status a = 500) /\ Res.success a = false
           /\ db w' = db w))
    (fun _ _ => False).
Proof.
  unfold Controller.getDashboardMetrics. walk_any.
  all: try (right; cbn; split; [auto|]; split; [reflexivity | congruence]).
  left. cbn. split; [reflexivity|]. split; [reflexivity|].
  match goal with
  | An : answer (Controller.logActivity _ _ _) _ _ = inr _ |- _ =>
      cbn in An; injection An as _ <-
  end.
  unfold with_audit_row, audit_row.
  match goal with
  | H : db ?w1 = set_admin_activity_log _ (db ?w0) |- _ =>
      rewrite H; replace (db w0) with (db w) by congruence
  end.
  reflexivity.
Qed.

(** *** The writing routes *)

Lemma putUser_ensures id b env w :
  ensures (Router.putUser id b) env w
    (fun a w' =>
       (Res.status a = 500 /\ Res.success a = false /\ db w' = db w)
       \/ ((Res.status a = 200 /\ Res.success a = true
            \/ Res.status a = 404 /\ Res.success a = false)
           /\ db w' = set_users (users_after_update id b (now env)) (db w)))
    (fun _ _ => False).
Proof.
  unfold Router.putUser. walk_any.
  all: try (left; cbn; split; [reflexivity|]; split; [reflexivity | congruence]).
  all: right; cbn; (split; [auto|]);
    match goal with
    | An : answer (Router.updateUser _ _) _ _ = inr _ |- _ =>
        cbn in An; injection An as _ <-
    end; unwind.
Qed.

Lemma deleteListing_ensures id env w :
  ensures (Router.deleteListing id) env w
    (fun a w' =>
       (Res.status a = 500 /\ Res.success a = false /\ db w' = db w)
       \/ ((Res.status a = 200 /\ Res.success a = true
            \/ Res.status a = 404 /\ Res.success a = false)
           /\ db w' = set_listings (listings_after_delete id (now env)) (db w)))
    (fun _ _ => False).
Proof.
  unfold Router.deleteListing. walk_any.
  all: try (left; cbn; split; [reflexivity|]; split; [reflexivity | congruence]).
  all: right; cbn; (split; [auto|]);
    match goal with
    | An : answer (Router.deleteListingRow _) _ _ = inr _ |- _ =>
        cbn in An; injection An as _ <-
    end; unwind.
Qed.

Lemma deleteUser_ensures id env w :
  ensures (Router.deleteUser id) env w
    (fun a w' =>
       (Res.status a = 500 /\ Res.success a = false
        /\ (db w' = db w \/ db w' = after_listings_marked id (now env) (db w)))
       \/ ((Res.status a = 200 /\ Res.success a = true
            \/ Res.status a = 404 /\ Res.success a = false)
           /\ db w' = after_user_deleted id (now env) (db w)))
    (fun _ _ => False).
Proof.
  unfold Router.deleteUser. walk_any.
  all: repeat match goal with
       | An : answer (Router.softDeleteUserListings _) _ _ = inr _ |- _ =>
           cbn in An; injection An as _ <-
       | An : answer (Router.deleteUserRow _) _ _ = inr _ |- _ =>
           cbn in An; injection An as _ <-
       end.
  all: unfold after_user_deleted, after_listings_marked.
  all: try (left; cbn; split; [reflexivity|]; split; [reflexivity|];
            first [left; congruence | right; unwind]).
  all: right; cbn; (split; [auto|]); unwind.
Qed.

(** *** Every endpoint *)

Lemma outcome_of_ensures {T : Type} (m : M (Res.t T)) env w (P : DB -> Prop) :
  ensures m env w
    (fun a w' => well_formed (Res.status a, Res.success a) /\ P (db w'))
    (fun _ _ => False) ->
  exists o, fst (outcome (m env w)) = Some o /\ well_formed o
            /\ P (db (snd (outcome (m env w)))).
Proof.
  intros H. apply ensures_returns in H. destruct H as (a & Ea & W & Pd).
  exists (Res.status a, Res.success a). unfold outcome. cbn [fst snd].
  rewrite Ea. auto.
Qed.

Ltac envelope :=
  unfold well_formed, answered_unchanged in *; cbv beta in *;
  repeat match goal with
         | H : _ /\ _ |- _ => destruct H
         | H : _ \/ _ |- _ => destruct H
         end;
  repeat match goal with
         | H : Res.status _ = _ |- _ => rewrite H; clear H
         | H : Res.success _ = _ |- _ => rewrite H; clear H
         end;
  auto.

Ltac effect :=
  unfold answered_unchanged in *; cbv beta in *; cbn [may_leave];
  repeat match goal with
         | H : _ /\ _ |- _ => destruct H
         | H : _ \/ _ |- _ => destruct H
         end;
  auto.

Ltac from_handler L :=
  eapply ensures_weaken; [|apply L];
  let a := fresh "a" in let w' := fresh "w'" in let H := fresh "H" in
  intros a w' H; split; [envelope | effect].

Ltac gated L :=
  apply ensures_isAdmin;
  [ split; [cbn; unfold well_formed; auto | cbn [may_leave]; auto]
  | from_handler L ].

Lemma serve_effect (e : Endpoint) (req : Request) (env : Env) (w : World) :
  exists o,
    fst (serve e req env w) = Some o /\ well_formed o
    /\ may_leave e req (now env) (db w) (db (snd (serve e req env w))).
Proof.
  destruct e; cbn [serve];
    apply (outcome_of_ensures _ _ _ (may_leave _ req (now env) (db w))).
  - from_handler metrics_ensures.
  - from_handler getUsers_reads.
  - from_handler getSystemStats_reads.
  - from_handler getAdminActivity_reads.
  - gated dashboard_reads.
  - gated router_getUsers_reads.
  - gated getUser_reads.
  - gated putUser_ensures.
  - gated deleteUser_ensures.
  - gated getListings_reads.
  - gated deleteListing_ensures.
  - gated system_reads.
  - gated analytics_reads.
Qed.

(** X1. Whatever statements fail, no error escapes a handler: every
    request to every endpoint is answered, with 200 and
    [success = true] or with 403, 404 or 500 and [success = false]. *)
Theorem every_request_is_answered (e : Endpoint) (req : Request) (env : Env)
  (w : World) :
  exists status success,
    fst (serve e req env w) = Some (status, success)
    /\ (success = true <-> status = 200)
    /\ (status = 200 \/ status = 403 \/ status = 404 \/ status = 500).
Proof.
  destruct (serve_effect e req env w) as ([s b] & E & W & _).
  exists s, b. split; [exact E|].
  destruct W as [W|[W|[W|W]]]; injection W as -> ->;
    (split; [split; intros H; (reflexivity || discriminate) | auto]).
Qed.

(** X2. The nine endpoints that send no writing statement leave the
    store exactly as it was, whoever calls and whatever fails. *)
Theorem read_endpoints_never_write (e : Endpoint) (req : Request) (env : Env)
  (w : World) :
  reads_only e = true ->
  db (snd (serve e req env w)) = db w.
Proof.
  intros R. destruct (serve_effect e req env w) as (o & _ & _ & H).
  destruct e; try discriminate R; exact H.
Qed.

Lemma read_endpoints_never_write_witness :
  db (snd (serve GetUsersPage (request_of 1) (Sample.clock Sample.audit_down)
             (fresh Sample.store)))
  = Sample.store.
Proof.
  exact (read_endpoints_never_write GetUsersPage (request_of 1)
           (Sample.clock Sample.audit_down) (fresh Sample.store) eq_refl).
Defined.

(** *** What no request does *)

Lemma stamped_all (p : Listing.row -> bool) (t : Z) (l : list Listing.row) :
  Forall2 (kept_or_stamped t) l
    (map (fun r => if p r then Router.mark_deleted t r else r) l).
Proof.
  induction l as [|a l IH]; simpl; constructor; [|exact IH].
  destruct (p a); [right | left]; reflexivity.
Qed.

Lemma kept_all (t : Z) (l : list Listing.row) : Forall2 (kept_or_stamped t) l l.
Proof. induction l; constructor; [left; reflexivity | assumption]. Qed.

(** X3. Across any request, with any failures: every listing row is
    still there, untouched or stamped with the time of the request (so
    none is removed, added or un-deleted); no user row appears that was
    not there; marketplace accounts and eBay listings are never written;
    and the audit log only grows, by at most one row, and only through
    the metrics endpoint. *)
Theorem what_no_request_does (e : Endpoint) (req : Request) (env : Env)
  (w : World) :
  let d := db w in
  let d' := db (snd (serve e req env w)) in
  Forall2 (kept_or_stamped (now env)) (listings d) (listings d')
  /\ (forall u', In u' (users d') ->
        exists u, In u (users d) /\ User.id u' = User.id u
                  /\ User.created_at u' = User.created_at u)
  /\ marketplace_accounts d' = marketplace_accounts d
  /\ ebay_listings d' = ebay_listings d
  /\ (exists rows, admin_activity_log d' = admin_activity_log d ++ rows
                   /\ (List.length rows <= 1)%nat
                   /\ (e <> GetMetrics -> rows = [])).
Proof.
  cbv zeta. destruct (serve_effect e req env w) as (o & _ & _ & H).
  assert (Same : forall d d', d' = d ->
    Forall2 (kept_or_stamped (now env)) (listings d) (listings d')
    /\ (forall u', In u' (users d') ->
          exists u, In u (users d) /\ User.id u' = User.id u
                    /\ User.created_at u' = User.created_at u)
    /\ marketplace_accounts d' = marketplace_accounts d
    /\ ebay_listings d' = ebay_listings d
    /\ (exists rows, admin_activity_log d' = admin_activity_log d ++ rows
                     /\ (List.length rows <= 1)%nat
                     /\ (e <> GetMetrics -> rows = []))).
  { intros d d' ->. split; [apply kept_all|].
    split; [intros u I; exists u; auto|]. split; [reflexivity|].
    split; [reflexivity|]. exists []. rewrite app_nil_r. cbn. auto. }
  destruct e; cbn [may_leave] in H; try (apply Same; exact H).
  - destruct H as [H|H]; [apply Same; exact H|]. rewrite H.
    unfold with_audit_row. cbn [set_admin_activity_log listings users
      marketplace_accounts ebay_listings admin_activity_log].
    split; [apply kept_all|]. split; [intros u I; exists u; auto|].
    split; [reflexivity|]. split; [reflexivity|].
    eexists. split; [reflexivity|]. cbn. split; [lia | congruence].
  - destruct H as [H|H]; [apply Same; exact H|]. rewrite H.
    cbn [set_users listings users marketplace_accounts ebay_listings
      admin_activity_log].
    split; [apply kept_all|]. split.
    { intros u' I. unfold users_after_update in I. apply in_map_iff in I.
      destruct I as (u & E & I). exists u. split; [exact I|].
      destruct (User.id u =? id req); subst u'; split; reflexivity. }
    split; [reflexivity|]. split; [reflexivity|].
    exists []. rewrite app_nil_r. cbn. auto.
  - assert (Marked : forall d0,
      Forall2 (kept_or_stamped (now env)) (listings d0)
        (listings (after_listings_marked (id req) (now env) d0))).
    { intros d0. apply stamped_all. }
    destruct H as [H|[H|H]]; [apply Same; exact H | | ]; rewrite H.
    + split; [apply Marked|]. split; [intros u I; exists u; auto|].
      split; [reflexivity|]. split; [reflexivity|].
      exists []. rewrite app_nil_r. cbn. auto.
    + split; [apply Marked|]. split.
      { intros u' I. cbn [after_user_deleted set_users users] in I.
        unfold users_without in I. apply filter_In in I. destruct I as [I _].
        exists u'. auto. }
      split; [reflexivity|]. split; [reflexivity|].
      exists []. rewrite app_nil_r. cbn. auto.
  - destruct H as [H|H]; [apply Same; exact H|]. rewrite H.
    split; [apply stamped_all|]. split; [intros u I; exists u; auto|].
    split; [reflexivity|]. split; [reflexivity|].
    exists []. rewrite app_nil_r. cbn. auto.
Qed.

(** X4. The metrics handler appends its audit row exactly when it
    answers 200: for any caller and any failures, either the response is
    200 and the store is the old one with one row appended to the audit
    log, a row with the caller as admin, the action [view_dashboard],
    no target, the caller's address and the time of the request; or the
    response is 403 or 500 and the store is unchanged. *)
Theorem metrics_audits_iff_200 (userId : Z) (ip : string) (env : Env) (w : World) :
  let r := Controller.getDashboardMetrics userId ip env w in
  exists a,
    fst r = inr a
    /\ ((Res.status a = 200
         /\ exists row,
              db (snd r) = set_admin_activity_log (fun l => l ++ [row]) (db w)
              /\ Activity.admin_id row = userId
              /\ Activity.action row = "view_dashboard"
              /\ Activity.target_type row = None
              /\ Activity.target_id row = None
              /\ Activity.ip_address row = ip
              /\ Activity.created_at row = now env)
        \/ ((Res.status a = 403 \/ Res.status a = 500) /\ db (snd r) = db w)).
Proof.
  cbv zeta.
  destruct (ensures_returns _ _ _ _ (metrics_ensures userId ip env w))
    as (a & E & H).
  exists a. split; [exact E|].
  destruct H as [(S & _ & D)|(S & _ & D)]; [left | right]; auto.
  split; [exact S|]. exists (audit_row userId ip (now env) (db w)).
  split; [exact D|]. repeat split.
Qed.

(** X5. [PUT /users/:id] and [DELETE /listings/:id] send one writing
    statement each: when either answers 500 the store is exactly as it
    was, and otherwise (200 or 404) the statement has run. *)
Theorem single_writes_are_all_or_nothing (id : Z) (b : Router.Body) (env : Env)
  (w : World) :
  (exists a,
     fst (Router.putUser id b env w) = inr a
     /\ (Res.status a = 500 /\ db (snd (Router.putUser id b env w)) = db w
         \/ (Res.status a = 200 \/ Res.status a = 404)
            /\ db (snd (Router.putUser id b env w))
               = set_users (users_after_update id b (now env)) (db w)))
  /\ (exists a,
        fst (Router.deleteListing id env w) = inr a
        /\ (Res.status a = 500 /\ db (snd (Router.deleteListing id env w)) = db w
            \/ (Res.status a = 200 \/ Res.status a = 404)
               /\ db (snd (Router.deleteListing id env w))
                  = set_listings (listings_after_delete id (now env)) (db w))).
Proof.
  split.
  - destruct (ensures_returns _ _ _ _ (putUser_ensures id b env w)) as (a & E & H).
    exists a. split; [exact E|].
    destruct H as [(S & _ & D)|([(S & _)|(S & _)] & D)]; auto.
  - destruct (ensures_returns _ _ _ _ (deleteListing_ensures id env w))
      as (a & E & H).
    exists a. split; [exact E|].
    destruct H as [(S & _ & D)|([(S & _)|(S & _)] & D)]; auto.
Qed.

(** X6. [DELETE /users/:id] is not atomic.  For any failures the store
    ends in one of three states: unchanged (500), the user's listings
    stamped and the user row still there (500), or both statements
    applied (200 or 404).  The middle one is what a failure of the
    second statement leaves. *)
Theorem delete_user_is_not_atomic (id : Z) (env : Env) (d : DB) (e : string) :
  let r := Router.deleteUser id env (fresh d) in
  (exists a,
     fst r = inr a
     /\ (Res.status a = 500
         /\ (db (snd r) = d \/ db (snd r) = after_listings_marked id (now env) d)
         \/ (Res.status a = 200 \/ Res.status a = 404)
            /\ db (snd r) = after_user_deleted id (now env) d))
  /\ (fault env 0%nat = None -> fault env 1%nat = Some e ->
      fst r = inr (Router.failed "Failed to delete user" e)
      /\ users (db (snd r)) = users d
      /\ listings (db (snd r)) = listings_after_user_delete id (now env) (listings d)
      /\ forall l, In l (listings (db (snd r))) -> Listing.user_id l = id ->
                   Listing.deleted_at l = Some (now env)).
Proof.
  cbv zeta. split.
  - destruct (ensures_returns _ _ _ _ (deleteUser_ensures id env (fresh d)))
      as (a & E & H).
    exists a. split; [exact E|].
    destruct H as [(S & _ & D)|([(S & _)|(S & _)] & D)]; auto.
  - intros F0 F1.
    assert (R : Router.deleteUser id env (fresh d)
                = (inr (Router.failed "Failed to delete user" e),
                   mkWorld (after_listings_marked id (now env) d)
                     [mkStatement Text.softDeleteUserListings [PNumber (Some id)]
                        (Some (after_listings_marked id (now env) d));
                      mkStatement Text.deleteUser [PNumber (Some id)] None]
                     [("Delete user error: " ++ e)%string])).
    { unfold Router.deleteUser. erewrite caught.
      2:{ send F0. erewrite query_fault; [|exact F1]. tidy. reflexivity. }
      reflexivity. }
    rewrite R. cbn [fst snd db]. split; [reflexivity|]. split; [reflexivity|].
    split; [reflexivity|].
    intros l I U. cbn [after_listings_marked set_listings listings] in I.
    unfold listings_after_user_delete in I. apply in_map_iff in I.
    destruct I as (l0 & E0 & _).
    destruct (Listing.user_id l0 =? id) eqn:H0; subst l; [reflexivity|].
    apply Z.eqb_neq in H0. contradiction.
Qed.

Lemma delete_user_is_not_atomic_witness :
  let r := Router.deleteUser 2
             (Sample.clock (fun n => if (n =? 1)%nat then Some "deadlock" else None))
             (fresh Sample.store) in
  map User.id (users (db (snd r))) = [1; 2; 3]
  /\ map Listing.deleted_at (listings (db (snd r))) = [Some 5000; Some 5000].
Proof.
  cbv zeta.
  destruct (proj2 (delete_user_is_not_atomic 2
              (Sample.clock (fun n => if (n =? 1)%nat then Some "deadlock" else None))
              Sample.store "deadlock") eq_refl eq_refl) as (_ & U & L & _).
  rewrite U, L. split; reflexivity.
Defined.

(* ================================================================= *)
(** ** Ordering *)

Section Ordering.
Context {A : Type}.
Variable key : A -> Z.

Lemma insert_desc_perm (a : A) (l : list A) :
  Permutation (Sql.insert_desc key a l) (a :: l).
Proof.
  induction l as [|b l IH]; simpl; [reflexivity|].
  destruct (key b <=? key a); [reflexivity|].
  rewrite IH. apply perm_swap.
Qed.

Lemma order_by_desc_perm (l : list A) : Permutation (Sql.order_by_desc key l) l.
Proof.
  induction l as [|a l IH]; simpl; [reflexivity|].
  fold (Sql.order_by_desc key l). rewrite insert_desc_perm, IH. reflexivity.
Qed.

Lemma insert_asc_perm (a : A) (l : list A) :
  Permutation (Sql.insert_asc key a l) (a :: l).
Proof.
  induction l as [|b l IH]; simpl; [reflexivity|].
  destruct (key a <=? key b); [reflexivity|].
  rewrite IH. apply perm_swap.
Qed.

Lemma order_by_asc_perm (l : list A) : Permutation (Sql.order_by_asc key l) l.
Proof.
  induction l as [|a l IH]; simpl; [reflexivity|].
  fold (Sql.order_by_asc key l). rewrite insert_asc_perm, IH. reflexivity.
Qed.

Lemma insert_desc_sorted (a : A) (l : list A) :
  StronglySorted (fun x y => key y <= key x) l ->
  StronglySorted (fun x y => key y <= key x) (Sql.insert_desc key a l).
Proof.
  induction l as [|b l IH]; simpl; intros S.
  - constructor; constructor.
  - inversion S as [|? ? S' F]; subst.
    destruct (key b <=? key a) eqn:E.
    + apply Z.leb_le in E. constructor; [exact S|].
      constructor; [exact E|].
      eapply Forall_impl; [|exact F]. cbv beta. intros c Hc. lia.
    + apply Z.leb_gt in E. constructor; [apply IH; exact S'|].
      apply (Permutation_Forall (Permutation_sym (insert_desc_perm a l))).
      constructor; [lia | exact F].
Qed.

Lemma order_by_desc_sorted (l : list A) :
  StronglySorted (fun x y => key y <= key x) (Sql.order_by_desc key l).
Proof.
  induction l as [|a l IH]; simpl; [constructor|].
  apply insert_desc_sorted. exact IH.
Qed.

Lemma insert_asc_sorted (a : A) (l : list A) :
  StronglySorted (fun x y => key x <= key y) l ->
  StronglySorted (fun x y => key x <= key y) (Sql.insert_asc key a l).
Proof.
  induction l as [|b l IH]; simpl; intros S.
  - constructor; constructor.
  - inversion S as [|? ? S' F]; subst.
    destruct (key a <=? key b) eqn:E.
    + apply Z.leb_le in E. constructor; [exact S|].
      constructor; [exact E|].
      eapply Forall_impl; [|exact F]. cbv beta. intros c Hc. lia.
    + apply Z.leb_gt in E. constructor; [apply IH; exact S'|].
      apply (Permutation_Forall (Permutation_sym (insert_asc_perm a l))).
      constructor; [lia | exact F].
Qed.

Lemma order_by_asc_sorted (l : list A) :
  StronglySorted (fun x y => key x <= key y) (Sql.order_by_asc key l).
Proof.
  induction l as [|a l IH]; simpl; [constructor|].
  apply insert_asc_sorted. exact IH.
Qed.

Lemma length_order_by_desc (l : list A) :
  List.length (Sql.order_by_desc key l) = List.length l.
Proof. apply Permutation_length, order_by_desc_perm. Qed.

End Ordering.




(** Sorted rows split by [firstn]: no row of the rest lies above a row
    of the front. *)
Lemma sorted_front {A : Type} (R : A -> A -> Prop) (n : nat) (l : list A) :
  StronglySorted R l ->
  forall x y, In x (firstn n l) -> In y (skipn n l) -> R x y.
Proof.
  revert l. induction n as [|n IH]; intros l S x y Ix Iy; [destruct Ix|].
  destruct l as [|a l]; [destruct Ix|].
  inversion S as [|? ? S' F]; subst. simpl in Ix, Iy.
  destruct Ix as [<-|Ix].
  - rewrite Forall_forall in F. apply F. eapply in_skipn. exact Iy.
  - exact (IH l S' x y Ix Iy).
Qed.

(* ================================================================= *)
(** ** Grouping rows that come in blocks *)

Section Blocks.
Context {U A K : Type}.
Variable eqb : K -> K -> bool.
Hypothesis eqb_spec : forall a b, eqb a b = true <-> a = b.
Variables (key : A -> K) (kof : U -> K) (blk : U -> list A).
Hypothesis key_blk : forall u a, In a (blk u) -> key a = kof u.
Hypothesis blk_nonempty : forall u, blk u <> [].

Lemma distinct_seen (seen : list K) (g : list A) (rest : list K) :
  (forall a, In a g -> In (key a) seen) ->
  Sql.distinct eqb seen (map key g ++ rest) = Sql.distinct eqb seen rest.
Proof.
  induction g as [|a g IH]; intros H; [reflexivity|].
  cbn [map app Sql.distinct].
  rewrite (proj2 (existsb_eqb eqb eqb_spec (key a) seen) (H a (or_introl eq_refl))).
  apply IH. intros b I. apply H. right. exact I.
Qed.

Lemma distinct_blocks (us : list U) (seen : list K) :
  NoDup (map kof us) ->
  (forall u, In u us -> ~ In (kof u) seen) ->
  Sql.distinct eqb seen (map key (flat_map blk us)) = map kof us.
Proof.
  revert seen. induction us as [|u us IH]; intros seen N H; [reflexivity|].
  inversion N as [|? ? Nu N']; subst.
  cbn [flat_map map]. rewrite map_app.
  destruct (blk u) as [|a g] eqn:B; [exfalso; exact (blk_nonempty u B)|].
  assert (Ka : forall b, In b (a :: g) -> key b = kof u).
  { intros b I. apply key_blk. rewrite B. exact I. }
  cbn [map app Sql.distinct]. rewrite (Ka a (or_introl eq_refl)).
  destruct (existsb (eqb (kof u)) seen) eqn:E.
  { apply (existsb_eqb eqb eqb_spec) in E. exfalso.
    exact (H u (or_introl eq_refl) E). }
  f_equal. rewrite distinct_seen.
  - apply IH; [exact N'|]. intros v I [Ev|Iv].
    + apply Nu. rewrite Ev. apply in_map. exact I.
    + exact (H v (or_intror I) Iv).
  - intros b I. left. symmetry. apply Ka. right. exact I.
Qed.

Lemma filter_block (us : list U) (u : U) :
  NoDup (map kof us) -> In u us ->
  filter (fun a => eqb (key a) (kof u)) (flat_map blk us) = blk u.
Proof.
  induction us as [|v us IH]; intros N I; [destruct I|].
  inversion N as [|? ? Nv N']; subst.
  cbn [flat_map]. rewrite filter_app.
  assert (Same : forall w, kof w = kof u ->
            filter (fun a => eqb (key a) (kof u)) (blk w) = blk w).
  { intros w E. apply filter_all. intros a Ia. apply eqb_spec.
    rewrite (key_blk w a Ia). exact E. }
  assert (Other : forall w, kof w <> kof u ->
            filter (fun a => eqb (key a) (kof u)) (blk w) = []).
  { intros w E. apply filter_nothing. intros a Ia.
    destruct (eqb (key a) (kof u)) eqn:C; [|reflexivity].
    apply eqb_spec in C. rewrite (key_blk w a Ia) in C. contradiction. }
  destruct I as [->|I].
  - rewrite (Same u eq_refl), filter_nothing; [apply app_nil_r|].
    intros a Ia. apply in_flat_map in Ia. destruct Ia as (w & Iw & Ia).
    destruct (eqb (key a) (kof u)) eqn:C; [|reflexivity].
    apply eqb_spec in C. rewrite (key_blk w a Ia) in C.
    exfalso. apply Nv. rewrite <- C. apply in_map. exact Iw.
  - rewrite Other, IH; [reflexivity | exact N' | exact I | ].
    intros E. apply Nv. rewrite E. apply in_map. exact I.
Qed.

(** Grouping puts every block in a group of its own, in the order of
    the blocks. *)
Lemma group_by_blocks (us : list U) :
  NoDup (map kof us) ->
  Sql.group_by eqb key (flat_map blk us)
  = flat_map (fun u => match blk u with [] => [] | a :: g => [(a, a :: g)] end) us.
Proof.
  intros N. unfold Sql.group_by.
  rewrite (distinct_blocks us [] N) by (intros u _ []).
  rewrite flat_map_concat_map, map_map, <- flat_map_concat_map.
  apply flat_map_agree. intros u I. rewrite (filter_block us u N I). reflexivity.
Qed.

Lemma map_group_by_blocks {B : Type} (F : A * list A -> B) (G : U -> B)
  (us : list U) :
  NoDup (map kof us) ->
  (forall u a g, blk u = a :: g -> F (a, a :: g) = G u) ->
  map F (Sql.group_by eqb key (flat_map blk us)) = map G us.
Proof.
  intros N H. rewrite (group_by_blocks us N). clear N.
  induction us as [|u us IH]; [reflexivity|].
  cbn [flat_map map]. rewrite map_app, IH.
  destruct (blk u) as [|a g] eqn:Eb; [exfalso; exact (blk_nonempty u Eb)|].
  cbn [map app]. rewrite (H u a g Eb). reflexivity.
Qed.

End Blocks.

(* ================================================================= *)
(** ** The users listing, page by page *)

Lemma where_matches (search tier : string) (tail : list Param) (u : User.row) :
  Controller.where_ (search_values search ++ tier_values tier ++ tail)
    ((if Js.truthy search then [Controller.NameOrEmailIlike 1 2] else [])
     ++ (if Js.truthy tier
         then [Controller.TierEquals (if Js.truthy search then 3 else 1)]
         else []))
    u
  = matches search tier u.
Proof.
  unfold Controller.where_, matches, search_values, tier_values,
    Controller.holds, Controller.param.
  destruct (Js.truthy search), (Js.truthy tier);
    cbn [app forallb nth Nat.sub]; rewrite ?andb_true_r; try reflexivity;
    destruct (User.subscription_tier u); reflexivity.
Qed.


Lemma usersQuery_shape (search tier : string) (limit offset : Js.number) :
  exists ps cs li oi,
    answer (Controller.usersQuery search tier limit offset)
    = Controller.users_answer ps cs li oi
    /\ Controller.param ps li = PNumber limit
    /\ Controller.param ps oi = PNumber offset
    /\ forall u, Controller.where_ ps cs u = matches search tier u.
Proof.
  unfold Controller.usersQuery.
  destruct (Js.truthy search) eqn:S, (Js.truthy tier) eqn:T; cbn [answer app];
    do 4 eexists; (split; [reflexivity|]); (split; [reflexivity|]);
    (split; [reflexivity|]); intros u;
    pose proof (where_matches search tier [PNumber limit; PNumber offset] u) as W;
    unfold search_values, tier_values in W; rewrite S, T in W; exact W.
Qed.



Lemma countQuery_counts (search tier : string) (t : Z) (d : DB) :
  answer (Controller.countQuery search tier) t d
  = inr (Sql.count (matches search tier) (users d), d).
Proof.
  unfold Controller.countQuery.
  destruct (Js.truthy search) eqn:S, (Js.truthy tier) eqn:T; cbn [answer app];
    unfold reading; do 2 f_equal; unfold Sql.count; do 2 f_equal;
    apply filter_ext; intros u;
    pose proof (where_matches search tier [] u) as W;
    unfold search_values, tier_values in W; rewrite S, T in W;
    cbn [app] in W; exact W.
Qed.






(* ================================================================= *)
(** ** Searching for plain text *)









(* ================================================================= *)
(** ** The metrics report, field by field *)

Lemma metrics_report (userId : Z) (ip : string) (env : Env) (d : DB) :
  has_admin userId d ->
  (forall n, (n < 12)%nat -> fault env n = None) ->
  exists m tiers top,
    fst (Controller.getDashboardMetrics userId ip env (fresh d))
    = inr (Controller.ok m)
    /\ answer Controller.subscriptionTiersResult (now env) d = inr (tiers, d)
    /\ answer Controller.topUsersResult (now env) d = inr (top, d)
    /\ Metrics.topUsers m = top
    /\ Metrics.subscriptions m
       = fold_left (fun acc row => Controller.obj_set (Controller.key_of (fst row))
                                     (snd row) acc) tiers []
    /\ Metrics.overview m
       = Metrics.mkOverview
           (Sql.count (fun _ => true) (users d))
           (Sql.count (fun _ => true) (listings d))
           (Sql.count Account.is_active (marketplace_accounts d))
           (Sql.count (fun _ => true) (ebay_listings d))
           (Sql.count (fun u => now env - 7 * day <? User.created_at u) (users d))
           (Sql.count_distinct
              (map Listing.user_id
                 (filter (fun l => now env - 30 * day <? Listing.created_at l)
                    (listings d)))).
Proof.
  intros Hadmin Hf.
  unfold Controller.getDashboardMetrics.
  erewrite returned.
  2:{ send Hf. rewrite (has_admin_check _ _ Hadmin). cbn [negb].
      do 7 send Hf. rewrite !await_ok. do 3 send Hf.
      rewrite bind_get_now. send Hf. reflexivity. }
  do 3 eexists. cbn [fst]. split; [reflexivity|].
  split; [reflexivity|]. split; [reflexivity|]. repeat split.
Qed.

(** *** Counting by key *)

Section ByKey.
Context {A K : Type}.
Variable eqb : K -> K -> bool.
Hypothesis eqb_spec : forall a b, eqb a b = true <-> a = b.
Variable key : A -> K.

Lemma sum_indicator (k0 : K) (ks : list K) :
  NoDup ks ->
  sum_of (map (fun k => if eqb k0 k then 1 else 0) ks)
  = if existsb (eqb k0) ks then 1 else 0.
Proof.
  induction ks as [|k ks IH]; intros N; [reflexivity|].
  inversion N as [|? ? Nk N']; subst. cbn [map sum_of fold_right existsb].
  fold (sum_of (map (fun k => if eqb k0 k then 1 else 0) ks)).
  rewrite (IH N'). destruct (eqb k0 k) eqn:E; [|reflexivity].
  apply eqb_spec in E. subst k0.
  destruct (existsb (eqb k) ks) eqn:X; [|reflexivity].
  apply (existsb_eqb eqb eqb_spec) in X. contradiction.
Qed.

Lemma sum_of_counts (ks : list K) (l : list A) :
  NoDup ks ->
  sum_of (map (fun k => Sql.count (fun a => eqb (key a) k) l) ks)
  = Sql.count (fun a => existsb (eqb (key a)) ks) l.
Proof.
  intros N. induction l as [|a l IH].
  - unfold Sql.count. cbn [filter List.length].
    induction ks as [|k ks IHk]; [reflexivity|].
    inversion N; subst. cbn [map sum_of fold_right].
    fold (sum_of (map (fun _ : K => Z.of_nat 0) ks)). rewrite IHk by assumption.
    reflexivity.
  - rewrite count_cons, <- IH, <- (sum_indicator (key a) ks N).
    clear IH N. induction ks as [|k ks IHk]; [reflexivity|].
    cbn [map sum_of fold_right].
    fold (sum_of (map (fun k => Sql.count (fun a0 => eqb (key a0) k) (a :: l)) ks)).
    fold (sum_of (map (fun k => Sql.count (fun a0 => eqb (key a0) k) l) ks)).
    fold (sum_of (map (fun k => if eqb (key a) k then 1 else 0) ks)).
    rewrite IHk, count_cons. lia.
Qed.

Lemma sum_by_distinct (l : list A) :
  sum_of (map (fun k => Sql.count (fun a => eqb (key a) k) l)
            (Sql.distinct eqb [] (map key l)))
  = Z.of_nat (List.length l).
Proof.
  rewrite sum_of_counts by apply (NoDup_distinct eqb eqb_spec).
  unfold Sql.count. rewrite filter_all; [reflexivity|].
  intros a I. apply (existsb_eqb eqb eqb_spec).
  apply (in_distinct eqb eqb_spec). split; [apply in_map; exact I | intros []].
Qed.

Lemma count_positive (k : K) (l : list A) :
  In k (map key l) <-> 0 < Sql.count (fun a => eqb (key a) k) l.
Proof.
  induction l as [|a l IH]; [cbn; split; [tauto | lia]|].
  rewrite count_cons. cbn [map In]. rewrite IH.
  pose proof (count_nonneg (fun a0 => eqb (key a0) k) l) as P.
  destruct (eqb (key a) k) eqn:E.
  - apply eqb_spec in E. split; [lia | tauto].
  - split; [|intros H; right; lia].
    intros [C|H]; [|lia]. apply eqb_spec in C. congruence.
Qed.

End ByKey.

Lemma option_string_eqb_spec (a b : option string) :
  Sql.option_string_eqb a b = true <-> a = b.
Proof.
  destruct a as [x|], b as [y|]; cbn; try (split; congruence).
  rewrite String.eqb_eq. split; congruence.
Qed.

Lemma tuple4_eqb_spec (a b : Z * option string * option string * option string) :
  tuple4_eqb a b = true <-> a = b.
Proof.
  destruct a as [[[i u] e] t], b as [[[i' u'] e'] t']. unfold tuple4_eqb.
  rewrite !andb_true_iff, Z.eqb_eq, !option_string_eqb_spec.
  split; [intros [[[-> ->] ->] ->]; reflexivity | intros E; inversion E; auto].
Qed.

(** *** The subscriptions object *)

Lemma obj_set_fresh (k : string) (v : Z) (o : list (string * Z)) :
  ~ In k (map fst o) -> Controller.obj_set k v o = o ++ [(k, v)].
Proof.
  induction o as [|[k' v'] o IH]; intros N; [reflexivity|].
  cbn [Controller.obj_set app].
  destruct (String.eqb k k') eqn:E.
  - apply String.eqb_eq in E. exfalso. apply N. left. symmetry. exact E.
  - rewrite IH; [reflexivity|]. intros I. apply N. right. exact I.
Qed.

Lemma fold_obj_set (rows : list (option string * Z)) (acc : list (string * Z)) :
  NoDup (map (fun r => Controller.key_of (fst r)) rows) ->
  (forall r, In r rows -> ~ In (Controller.key_of (fst r)) (map fst acc)) ->
  fold_left (fun acc row => Controller.obj_set (Controller.key_of (fst row))
                              (snd row) acc) rows acc
  = acc ++ map (fun r => (Controller.key_of (fst r), snd r)) rows.
Proof.
  revert acc. induction rows as [|r rows IH]; intros acc N H.
  - cbn. rewrite app_nil_r. reflexivity.
  - inversion N as [|? ? Nr N']; subst. cbn [fold_left map].
    rewrite obj_set_fresh by (apply H; left; reflexivity).
    rewrite IH; [rewrite <- app_assoc; reflexivity | exact N' | ].
    intros r' I C. rewrite map_app, in_app_iff in C. destruct C as [C|C].
    + exact (H r' (or_intror I) C).
    + cbn in C. destruct C as [C|[]]. apply Nr. rewrite C.
      apply (in_map (fun r => Controller.key_of (fst r))). exact I.
Qed.

Lemma key_of_inj (a b : option string) :
  a <> Some "null" -> b <> Some "null" ->
  Controller.key_of a = Controller.key_of b -> a = b.
Proof.
  destruct a as [x|], b as [y|]; cbn; intros Na Nb E; congruence.
Qed.

Lemma NoDup_map_inj {A B : Type} (f : A -> B) (l : list A) :
  (forall a b, In a l -> In b l -> f a = f b -> a = b) ->
  NoDup l -> NoDup (map f l).
Proof.
  induction l as [|a l IH]; intros H N; [constructor|].
  inversion N as [|? ? Na N']; subst. cbn [map]. constructor.
  - intros I. apply in_map_iff in I. destruct I as (b & E & I).
    apply Na. rewrite (H a b); [exact I | left; reflexivity | right; exact I | ].
    symmetry. exact E.
  - apply IH; [|exact N']. intros x y Ix Iy. apply H; right; assumption.
Qed.

Lemma obj_get_map (t : option string) (c : option string -> Z)
  (D : list (option string)) :
  t <> Some "null" ->
  (forall x, In x D -> x <> Some "null") ->
  obj_get (Controller.key_of t) (map (fun x => (Controller.key_of x, c x)) D)
  = if existsb (Sql.option_string_eqb t) D then Some (c t) else None.
Proof.
  intros Nt H. induction D as [|x D IH]; [reflexivity|].
  cbn [map obj_get existsb].
  destruct (String.eqb (Controller.key_of t) (Controller.key_of x)) eqn:E.
  - apply String.eqb_eq in E.
    apply key_of_inj in E; [|exact Nt|apply H; left; reflexivity]. subst x.
    rewrite (proj2 (option_string_eqb_spec t t) eq_refl). reflexivity.
  - destruct (Sql.option_string_eqb t x) eqn:E'.
    + apply option_string_eqb_spec in E'. subst x.
      rewrite String.eqb_refl in E. discriminate.
    + cbn [orb]. apply IH. intros y I. apply H. right. exact I.
Qed.

(** X10. For an admin caller and a working store in which no user has
    the tier text ["null"] or ["__proto__"], the [subscriptions] object
    of the metrics report has one property for each tier that occurs
    among the users (the key [null] for users without a tier), its value
    the number of users of that tier; no property for any other such
    tier; and the values add up to [totalUsers], the number of user
    rows. *)
Theorem subscriptions_partition_the_users (userId : Z) (ip : string) (env : Env)
  (d : DB) :
  has_admin userId d ->
  healthy env ->
  (forall u, In u (users d) -> ordinary_tier (User.subscription_tier u)) ->
  exists m,
    fst (Controller.getDashboardMetrics userId ip env (fresh d))
    = inr (Controller.ok m)
    /\ (forall t, ordinary_tier t ->
          obj_get (Controller.key_of t) (Metrics.subscriptions m)
          = let c := Sql.count (fun u => Sql.option_string_eqb
                                           (User.subscription_tier u) t) (users d) in
            if 0 <? c then Some c else None)
    /\ sum_of (map snd (Metrics.subscriptions m))
       = Metrics.totalUsers (Metrics.overview m)
    /\ Metrics.totalUsers (Metrics.overview m) = Z.of_nat (List.length (users d)).
Proof.
  intros Hadmin Hh Hn.
  destruct (metrics_report userId ip env d Hadmin (fun n _ => Hh n))
    as (m & tiers & top & E & Ti & _ & _ & S & O).
  exists m. split; [exact E|]. rewrite S, O. cbn [Metrics.totalUsers].
  cbn [Controller.subscriptionTiersResult answer] in Ti. unfold reading in Ti.
  injection Ti as <-.
  set (D := Sql.distinct Sql.option_string_eqb []
              (map User.subscription_tier (users d))).
  set (c := fun t => Sql.count (fun u => Sql.option_string_eqb
                                           (User.subscription_tier u) t) (users d)).
  assert (ND : NoDup D) by apply (NoDup_distinct _ option_string_eqb_spec).
  assert (InD : forall x, In x D <-> In x (map User.subscription_tier (users d))).
  { intros x. unfold D. rewrite (in_distinct _ option_string_eqb_spec). tauto. }
  assert (HD : forall x, In x D -> x <> Some "null").
  { intros x I. apply InD, in_map_iff in I. destruct I as (u & <- & I).
    apply Hn. exact I. }
  rewrite fold_obj_set.
  2:{ rewrite map_map. cbn [fst]. apply NoDup_map_inj; [|exact ND].
      intros a b Ia Ib. apply key_of_inj; apply HD; assumption. }
  2:{ intros r _ []. }
  cbn [app]. rewrite !map_map. cbn [fst snd].
  split; [|split].
  - intros t [Nt _]. rewrite (obj_get_map t _ D Nt HD). cbv zeta. fold (c t).
    destruct (existsb (Sql.option_string_eqb t) D) eqn:X.
    + apply (existsb_eqb _ option_string_eqb_spec) in X. apply InD in X.
      apply (count_positive _ option_string_eqb_spec) in X. fold (c t) in X.
      rewrite (proj2 (Z.ltb_lt 0 (c t)) X). reflexivity.
    + destruct (0 <? c t) eqn:P; [|reflexivity].
      apply Z.ltb_lt in P. unfold c in P.
      apply (count_positive _ option_string_eqb_spec) in P. apply InD in P.
      apply (existsb_eqb _ option_string_eqb_spec) in P. congruence.
  - unfold D. rewrite (sum_by_distinct _ option_string_eqb_spec).
    unfold Sql.count. rewrite filter_all by reflexivity. reflexivity.
  - unfold Sql.count. rewrite filter_all by reflexivity. reflexivity.
Qed.

Lemma subscriptions_partition_the_users_witness :
  exists m,
    fst (Controller.getDashboardMetrics 1 "10.0.0.1" (Sample.clock no_faults)
           (fresh Sample.store))
    = inr (Controller.ok m)
    /\ obj_get "free" (Metrics.subscriptions m) = Some 1
    /\ obj_get "gold" (Metrics.subscriptions m) = None.
Proof.
  assert (A : has_admin 1 Sample.store).
  { exists Sample.root. split; reflexivity. }
  destruct (subscriptions_partition_the_users 1 "10.0.0.1" (Sample.clock no_faults)
              Sample.store A (fun _ => eq_refl)) as (m & E & G & _).
  { intros u [<-|[<-|[<-|[]]]]; split; discriminate. }
  exists m. split; [exact E|]. split.
  - exact (G (Some "free") ltac:(split; discriminate)).
  - exact (G (Some "gold") ltac:(split; discriminate)).
Defined.

(** *** The top users *)

Lemma NoDup_map_finer {A B C : Type} (f : A -> B) (g : A -> C) (l : list A) :
  (forall a b, g a = g b -> f a = f b) ->
  NoDup (map f l) -> NoDup (map g l).
Proof.
  intros H. induction l as [|a l IH]; intros N; [constructor|].
  inversion N as [|? ? Na N']; subst. cbn [map]. constructor; [|apply IH; exact N'].
  intros I. apply in_map_iff in I. destruct I as (b & E & I).
  apply Na. rewrite <- (H b a E). apply in_map. exact I.
Qed.

Lemma NoDup_firstn_map {A B : Type} (f : A -> B) (n : nat) (l : list A) :
  NoDup (map f l) -> NoDup (map f (firstn n l)).
Proof.
  revert l. induction n as [|n IH]; intros [|a l] N; cbn; try constructor.
  - inversion N as [|? ? Na N']; subst. intros I. apply Na.
    apply in_map_iff in I. destruct I as (b & E & I). rewrite <- E.
    apply in_map. eapply in_firstn. exact I.
  - inversion N; subst. apply IH. assumption.
Qed.

Lemma topUsers_rows (t : Z) (d : DB) :
  NoDup (map User.id (users d)) ->
  answer Controller.topUsersResult t d
  = inr (firstn 10
           (Sql.order_by_desc Metrics.listing_count
              (map (fun u => Metrics.mkTopUser (User.id u) (User.username u)
                               (User.email u) (User.subscription_tier u)
                               (owned_listings u d))
                   (users d))),
         d).
Proof.
  intros N. cbn [Controller.topUsersResult answer]. unfold reading. cbv zeta.
  do 4 f_equal. unfold Sql.left_join.
  apply (map_group_by_blocks tuple4_eqb tuple4_eqb_spec _
           (fun u => (User.id u, User.username u, User.email u,
                      User.subscription_tier u))).
  - intros u [u' ol] I. cbn [fst].
    destruct (filter (Controller.owns u) (listings d)).
    + destruct I as [E|[]]. inversion E. reflexivity.
    + apply in_map_iff in I. destruct I as (b & E & _). inversion E. reflexivity.
  - intros u. destruct (filter (Controller.owns u) (listings d)); discriminate.
  - revert N. apply NoDup_map_finer. intros a b E. inversion E. reflexivity.
  - intros u a g B. cbn [fst snd]. unfold owned_listings, Sql.count.
    destruct (filter (Controller.owns u) (listings d)) as [|l ms] eqn:F.
    + inversion B. subst. reflexivity.
    + rewrite <- B. rewrite (count_map_some (fun x => x)).
      cbn [map] in B. inversion B. reflexivity.
Qed.

(** X11. For an admin caller and a working store with unique user
    keys, [topUsers] of the metrics report lists at most ten users,
    none twice, in descending order of [listing_count]; each count is
    the number of listings the user owns, soft-deleted ones included;
    and a user who is not listed owns no more listings than any user
    who is. *)
Theorem top_users_are_the_top (userId : Z) (ip : string) (env : Env) (d : DB) :
  has_admin userId d ->
  healthy env ->
  NoDup (map User.id (users d)) ->
  exists m,
    fst (Controller.getDashboardMetrics userId ip env (fresh d))
    = inr (Controller.ok m)
    /\ List.length (Metrics.topUsers m) = Nat.min 10 (List.length (users d))
    /\ StronglySorted (fun a b => Metrics.listing_count b <= Metrics.listing_count a)
         (Metrics.topUsers m)
    /\ NoDup (map Metrics.id (Metrics.topUsers m))
    /\ (forall r, In r (Metrics.topUsers m) ->
          exists u, In u (users d)
                    /\ r = Metrics.mkTopUser (User.id u) (User.username u)
                             (User.email u) (User.subscription_tier u)
                             (Sql.count (Controller.owns u) (listings d)))
    /\ (forall u, In u (users d) ->
          ~ In (User.id u) (map Metrics.id (Metrics.topUsers m)) ->
          forall r, In r (Metrics.topUsers m) ->
            Sql.count (Controller.owns u) (listings d) <= Metrics.listing_count r).
Proof.
  intros Hadmin Hh N.
  destruct (metrics_report userId ip env d Hadmin (fun n _ => Hh n))
    as (m & tiers & top & E & _ & To & Tm & _).
  exists m. split; [exact E|].
  rewrite (topUsers_rows (now env) d N) in To.
  set (G := fun u => Metrics.mkTopUser (User.id u) (User.username u)
                       (User.email u) (User.subscription_tier u)
                       (owned_listings u d)) in To.
  set (all := Sql.order_by_desc Metrics.listing_count (map G (users d))) in To.
  assert (Et : Metrics.topUsers m = firstn 10 all) by congruence.
  rewrite Et. clear Et Tm To E.
  assert (P : Permutation all (map G (users d))) by apply order_by_desc_perm.
  assert (S : StronglySorted
                (fun a b => Metrics.listing_count b <= Metrics.listing_count a) all)
    by apply order_by_desc_sorted.
  split.
  { rewrite length_firstn. unfold all.
    rewrite length_order_by_desc, length_map. reflexivity. }
  split.
  { rewrite <- (firstn_skipn 10 all) in S.
    clear - S. induction (firstn 10 all) as [|a l IH]; [constructor|].
    cbn [app] in S. inversion S as [|? ? S' F]; subst.
    constructor; [apply IH; exact S'|].
    rewrite Forall_app in F. apply F. }
  split.
  { apply NoDup_firstn_map.
    apply (Permutation_NoDup (Permutation_map Metrics.id (Permutation_sym P))).
    rewrite map_map. exact N. }
  split.
  { intros r I. apply in_firstn in I.
    apply (Permutation_in _ P), in_map_iff in I.
    destruct I as (u & <- & I). exists u. split; [exact I | reflexivity]. }
  intros u I Out r Ir.
  assert (Iu : In (G u) all).
  { apply (Permutation_in _ (Permutation_sym P)), in_map. exact I. }
  rewrite <- (firstn_skipn 10 all), in_app_iff in Iu. destruct Iu as [Iu|Iu].
  - exfalso. apply Out. change (User.id u) with (Metrics.id (G u)).
    apply in_map. exact Iu.
  - exact (sorted_front _ 10 all S r (G u) Ir Iu).
Qed.

Lemma top_users_are_the_top_witness :
  exists m,
    fst (Controller.getDashboardMetrics 1 "10.0.0.1" (Sample.clock no_faults)
           (fresh Sample.store))
    = inr (Controller.ok m)
    /\ List.length (Metrics.topUsers m) = 3%nat.
Proof.
  assert (A : has_admin 1 Sample.store).
  { exists Sample.root. split; reflexivity. }
  assert (N : NoDup (map User.id (users Sample.store))).
  { repeat constructor; cbn; intuition discriminate. }
  destruct (top_users_are_the_top 1 "10.0.0.1" (Sample.clock no_faults)
              Sample.store A (fun _ => eq_refl) N) as (m & E & L & _).
  exists m. split; [exact E | exact L].
Defined.

(* ================================================================= *)
(** ** Rows per day *)

Lemma sum_of_perm (l l' : list Z) : Permutation l l' -> sum_of l = sum_of l'.
Proof.
  induction 1; cbn [sum_of fold_right] in *; unfold sum_of in *; lia.
Qed.

Lemma per_day_tallies (keep : Z -> bool) (stamps : list Z) :
  tallies keep stamps (Controller.per_day keep stamps).
Proof.
  unfold tallies, Controller.per_day. cbv zeta.
  set (recent := filter keep stamps).
  set (D := Sql.distinct Z.eqb [] (map DATE recent)).
  assert (ND : NoDup D) by apply (NoDup_distinct _ Z.eqb_eq).
  assert (C : forall dt, Sql.count (fun t => DATE t =? dt) recent
                         = Sql.count (fun t => keep t && (DATE t =? dt)) stamps).
  { intros dt. unfold recent. apply count_filter. }
  split; [|split].
  - rewrite map_map. cbn [fst]. rewrite map_id. exact ND.
  - intros dt c. rewrite in_map_iff. split.
    + intros (x & E & I). inversion E. subst x c. clear E.
      split; [|apply C].
      apply (count_positive Z.eqb Z.eqb_eq DATE).
      apply (in_distinct _ Z.eqb_eq) in I. apply I.
    + intros [P ->]. exists dt. rewrite C. split; [reflexivity|].
      apply (in_distinct _ Z.eqb_eq). split; [|intros []].
      apply (count_positive Z.eqb Z.eqb_eq DATE). rewrite C. exact P.
  - rewrite map_map. cbn [snd]. unfold D.
    rewrite (sum_by_distinct Z.eqb Z.eqb_eq DATE). reflexivity.
Qed.

Lemma tallies_perm (keep : Z -> bool) (stamps : list Z) (rows rows' : list (Z * Z)) :
  Permutation rows rows' -> tallies keep stamps rows -> tallies keep stamps rows'.
Proof.
  intros P (N & I & S). split; [|split].
  - exact (Permutation_NoDup (Permutation_map fst P) N).
  - intros dt c. rewrite <- I. split; apply Permutation_in;
      [apply Permutation_sym|]; exact P.
  - rewrite <- S. symmetry. apply sum_of_perm, Permutation_map. exact P.
Qed.


Lemma sorted_strict_asc {A : Type} (key : A -> Z) (l : list A) :
  NoDup (map key l) ->
  StronglySorted (fun a b => key a <= key b) l ->
  StronglySorted (fun a b => key a < key b) l.
Proof.
  induction l as [|a l IH]; intros N S; [constructor|].
  inversion N as [|? ? Na N']; inversion S as [|? ? S' F]; subst.
  constructor; [apply IH; assumption|].
  rewrite Forall_forall in *. intros b I.
  assert (key b <> key a).
  { intros E. apply Na. rewrite <- E. apply in_map. exact I. }
  specialize (F b I). cbv beta in F. lia.
Qed.


Lemma per_day_asc (keep : Z -> bool) (stamps : list Z) :
  let rows := Sql.order_by_asc fst (Controller.per_day keep stamps) in
  tallies keep stamps rows /\ StronglySorted (fun a b => fst a < fst b) rows.
Proof.
  cbv zeta.
  assert (T : tallies keep stamps
                (Sql.order_by_asc fst (Controller.per_day keep stamps))).
  { apply (tallies_perm _ _ (Controller.per_day keep stamps)).
    - apply Permutation_sym, order_by_asc_perm.
    - apply per_day_tallies. }
  split; [exact T|].
  apply sorted_strict_asc; [apply T | apply order_by_asc_sorted].
Qed.



(** X13. When its two statements succeed, the analytics endpoint
    returns, for the users and for the listings that are not
    soft-deleted, created no earlier than seven days before the
    request, one row for each calendar day on which one was created,
    with the number created that day, the earliest day first; the
    counts add up to the number of rows in the window; the store is
    left as it was. *)
Theorem analytics_are_daily_tallies (env : Env) (d : DB) :
  fault env 0%nat = None ->
  fault env 1%nat = None ->
  let r := Router.analytics env (fresh d) in
  let recent c := now env - 7 * day <=? c in
  exists u l,
    fst r = inr (Router.sent (Some (u, l)) None)
    /\ db (snd r) = d
    /\ tallies recent (map User.created_at (users d)) u
    /\ StronglySorted (fun a b => fst a < fst b) u
    /\ tallies recent (map Listing.created_at (filter Router.live (listings d))) l
    /\ StronglySorted (fun a b => fst a < fst b) l.
Proof.
  intros F0 F1. cbv zeta.
  assert (Hf : forall i, (i < 2)%nat -> fault env i = None).
  { intros [|[|i]] Hi; [exact F0 | exact F1 | lia]. }
  unfold Router.analytics.
  erewrite returned.
  2:{ do 2 send Hf. reflexivity. }
  do 2 eexists. split; [reflexivity|]. split; [reflexivity|].
  split; [apply per_day_asc|]. split; [apply per_day_asc|].
  split; apply per_day_asc.
Qed.

Lemma analytics_are_daily_tallies_witness :
  exists u l,
    fst (Router.analytics (Sample.clock no_faults) (fresh Sample.store))
    = inr (Router.sent (Some (u, l)) None)
    /\ sum_of (map snd u) = 3
    /\ sum_of (map snd l) = 2.
Proof.
  destruct (analytics_are_daily_tallies (Sample.clock no_faults) Sample.store
              eq_refl eq_refl) as (u & l & E & _ & (_ & _ & U) & _ & (_ & _ & L) & _).
  exists u, l. split; [exact E|]. split; [exact U | exact L].
Defined.

(* ================================================================= *)
(** ** The router's reads *)

Lemma sum_points (l : list User.row) (acc : option Z) :
  match fold_left (fun acc u =>
                     match User.points u, acc with
                     | Some p, Some a => Some (a + p)
                     | Some p, None => Some p
                     | None, _ => acc
                     end) l acc with
  | Some n => n
  | None => 0
  end
  = match acc with Some a => a | None => 0 end + sum_of (map points_or_zero l).
Proof.
  revert acc. induction l as [|u l IH]; intros acc.
  - cbn. destruct acc; lia.
  - cbn [fold_left map sum_of fold_right]. rewrite IH.
    fold (sum_of (map points_or_zero l)). unfold points_or_zero at 2.
    destruct (User.points u), acc; lia.
Qed.

(** X14. When its four statements succeed, the dashboard reports the
    number of user rows as [totalUsers], the number of listings that
    are not soft-deleted as [totalListings], and as [totalPoints] the
    sum of the users' points with NULL read as 0 (so 0, not NaN, for an
    empty table), for a sum that a number holds exactly; with no user
    at all the average is 0 and no division takes place. *)
Theorem dashboard_totals (env : Env) (d : DB) :
  (forall n, (n < 4)%nat -> fault env n = None) ->
  safe (sum_of (map points_or_zero (users d))) ->
  exists b,
    fst (Router.dashboard env (fresh d)) = inr (Router.sent (Some b) None)
    /\ Router.totalUsers b = Z.of_nat (List.length (users d))
    /\ Router.totalListings b = Z.of_nat (List.length (filter Router.live (listings d)))
    /\ Router.totalPoints b = sum_of (map points_or_zero (users d))
    /\ (users d = [] -> Router.avgListingsPerUser b = 0%float)
    /\ (users d <> [] ->
        Router.avgListingsPerUser b
        = (Js.of_count (Router.totalListings b)
           / Js.of_count (Router.totalUsers b))%float).
Proof.
  intros Hf _. unfold Router.dashboard, try_catch.
  do 3 send Hf.
  destruct (fold_left Router.tally _ _) as [[a dr] p].
  send Hf. eexists. split; [reflexivity|].
  cbn [Router.totalUsers Router.totalListings Router.totalPoints
       Router.avgListingsPerUser].
  assert (U : Sql.count (fun _ => true) (users d) = Z.of_nat (List.length (users d))).
  { unfold Sql.count. rewrite filter_all by reflexivity. reflexivity. }
  rewrite U. split; [reflexivity|]. split; [reflexivity|]. split.
  { rewrite (sum_points (users d) None). lia. }
  split.
  - intros ->. reflexivity.
  - intros N. destruct (users d) as [|u l]; [congruence|].
    cbn [List.length]. rewrite (proj2 (Z.ltb_lt 0 _)) by lia. reflexivity.
Qed.

Lemma dashboard_totals_witness :
  exists b,
    fst (Router.dashboard (Sample.clock no_faults) (fresh Sample.store))
    = inr (Router.sent (Some b) None)
    /\ Router.totalPoints b = 35.
Proof.
  destruct (dashboard_totals (Sample.clock no_faults) Sample.store
              (fun _ _ => eq_refl) (conj eq_refl eq_refl))
    as (b & E & _ & _ & P & _).
  exists b. split; [exact E | exact P].
Defined.

Lemma getUser_run (id : Z) (env : Env) (d : DB) :
  fault env 0%nat = None ->
  fst (Router.getUser id env (fresh d))
  = inr (match user_by_id id d with
         | None => Router.not_found "User not found"
         | Some u => Router.sent (Some u) None
         end).
Proof.
  intros F. unfold Router.getUser, try_catch. send F.
  unfold user_by_id. rewrite filter_head_find.
  destruct (filter _ (users d)); reflexivity.
Qed.

Lemma getUsers_run (env : Env) (d : DB) :
  fault env 0%nat = None ->
  let rows := Sql.order_by_desc User.created_at (users d) in
  fst (Router.getUsers env (fresh d))
  = inr (Router.sent (Some (rows, Z.of_nat (List.length rows))) None).
Proof.
  intros F. cbv zeta. unfold Router.getUsers, try_catch. send F. reflexivity.
Qed.

Lemma find_after_update (id id' : Z) (b : Router.Body) (t : Z) (l : list User.row) :
  find (fun u => User.id u =? id') (users_after_update id b t l)
  = if id' =? id
    then option_map (Router.assign b t) (find (fun u => User.id u =? id) l)
    else find (fun u => User.id u =? id') l.
Proof.
  unfold users_after_update.
  induction l as [|u l IH]; cbn [map find option_map]; [destruct (id' =? id); reflexivity|].
  rewrite IH. clear IH.
  destruct (User.id u =? id) eqn:E.
  - apply Z.eqb_eq in E. cbn [Router.assign User.id]. rewrite E.
    destruct (id' =? id) eqn:E'.
    + apply Z.eqb_eq in E'. subst id'. rewrite Z.eqb_refl. reflexivity.
    + rewrite Z.eqb_sym, E'. reflexivity.
  - destruct (id' =? id) eqn:E'.
    + apply Z.eqb_eq in E'. subst id'. rewrite E. reflexivity.
    + reflexivity.
Qed.

(** X15. After a successful [PUT /users/:id], [GET /users/:id] returns
    the row with the five columns of the body, [updated_at] at the time
    of the update and the key, the level and the creation time it had;
    and [GET] of any other key returns what it returned before. *)
Theorem update_then_read (id : Z) (b : Router.Body) (env env' : Env) (d : DB)
  (u : User.row) :
  fault env 0%nat = None ->
  fault env' 0%nat = None ->
  user_by_id id d = Some u ->
  let d' := db (snd (Router.putUser id b env (fresh d))) in
  fst (Router.getUser id env' (fresh d'))
  = inr (Router.sent
           (Some (User.mk id (Router.username b) (Router.email b)
                    (Router.subscription_tier b) (Router.points b)
                    (User.current_level u) (Router.is_admin b)
                    (User.created_at u) (now env)))
           None)
  /\ forall id', id' <> id ->
       fst (Router.getUser id' env' (fresh d'))
       = fst (Router.getUser id' env' (fresh d)).
Proof.
  intros F F' Hu. cbv zeta. rewrite (putUser_run id b env d F). cbn [snd db].
  split.
  - rewrite (getUser_run id env' _ F'). unfold user_by_id in *.
    cbn [set_users users]. rewrite find_after_update, Z.eqb_refl, Hu.
    cbn [option_map]. unfold Router.assign.
    apply find_some in Hu. destruct Hu as [_ E]. apply Z.eqb_eq in E.
    rewrite E. reflexivity.
  - intros id' N. rewrite !(getUser_run id' env' _ F'). unfold user_by_id.
    cbn [set_users users]. rewrite find_after_update.
    rewrite (proj2 (Z.eqb_neq id' id) N). reflexivity.
Qed.

Lemma update_then_read_witness :
  fst (Router.getUser 2 (Sample.clock no_faults)
         (fresh (db (snd (Router.putUser 2 Sample.only_username
                            (Sample.clock no_faults) (fresh Sample.store))))))
  = inr (Router.sent
           (Some (User.mk 2 (Some "alicia") None None None 1 None 2000 5000)) None).
Proof.
  exact (proj1 (update_then_read 2 Sample.only_username (Sample.clock no_faults)
                  (Sample.clock no_faults) Sample.store Sample.alice
                  eq_refl eq_refl eq_refl)).
Defined.

(** X16. After [DELETE /users/:id] has run both statements, the key is
    gone for the other routes: [GET /users/:id] and a second [DELETE]
    answer NotFound, [GET /users] lists no row with the key and
    [GET /listings] no listing owned by it. *)
Theorem deleted_user_is_gone (id : Z) (env env' : Env) (d : DB) :
  fault env 0%nat = None ->
  fault env 1%nat = None ->
  fault env' 0%nat = None ->
  fault env' 1%nat = None ->
  let d' := db (snd (Router.deleteUser id env (fresh d))) in
  fst (Router.getUser id env' (fresh d')) = inr (Router.not_found "User not found")
  /\ fst (Router.deleteUser id env' (fresh d'))
     = inr (Router.not_found "User not found")
  /\ (exists rows,
        fst (Router.getUsers env' (fresh d'))
        = inr (Router.sent (Some (rows, Z.of_nat (List.length rows))) None)
        /\ ~ In id (map User.id rows))
  /\ (exists rows,
        fst (Router.getListings env' (fresh d'))
        = inr (Router.sent (Some (rows, Z.of_nat (List.length rows))) None)
        /\ forall l, In l rows -> Listing.user_id l <> id).
Proof.
  intros F0 F1 F0' F1'. cbv zeta.
  rewrite (deleteUser_run id env d F0 F1). cbn [snd db].
  set (d1 := set_listings (listings_after_user_delete id (now env)) d).
  assert (Gone : filter (fun u => User.id u =? id) (users (set_users (users_without id) d1))
                 = []).
  { cbn [set_users users]. unfold users_without. apply filter_nothing.
    intros u I. apply filter_In in I. destruct I as [_ N].
    apply negb_true_iff in N. exact N. }
  split; [|split; [|split]].
  - rewrite (getUser_run id env' _ F0'). unfold user_by_id.
    rewrite filter_head_find, Gone. reflexivity.
  - rewrite (deleteUser_run id env' _ F0' F1'). cbn [fst].
    change (users (set_listings (listings_after_user_delete id (now env'))
                     (set_users (users_without id) d1)))
      with (users (set_users (users_without id) d1)).
    rewrite Gone. reflexivity.
  - eexists. split; [apply (getUsers_run env' _ F0')|].
    intros I. apply in_map_iff in I. destruct I as (u & E & I).
    apply in_order_by_desc in I.
    assert (Iu : In u (filter (fun u => User.id u =? id)
                         (users (set_users (users_without id) d1)))).
    { apply filter_In. split; [exact I | apply Z.eqb_eq; exact E]. }
    rewrite Gone in Iu. exact Iu.
  - eexists. split; [apply (getListings_run env' _ F0')|].
    intros l I E. apply in_order_by_desc in I. apply filter_In in I.
    destruct I as [I L]. cbn [set_users set_listings listings d1] in I.
    unfold listings_after_user_delete in I. apply in_map_iff in I.
    destruct I as (l0 & E0 & _).
    destruct (Listing.user_id l0 =? id) eqn:H0; subst l.
    + discriminate L.
    + apply Z.eqb_neq in H0. contradiction.
Qed.

Lemma deleted_user_is_gone_witness :
  fst (Router.getUser 2 (Sample.clock no_faults)
         (fresh (db (snd (Router.deleteUser 2 (Sample.clock no_faults)
                            (fresh Sample.store))))))
  = inr (Router.not_found "User not found").
Proof.
  exact (proj1 (deleted_user_is_gone 2 (Sample.clock no_faults)
                  (Sample.clock no_faults) Sample.store
                  eq_refl eq_refl eq_refl eq_refl)).
Defined.

(** X17. When their statement succeeds, [GET /users] returns every
    user row exactly once and [GET /listings] every listing that is not
    soft-deleted exactly once, the most recently created first, and
    [total] is the number of rows returned. *)
Theorem lists_are_complete_and_ordered (env : Env) (d : DB) :
  fault env 0%nat = None ->
  (exists rows,
     fst (Router.getUsers env (fresh d))
     = inr (Router.sent (Some (rows, Z.of_nat (List.length (users d)))) None)
     /\ Permutation rows (users d)
     /\ StronglySorted (fun a b => User.created_at b <= User.created_at a) rows)
  /\ (exists rows,
        fst (Router.getListings env (fresh d))
        = inr (Router.sent
                 (Some (rows, Z.of_nat (List.length (filter Router.live (listings d)))))
                 None)
        /\ Permutation rows (filter Router.live (listings d))
        /\ StronglySorted
             (fun a b => Listing.created_at b <= Listing.created_at a) rows).
Proof.
  intros F. split.
  - eexists. rewrite (getUsers_run env d F). rewrite length_order_by_desc.
    split; [reflexivity|].
    split; [apply order_by_desc_perm | apply order_by_desc_sorted].
  - eexists. rewrite (getListings_run env d F). rewrite length_order_by_desc.
    split; [reflexivity|].
    split; [apply order_by_desc_perm | apply order_by_desc_sorted].
Qed.

Lemma lists_are_complete_and_ordered_witness :
  exists rows,
    fst (Router.getUsers (Sample.clock no_faults) (fresh Sample.store))
    = inr (Router.sent (Some (rows, 3)) None).
Proof.
  destruct (proj1 (lists_are_complete_and_ordered (Sample.clock no_faults)
                     Sample.store eq_refl)) as (rows & E & _).
  exists rows. exact E.
Defined.

(* ================================================================= *)
(** ** System health *)

Ltac walk_exact :=
  repeat (cbv beta;
    lazymatch goal with
    | |- ensures (try_catch _ _) _ _ _ _ => apply ensures_try_catch
    | |- ensures (bind (pool_query _) _) _ _ _ _ =>
        apply ensures_query; [intros ? ? ? | intros ? ? ? ? ?]
    | |- ensures (bind (logger_error _) _) _ _ _ _ =>
        apply ensures_logger; intros ? ?
    | |- ensures (bind get_now _) _ _ _ _ => apply ensures_now
    | |- ensures (bind get_uptime _) _ _ _ _ => apply ensures_uptime
    | |- ensures (ret _) _ _ _ _ => apply ensures_ret
    end).

Lemma count_all {A : Type} (l : list A) :
  Sql.count (fun _ => true) l = Z.of_nat (List.length l).
Proof. unfold Sql.count. rewrite filter_all by reflexivity. reflexivity. Qed.

Lemma system_ensures env w :
  ensures Router.system env w
    (fun a w' =>
       db w' = db w
       /\ ((exists e, a = Router.failed "Failed to fetch system health" e)
           \/ a = Router.sent
                    (Some (Router.mkHealth "healthy" true
                             (Z.of_nat (List.length (users (db w))),
                              Z.of_nat (List.length
                                          (filter Router.live (listings (db w)))),
                              Z.of_nat (List.length (marketplace_accounts (db w))))
                             (Js.string_of_Z (uptime env / 3600) ++ "h "
                              ++ Js.string_of_Z (uptime env mod 3600 / 60) ++ "m")))
                    None))
    (fun _ _ => False).
Proof.
  unfold Router.system. walk_exact.
  all: repeat match goal with
       | An : answer Router.dbCheck _ _ = inr _ |- _ =>
           cbn in An; unfold reading in An; injection An as <- <-
       | An : answer Router.tablesResult _ _ = inr _ |- _ =>
           cbn in An; unfold reading in An; injection An as <- <-
       end.
  all: split; [congruence|].
  1, 2: left; eexists; reflexivity.
  right.
  repeat match goal with H : db _ = db _ |- _ => rewrite H in * end.
  rewrite !count_all. reflexivity.
Qed.

(** X18. [GET /system] never reports a database that is down.
    Whatever fails, it leaves the store as it was and either answers
    500, or answers 200 with status ["healthy"], [connected] true, the
    number of user rows, of listings that are not soft-deleted and of
    marketplace accounts, and the uptime as whole hours and the whole
    minutes (below 60) of the remaining part. *)
Theorem system_health_is_all_or_nothing (env : Env) (w : World) :
  0 <= uptime env ->
  exists a,
    fst (Router.system env w) = inr a
    /\ db (snd (Router.system env w)) = db w
    /\ ((exists e, a = Router.failed "Failed to fetch system health" e)
        \/ exists h m,
             0 <= h /\ 0 <= m < 60
             /\ 3600 * h + 60 * m <= uptime env < 3600 * h + 60 * m + 60
             /\ a = Router.sent
                      (Some (Router.mkHealth "healthy" true
                               (Z.of_nat (List.length (users (db w))),
                                Z.of_nat (List.length
                                            (filter Router.live (listings (db w)))),
                                Z.of_nat (List.length (marketplace_accounts (db w))))
                               (Js.string_of_Z h ++ "h " ++ Js.string_of_Z m ++ "m")))
                      None).
Proof.
  intros U.
  destruct (ensures_returns _ _ _ _ (system_ensures env w)) as (a & E & D & H).
  exists a. split; [exact E|]. split; [exact D|].
  destruct H as [H|H]; [left; exact H|]. right.
  exists (uptime env / 3600), (uptime env mod 3600 / 60).
  pose proof (Z.div_mod (uptime env) 3600 ltac:(lia)) as E1.
  pose proof (Z.mod_pos_bound (uptime env) 3600 ltac:(lia)) as B1.
  pose proof (Z.div_mod (uptime env mod 3600) 60 ltac:(lia)) as E2.
  pose proof (Z.mod_pos_bound (uptime env mod 3600) 60 ltac:(lia)) as B2.
  assert (0 <= uptime env / 3600) by (apply Z.div_pos; lia).
  assert (0 <= uptime env mod 3600 / 60 < 60).
  { split; [apply Z.div_pos; lia | apply Z.div_lt_upper_bound; lia]. }
  repeat split; try lia. exact H.
Qed.

Lemma system_health_is_all_or_nothing_witness :
  exists a,
    fst (Router.system (Sample.clock (fun _ => Some "connection refused"))
           (fresh Sample.store)) = inr a
    /\ db (snd (Router.system (Sample.clock (fun _ => Some "connection refused"))
                  (fresh Sample.store))) = Sample.store.
Proof.
  destruct (system_health_is_all_or_nothing
              (Sample.clock (fun _ => Some "connection refused"))
              (fresh Sample.store) ltac:(cbn; lia)) as (a & E & D & _).
  exists a. split; [exact E | exact D].
Defined.

(* ================================================================= *)
(** ** The activity log *)

Lemma order_by_desc_level {A : Type} (key : A -> Z) (k : Z) (xs : list A) :
  (forall x, In x xs -> key x = k) -> Sql.order_by_desc key xs = xs.
Proof.
  induction xs as [|x xs IH]; intros H; [reflexivity|].
  cbn [Sql.order_by_desc fold_right]. fold (Sql.order_by_desc key xs).
  rewrite IH by (intros y I; apply H; right; exact I).
  destruct xs as [|y xs]; [reflexivity|]. cbn [Sql.insert_desc].
  rewrite (H x), (H y); [ | right; left; reflexivity | left; reflexivity ].
  rewrite Z.leb_refl. reflexivity.
Qed.

Lemma insert_desc_below {A : Type} (key : A -> Z) (a : A) (xs r : list A) :
  (forall x, In x xs -> key a < key x) ->
  Sql.insert_desc key a (xs ++ r) = xs ++ Sql.insert_desc key a r.
Proof.
  induction xs as [|x xs IH]; intros H; [reflexivity|].
  cbn [app Sql.insert_desc].
  rewrite (proj2 (Z.leb_gt (key x) (key a))) by (apply H; left; reflexivity).
  rewrite IH by (intros y I; apply H; right; exact I). reflexivity.
Qed.

Lemma order_by_desc_top {A : Type} (key : A -> Z) (k : Z) (l xs : list A) :
  (forall a, In a l -> key a < k) ->
  (forall x, In x xs -> key x = k) ->
  Sql.order_by_desc key (l ++ xs) = xs ++ Sql.order_by_desc key l.
Proof.
  intros Hl Hx. induction l as [|a l IH].
  - cbn [app]. rewrite (order_by_desc_level key k xs Hx), app_nil_r. reflexivity.
  - cbn [app Sql.order_by_desc fold_right].
    fold (Sql.order_by_desc key (l ++ xs)). fold (Sql.order_by_desc key l).
    rewrite IH by (intros b I; apply Hl; right; exact I).
    apply insert_desc_below. intros x I. rewrite (Hx x I).
    apply Hl. left. reflexivity.
Qed.

Lemma getAdminActivity_run (userId : Z) (limit : option string) (env : Env)
  (d : DB) (n : Z) :
  has_admin userId d ->
  fault env 0%nat = None -> fault env 1%nat = None ->
  Controller.parseInt_or 50 limit = Some n -> 0 <= n ->
  fst (Controller.getAdminActivity userId limit env (fresh d))
  = inr (Controller.ok
           (firstn (Z.to_nat n)
              (Sql.order_by_desc
                 (fun r => Activity.created_at (Controller.entry r))
                 (map (fun r : Activity.row * User.row =>
                         Controller.mkActivityEntry (fst r)
                           (User.username (snd r)) (User.email (snd r)))
                      (Sql.inner_join
                         (fun a u => Activity.admin_id a =? User.id u)
                         (admin_activity_log d) (users d)))))).
Proof.
  intros Hadmin F0 F1 P N.
  assert (Hf : forall i, (i < 2)%nat -> fault env i = None).
  { intros [|[|i]] Hi; [exact F0 | exact F1 | lia]. }
  unfold Controller.getAdminActivity. rewrite P.
  erewrite returned.
  2:{ send Hf. rewrite (has_admin_check _ _ Hadmin). cbn [negb].
      erewrite query_ok; [ | apply Hf; cbn; lia | ].
      2:{ cbn [Controller.activityResult answer Controller.row_count].
          rewrite (proj2 (Z.ltb_ge n 0) N). reflexivity. }
      tidy. reflexivity. }
  reflexivity.
Qed.

(** X19. A metrics view shows up at the head of the activity log.
    After a successful metrics request of an admin at a time later than
    every entry of the log, the activity listing (with a limit of at
    least 1) begins with the entry of that request: the caller as
    admin, the action [view_dashboard], the caller's network address,
    the time of the request, and the caller's name and email. *)
Theorem metrics_view_is_logged (userId : Z) (ip : string) (limit : option string)
  (env env' : Env) (d : DB) (u : User.row) (n : Z) :
  user_by_id userId d = Some u ->
  User.is_admin u = Some true ->
  healthy env ->
  healthy env' ->
  (forall a, In a (admin_activity_log d) -> Activity.created_at a < now env) ->
  Controller.parseInt_or 50 limit = Some n ->
  0 < n < 2 ^ 53 ->
  let d' := db (snd (Controller.getDashboardMetrics userId ip env (fresh d))) in
  exists x rest,
    fst (Controller.getAdminActivity userId limit env' (fresh d'))
    = inr (Controller.ok (x :: rest))
    /\ Activity.admin_id (Controller.entry x) = userId
    /\ Activity.action (Controller.entry x) = "view_dashboard"
    /\ Activity.ip_address (Controller.entry x) = ip
    /\ Activity.created_at (Controller.entry x) = now env
    /\ Controller.entry_username x = User.username u
    /\ Controller.entry_email x = User.email u.
Proof.
  intros Hu Ha Hh Hh' Old P [N _]. cbv zeta.
  assert (Hadmin : has_admin userId d) by (exists u; split; assumption).
  destruct (metrics_succeeds userId ip env d Hadmin (fun i _ => Hh i))
    as (m & _ & _ & _ & _ & ->).
  set (row := audit_row userId ip (now env) d).
  set (d' := set_admin_activity_log (fun l => l ++ [row]) d).
  assert (Hadmin' : has_admin userId d') by exact Hadmin.
  rewrite (getAdminActivity_run userId limit env' d' n Hadmin' (Hh' _) (Hh' _) P)
    by lia.
  cbn [d' set_admin_activity_log admin_activity_log users].
  unfold Sql.inner_join. rewrite flat_map_app, map_app.
  cbn [flat_map]. rewrite app_nil_r.
  assert (Fu : exists more,
            filter (fun u0 => Activity.admin_id row =? User.id u0) (users d)
            = u :: more).
  { unfold user_by_id in Hu. rewrite filter_head_find in Hu.
    assert (Ef : filter (fun u0 => Activity.admin_id row =? User.id u0) (users d)
                 = filter (fun u0 => User.id u0 =? userId) (users d)).
    { apply filter_ext. intros x. apply Z.eqb_sym. }
    rewrite Ef. destruct (filter _ (users d)) as [|x more]; [discriminate|].
    injection Hu as ->. exists more. reflexivity. }
  destruct Fu as (more & ->).
  rewrite (order_by_desc_top _ (now env)).
  - cbn [map app fst snd]. destruct (Z.to_nat n) as [|k] eqn:En; [lia|].
    cbn [firstn]. do 2 eexists. split; [reflexivity|]. repeat split.
  - intros a I. apply in_map_iff in I. destruct I as ([a0 u0] & <- & I).
    cbn [Controller.entry fst]. apply Old.
    apply in_flat_map in I. destruct I as (a1 & I1 & I).
    apply in_map_iff in I. destruct I as (u1 & E & _). inversion E. subst.
    exact I1.
  - intros x I. apply in_map_iff in I. destruct I as ([a0 u0] & <- & I).
    apply in_map_iff in I. destruct I as (u1 & E & _). inversion E. reflexivity.
Qed.

Lemma metrics_view_is_logged_witness :
  exists x rest,
    fst (Controller.getAdminActivity 1 None (Sample.clock no_faults)
           (fresh (db (snd (Controller.getDashboardMetrics 1 "10.0.0.1"
                              (Sample.clock no_faults) (fresh Sample.store))))))
    = inr (Controller.ok (x :: rest))
    /\ Controller.entry_username x = Some "root".
Proof.
  destruct (metrics_view_is_logged 1 "10.0.0.1" None (Sample.clock no_faults)
              (Sample.clock no_faults) Sample.store Sample.root 50
              eq_refl eq_refl (fun _ => eq_refl) (fun _ => eq_refl)
              (fun a (I : In a []) => match I with end) eq_refl
              (conj eq_refl eq_refl))
    as (x & rest & E & _ & _ & _ & _ & U & _).
  exists x, rest. split; [exact E | exact U].
Defined.

(* ================================================================= *)
(** ** What a failure tells the client *)

Ltac fixed_text :=
  split; [cbn; repeat (first [left; reflexivity | right]) | reflexivity].

Lemma metrics_error_text userId ip env w :
  ensures (Controller.getDashboardMetrics userId ip) env w
    (fun a _ => In (Res.error a) controller_errors /\ Res.message a = None)
    (fun _ _ => False).
Proof. unfold Controller.getDashboardMetrics. walk_any; fixed_text. Qed.

Lemma getUsers_error_text userId page limit search tier env w :
  ensures (Controller.getUsers userId page limit search tier) env w
    (fun a _ => In (Res.error a) controller_errors /\ Res.message a = None)
    (fun _ _ => False).
Proof. unfold Controller.getUsers. cbv zeta. walk; fixed_text. Qed.

Lemma getSystemStats_error_text userId days env w :
  ensures (Controller.getSystemStats userId days) env w
    (fun a _ => In (Res.error a) controller_errors /\ Res.message a = None)
    (fun _ _ => False).
Proof. unfold Controller.getSystemStats. walk; fixed_text. Qed.

Lemma getAdminActivity_error_text userId limit env w :
  ensures (Controller.getAdminActivity userId limit) env w
    (fun a _ => In (Res.error a) controller_errors /\ Res.message a = None)
    (fun _ _ => False).
Proof. unfold Controller.getAdminActivity. walk; fixed_text. Qed.

Ltac first_fails F :=
  unfold Router.dashboard, Router.getUsers, Router.getUser, Router.putUser,
    Router.deleteUser, Router.getListings, Router.deleteListing, Router.system,
    Router.analytics;
  erewrite caught; [reflexivity|];
  erewrite query_fault; [reflexivity | exact F].

(** X20. The router sends the text of the store's error to the client
    and the controller does not.  When the first statement of a router
    handler fails with message [msg], the 500 envelope carries [msg] in
    its [error] field; the four controller handlers, whatever fails and
    with whatever message, answer with one of seven fixed [error] texts
    (or none) and no [message]. *)
Theorem store_errors_reach_router_clients_only (msg : string) (id : Z)
  (b : Router.Body) (env : Env) (d : DB) :
  fault env 0%nat = Some msg ->
  (fst (Router.dashboard env (fresh d))
   = inr (Router.failed "Failed to fetch dashboard stats" msg)
   /\ fst (Router.getUsers env (fresh d))
      = inr (Router.failed "Failed to fetch users" msg)
   /\ fst (Router.getUser id env (fresh d))
      = inr (Router.failed "Failed to fetch user" msg)
   /\ fst (Router.putUser id b env (fresh d))
      = inr (Router.failed "Failed to update user" msg)
   /\ fst (Router.deleteUser id env (fresh d))
      = inr (Router.failed "Failed to delete user" msg)
   /\ fst (Router.getListings env (fresh d))
      = inr (Router.failed "Failed to fetch listings" msg)
   /\ fst (Router.deleteListing id env (fresh d))
      = inr (Router.failed "Failed to delete listing" msg)
   /\ fst (Router.system env (fresh d))
      = inr (Router.failed "Failed to fetch system health" msg)
   /\ fst (Router.analytics env (fresh d))
      = inr (Router.failed "Failed to fetch analytics" msg))
  /\ (forall userId ip page limit search tier days (env' : Env) (w : World),
        (exists a, fst (Controller.getDashboardMetrics userId ip env' w) = inr a
                   /\ In (Res.error a) controller_errors /\ Res.message a = None)
        /\ (exists a, fst (Controller.getUsers userId page limit search tier env' w)
                      = inr a
                      /\ In (Res.error a) controller_errors /\ Res.message a = None)
        /\ (exists a, fst (Controller.getSystemStats userId days env' w) = inr a
                      /\ In (Res.error a) controller_errors /\ Res.message a = None)
        /\ (exists a, fst (Controller.getAdminActivity userId limit env' w) = inr a
                      /\ In (Res.error a) controller_errors
                      /\ Res.message a = None)).
Proof.
  intros F. split.
  - repeat split; first_fails F.
  - intros userId ip page limit search tier days env' w.
    split; [|split; [|split]].
    + exact (ensures_returns _ _ _ _ (metrics_error_text userId ip env' w)).
    + exact (ensures_returns _ _ _ _
               (getUsers_error_text userId page limit search tier env' w)).
    + exact (ensures_returns _ _ _ _ (getSystemStats_error_text userId days env' w)).
    + exact (ensures_returns _ _ _ _
               (getAdminActivity_error_text userId limit env' w)).
Qed.

Lemma store_errors_reach_router_clients_only_witness :
  fst (Router.getUsers
         (Sample.clock (fun _ => Some "password authentication failed"))
         (fresh Sample.store))
  = inr (Router.failed "Failed to fetch users" "password authentication failed").
Proof.
  exact (proj1 (proj2 (proj1
    (store_errors_reach_router_clients_only "password authentication failed" 0
       Sample.only_username
       (Sample.clock (fun _ => Some "password authentication failed"))
       Sample.store eq_refl)))).
Defined.

(* ================================================================= *)
(** ** The two counts of the users listing, in general *)

Lemma users_page_run (userId : Z) (page limit search tier : option string)
  (env : Env) (d : DB) (p n : Z) :
  has_admin userId d ->
  healthy env ->
  Controller.parseInt_or 1 page = Some p ->
  Controller.parseInt_or 50 limit = Some n ->
  0 <= n -> 0 <= (p - 1) * n ->
  exists rows pagination,
    fst (Controller.getUsers userId page limit search tier env (fresh d))
    = inr (Controller.ok (Controller.mkUsersPage rows pagination))
    /\ answer (Controller.usersQuery (Controller.text_or_empty search)
                 (Controller.text_or_empty tier) (Some n) (Some ((p - 1) * n)))
         (now env) d
       = inr (rows, d).
Proof.
  intros Hadmin Hh Hp Hn Pn Pk.
  assert (Hf : forall i, (i < 3)%nat -> fault env i = None) by (intros; apply Hh).
  destruct (usersQuery_shape (Controller.text_or_empty search)
              (Controller.text_or_empty tier) (Some n) (Some ((p - 1) * n)))
    as (ps & cs & li & oi & A & L & O & _).
  assert (An : exists rows,
            answer (Controller.usersQuery (Controller.text_or_empty search)
                      (Controller.text_or_empty tier) (Some n) (Some ((p - 1) * n)))
              (now env) d = inr (rows, d)).
  { rewrite A. unfold Controller.users_answer. rewrite L, O.
    unfold Controller.row_count.
    rewrite (proj2 (Z.ltb_ge n 0) Pn), (proj2 (Z.ltb_ge ((p - 1) * n) 0) Pk).
    eexists. reflexivity. }
  destruct An as (rows & An). exists rows.
  unfold Controller.getUsers. cbv zeta. rewrite Hp, Hn. cbn [Js.sub Js.mul].
  erewrite returned.
  2:{ send Hf. rewrite (has_admin_check _ _ Hadmin). cbn [negb].
      erewrite query_ok; [ | apply Hf; cbn; lia | exact An ]. tidy.
      erewrite query_ok; [ | apply Hf; cbn; lia | apply countQuery_counts ]. tidy.
      reflexivity. }
  eexists. split; [reflexivity | exact An].
Qed.

(** X21. In every row of the users listing, for any filter and any
    page and limit that are held exactly and that the store accepts,
    [listing_count] is the number of listings the
    user owns times the number of the user's active marketplace
    accounts (times 1 when there is none), and [connected_accounts] is
    the number of those accounts times the number of listings (times 1
    when there is none).  So [listing_count] is the number of listings
    for users with at most one active account, and [connected_accounts]
    the number of accounts for users with at most one listing. *)
Theorem users_counts_are_products (userId : Z) (page limit search tier : option string)
  (env : Env) (d : DB) (p n : Z) :
  has_admin userId d ->
  healthy env ->
  NoDup (map User.id (users d)) ->
  Controller.parseInt_or 1 page = Some p ->
  Controller.parseInt_or 50 limit = Some n ->
  safe p -> safe n -> safe ((p - 1) * n) ->
  0 <= n -> 0 <= (p - 1) * n ->
  exists pg,
    fst (Controller.getUsers userId page limit search tier env (fresh d))
    = inr (Controller.ok pg)
    /\ forall r, In r (Controller.page_users pg) ->
         let m := Sql.count (Controller.owns (Controller.user r)) (listings d) in
         let k := Sql.count
                    (fun ma => (User.id (Controller.user r) =? Account.user_id ma)
                               && Account.is_active ma)
                    (marketplace_accounts d) in
         Controller.listing_count r = m * Z.max 1 k
         /\ Controller.connected_accounts r = Z.max 1 m * k
         /\ (k <= 1 -> Controller.listing_count r = m)
         /\ (m <= 1 -> Controller.connected_accounts r = k).
Proof.
  intros Hadmin Hh N Hp Hn _ _ _ Pn Pk.
  destruct (users_page_run userId page limit search tier env d p n
              Hadmin Hh Hp Hn Pn Pk) as (rows & pgn & E & An).
  eexists. split; [exact E|]. cbn [Controller.page_users]. intros r I. cbv zeta.
  destruct (usersQuery_counts _ _ _ _ _ _ _ _ N An r I) as [L C].
  unfold owned_listings, active_accounts in L, C.
  pose proof (count_nonneg (Controller.owns (Controller.user r)) (listings d)).
  pose proof (count_nonneg
                (fun ma => (User.id (Controller.user r) =? Account.user_id ma)
                           && Account.is_active ma) (marketplace_accounts d)).
  split; [exact L|]. split; [exact C|]. split; intros B.
  - rewrite L. rewrite Z.max_l by lia. lia.
  - rewrite C. rewrite Z.max_l by lia. lia.
Qed.

Lemma users_counts_are_products_witness :
  exists pg,
    fst (Controller.getUsers 1 None None None None (Sample.clock no_faults)
           (fresh Sample.store))
    = inr (Controller.ok pg)
    /\ forall r, In r (Controller.page_users pg) ->
         Controller.user r = Sample.alice -> Controller.listing_count r = 4.
Proof.
  assert (A : has_admin 1 Sample.store).
  { exists Sample.root. split; reflexivity. }
  assert (N : NoDup (map User.id (users Sample.store))).
  { repeat constructor; cbn; intuition discriminate. }
  destruct (users_counts_are_products 1 None None None None (Sample.clock no_faults)
              Sample.store 1 50 A (fun _ => eq_refl) N eq_refl eq_refl
              (conj eq_refl eq_refl) (conj eq_refl eq_refl) (conj eq_refl eq_refl)
              ltac:(lia) ltac:(lia)) as (pg & E & H).
  exists pg. split; [exact E|]. intros r I U.
  destruct (H r I) as (L & _). rewrite L, U. reflexivity.
Defined.

(* ================================================================= *)
(** ** The activity listing *)



(* ================================================================= *)
(** ** Two totals *)

(** X23. The metrics report and the dashboard disagree on
    [totalListings] whenever a listing is soft-deleted: on the same
    store the metrics report counts every listing row and the dashboard
    only those that are not soft-deleted, so the first exceeds the
    second by the number of soft-deleted listings. *)
Theorem two_totals_differ_by_the_deleted (userId : Z) (ip : string)
  (env env' : Env) (d : DB) :
  has_admin userId d ->
  healthy env ->
  healthy env' ->
  exists m b,
    fst (Controller.getDashboardMetrics userId ip env (fresh d))
    = inr (Controller.ok m)
    /\ fst (Router.dashboard env' (fresh d)) = inr (Router.sent (Some b) None)
    /\ Metrics.totalListings (Metrics.overview m)
       = Router.totalListings b
         + Sql.count (fun l => negb (Router.live l)) (listings d).
Proof.
  intros Hadmin Hh Hh'.
  destruct (metrics_succeeds userId ip env d Hadmin (fun i _ => Hh i))
    as (m & Em & _ & Tm & _).
  destruct (dashboard_succeeds env' d (fun i _ => Hh' i)) as (b & Eb & _ & Tb & _).
  exists m, b. split; [exact Em|]. split; [exact Eb|]. rewrite Tm, Tb.
  clear. induction (listings d) as [|l ls IH]; [reflexivity|].
  rewrite !count_cons, IH. destruct (Router.live l); cbn [negb]; lia.
Qed.

Lemma two_totals_differ_by_the_deleted_witness :
  exists m b,
    fst (Controller.getDashboardMetrics 1 "10.0.0.1" (Sample.clock no_faults)
           (fresh Sample.mixed))
    = inr (Controller.ok m)
    /\ fst (Router.dashboard (Sample.clock no_faults) (fresh Sample.mixed))
       = inr (Router.sent (Some b) None)
    /\ Metrics.totalListings (Metrics.overview m) = Router.totalListings b + 2.
Proof.
  assert (A : has_admin 1 Sample.mixed).
  { exists Sample.root. split; reflexivity. }
  destruct (two_totals_differ_by_the_deleted 1 "10.0.0.1" (Sample.clock no_faults)
              (Sample.clock no_faults) Sample.mixed A (fun _ => eq_refl)
              (fun _ => eq_refl)) as (m & b & Em & Eb & T).
  exists m, b. split; [exact Em|]. split; [exact Eb | exact T].
Defined.

(* ================================================================= *)
(** ** The admin page *)

Lemma mpStats_fold (l : list Frontend.Listing) (acc : Frontend.MarketplaceStats) :
  let s := fold_left Frontend.tallyListing l acc in
  Frontend.craigslist s
  = Frontend.craigslist acc + Sql.count (posted_on Frontend.on_craigslist) l
  /\ Frontend.ebay s = Frontend.ebay acc + Sql.count (posted_on Frontend.on_ebay) l
  /\ Frontend.facebook s
     = Frontend.facebook acc + Sql.count (posted_on Frontend.on_facebook) l
  /\ Frontend.total s = Frontend.total acc.
Proof.
  cbv zeta. revert acc. induction l as [|a l IH]; intros acc.
  - cbn. repeat split; lia.
  - cbn [fold_left]. destruct (IH (Frontend.tallyListing acc a)) as (C & E & F & T).
    rewrite C, E, F, T, !count_cons. clear.
    unfold Frontend.tallyListing, posted_on.
    destruct (Frontend.marketplace_listings a) as [[[] [] []]|];
      cbn [Frontend.craigslist Frontend.ebay Frontend.facebook Frontend.total
           Frontend.on_craigslist Frontend.on_ebay Frontend.on_facebook];
      repeat split; lia.
Qed.

(** X24. The marketplace statistics the page computes from the
    listings it fetched: [total] is the number of listings, each of the
    three counters is the number of listings posted on that
    marketplace and so lies between 0 and [total], and the divisor of
    the three bars is positive and no smaller than any counter, so
    each bar shows between 0 and 100 percent, also with no listing at
    all. *)
Theorem marketplace_bars_are_fractions (allListings : list Frontend.Listing) :
  let s := Frontend.mpStats allListings in
  Frontend.total s = Z.of_nat (List.length allListings)
  /\ Frontend.craigslist s = Sql.count (posted_on Frontend.on_craigslist) allListings
  /\ Frontend.ebay s = Sql.count (posted_on Frontend.on_ebay) allListings
  /\ Frontend.facebook s = Sql.count (posted_on Frontend.on_facebook) allListings
  /\ 0 < Frontend.total_or_one s
  /\ 0 <= Frontend.craigslist s <= Frontend.total_or_one s
  /\ 0 <= Frontend.ebay s <= Frontend.total_or_one s
  /\ 0 <= Frontend.facebook s <= Frontend.total_or_one s.
Proof.
  cbv zeta. unfold Frontend.mpStats, Frontend.total_or_one.
  destruct (mpStats_fold allListings
              (Frontend.mkMarketplaceStats 0 0 0
                 (Z.of_nat (List.length allListings)))) as (C & E & F & T).
  cbn [Frontend.craigslist Frontend.ebay Frontend.facebook Frontend.total]
    in C, E, F, T.
  rewrite C, E, F, T.
  pose proof (count_nonneg (posted_on Frontend.on_craigslist) allListings).
  pose proof (count_nonneg (posted_on Frontend.on_ebay) allListings).
  pose proof (count_nonneg (posted_on Frontend.on_facebook) allListings).
  pose proof (count_le (posted_on Frontend.on_craigslist) (fun _ => true)
                allListings (fun _ _ => eq_refl)) as L1.
  pose proof (count_le (posted_on Frontend.on_ebay) (fun _ => true)
                allListings (fun _ _ => eq_refl)) as L2.
  pose proof (count_le (posted_on Frontend.on_facebook) (fun _ => true)
                allListings (fun _ _ => eq_refl)) as L3.
  rewrite count_all in L1, L2, L3.
  destruct (Z.of_nat (List.length allListings) =? 0) eqn:Z0;
    [apply Z.eqb_eq in Z0 | apply Z.eqb_neq in Z0];
    repeat split; lia.
Qed.

Lemma assign_own (t : Z) (u : User.row) (id : Z) (b : Router.Body) :
  Frontend.handleUpdateUser (Some u) = Some (id, b) ->
  id = User.id u /\ Router.assign b t u = touched t u.
Proof. intros E. inversion E. split; reflexivity. Qed.

(** X25. Saving the edit dialog without a change clears nothing.  The
    page sends all five columns of the selected row, so with unique
    user keys the update leaves every user row as it was but for
    [updated_at] of the selected one, and answers with that row's own
    values. *)
Theorem saving_unchanged_keeps_the_row (u : User.row) (id : Z) (b : Router.Body)
  (env : Env) (d : DB) :
  Frontend.handleUpdateUser (Some u) = Some (id, b) ->
  In u (users d) ->
  NoDup (map User.id (users d)) ->
  fault env 0%nat = None ->
  let r := Router.putUser id b env (fresh d) in
  fst r = inr (Router.sent (Some (Router.projection u))
                 (Some "User updated successfully"))
  /\ users (db (snd r))
     = map (fun x => if User.id x =? User.id u then touched (now env) x else x)
           (users d)
  /\ listings (db (snd r)) = listings d.
Proof.
  intros Hb Iu N F. cbv zeta.
  destruct (assign_own (now env) u id b Hb) as [-> A].
  rewrite (putUser_run (User.id u) b env d F). cbn [fst snd db].
  assert (Only : forall x, In x (users d) -> User.id x = User.id u -> x = u).
  { clear - Iu N. induction (users d) as [|a l IH]; [destruct Iu|].
    inversion N as [|? ? Na N']; subst. intros x [->|Ix] E.
    - destruct Iu as [->|Iu]; [reflexivity|].
      exfalso. apply Na. rewrite E. apply in_map. exact Iu.
    - destruct Iu as [->|Iu]; [|exact (IH Iu N' x Ix E)].
      exfalso. apply Na. rewrite <- E. apply in_map. exact Ix. }
  split; [|split; [|reflexivity]].
  - assert (Fu : user_by_id (User.id u) d = Some u).
    { unfold user_by_id.
      destruct (find (fun x => User.id x =? User.id u) (users d)) as [x|] eqn:Fx.
      - apply find_some in Fx. destruct Fx as [Ix Ex]. apply Z.eqb_eq in Ex.
        rewrite (Only x Ix Ex). reflexivity.
      - exfalso. apply (find_none _ _ Fx) in Iu. rewrite Z.eqb_refl in Iu.
        discriminate. }
    rewrite Fu, A. reflexivity.
  - cbn [set_users users]. unfold users_after_update. apply map_ext_in.
    intros x Ix. destruct (User.id x =? User.id u) eqn:Ex; [|reflexivity].
    apply Z.eqb_eq in Ex. rewrite (Only x Ix Ex). exact A.
Qed.

Lemma saving_unchanged_keeps_the_row_witness :
  fst (Router.putUser 2
         (Router.mkBody (Some "alice") (Some "Alice@Shop.com") (Some "free")
            (Some 10) (Some false))
         (Sample.clock no_faults) (fresh Sample.store))
  = inr (Router.sent (Some (Router.projection Sample.alice))
           (Some "User updated successfully")).
Proof.
  refine (proj1 (saving_unchanged_keeps_the_row Sample.alice 2 _
                   (Sample.clock no_faults) Sample.store eq_refl _ _ eq_refl)).
  - right. left. reflexivity.
  - repeat constructor; cbn; intuition discriminate.
Defined.

Lemma count_after_update (p : User.row -> bool) (id : Z) (b : Router.Body) (t : Z)
  (l : list User.row) :
  (forall u, p (Router.assign b t u) = false) ->
  Sql.count p (users_after_update id b t l) = Sql.count p (users_without id l).
Proof.
  intros H. unfold users_after_update, users_without.
  induction l as [|u l IH]; [reflexivity|].
  cbn [map filter]. destruct (User.id u =? id); cbn [negb].
  - rewrite count_cons, H, IH. lia.
  - rewrite !count_cons, IH. reflexivity.
Qed.

(** X26. A tier chosen in the edit dialog earns nothing in the revenue
    estimate.  The dialog offers [free], [starter], [pro] and
    [enterprise]; the estimate counts the tiers [premium] and
    [premium_plus].  After the update of a user to a tier of the
    dialog, the revenue statement counts only among the other users. *)
Theorem dialog_tiers_earn_nothing (su : User.row) (v : string) (id : Z)
  (b : Router.Body) (env : Env) (t : Z) (d : DB) :
  In v Frontend.tier_options ->
  Frontend.handleUpdateUser (Some (Frontend.setTier su v)) = Some (id, b) ->
  fault env 0%nat = None ->
  let d' := db (snd (Router.putUser id b env (fresh d))) in
  answer Controller.revenueResult t d'
  = inr ((Sql.count (Controller.has_tier "premium") (users_without id (users d)),
          Sql.count (Controller.has_tier "premium_plus")
            (users_without id (users d))),
         d').
Proof.
  intros Iv Hb F. cbv zeta. inversion Hb. subst id b. clear Hb.
  rewrite (putUser_run _ _ env d F). cbn [snd db].
  cbn [Controller.revenueResult answer]. unfold reading.
  cbn [set_users users]. do 2 f_equal. f_equal.
  - apply count_after_update. intros u.
    unfold Controller.has_tier, Router.assign.
    cbn [User.subscription_tier Router.subscription_tier Frontend.setTier].
    destruct Iv as [<-|[<-|[<-|[<-|[]]]]]; reflexivity.
  - apply count_after_update. intros u.
    unfold Controller.has_tier, Router.assign.
    cbn [User.subscription_tier Router.subscription_tier Frontend.setTier].
    destruct Iv as [<-|[<-|[<-|[<-|[]]]]]; reflexivity.
Qed.

Lemma dialog_tiers_earn_nothing_witness :
  answer Controller.revenueResult 5000
    (db (snd (Router.putUser 1
                (Router.mkBody (Some "root") (Some "root@quicksell.test")
                   (Some "pro") (Some 0) (Some true))
                (Sample.clock no_faults) (fresh Sample.store))))
  = inr ((0, 1),
         db (snd (Router.putUser 1
                    (Router.mkBody (Some "root") (Some "root@quicksell.test")
                       (Some "pro") (Some 0) (Some true))
                    (Sample.clock no_faults) (fresh Sample.store)))).
Proof.
  refine (eq_trans
            (dialog_tiers_earn_nothing Sample.root "pro" 1 _ (Sample.clock no_faults)
               5000 Sample.store _ eq_refl eq_refl) _).
  - right. right. left. reflexivity.
  - reflexivity.
Defined.

(* ================================================================= *)
(** ** The overview of the metrics report *)

Lemma count_distinct_le (l : list Z) : Sql.count_distinct l <= Z.of_nat (List.length l).
Proof.
  unfold Sql.count_distinct. apply inj_le.
  induction l as [|a l IH]; [reflexivity|].
  cbn [nodup List.length]. destruct (in_dec Z.eq_dec a l); cbn [List.length]; lia.
Qed.

Lemma tiers_exclusive (u : User.row) :
  Controller.has_tier "premium" u = true ->
  Controller.has_tier "premium_plus" u = false.
Proof.
  unfold Controller.has_tier. destruct (User.subscription_tier u) as [t|]; cbn.
  - intros E. apply String.eqb_eq in E. subst t. reflexivity.
  - discriminate.
Qed.

(** X27. The counts of one metrics report fit together: the users of
    the last seven days are among the users, the active users are no
    more than the listings, the connected accounts no more than the
    marketplace accounts, and the premium and premium-plus users
    together no more than the users; none is negative. *)
Theorem overview_counts_fit_together (userId : Z) (ip : string) (env : Env)
  (d : DB) :
  has_admin userId d ->
  healthy env ->
  exists m,
    fst (Controller.getDashboardMetrics userId ip env (fresh d))
    = inr (Controller.ok m)
    /\ Metrics.totalUsers (Metrics.overview m) = Z.of_nat (List.length (users d))
    /\ Metrics.totalListings (Metrics.overview m)
       = Z.of_nat (List.length (listings d))
    /\ Metrics.ebayListings (Metrics.overview m)
       = Z.of_nat (List.length (ebay_listings d))
    /\ 0 <= Metrics.recentUsers (Metrics.overview m)
         <= Metrics.totalUsers (Metrics.overview m)
    /\ 0 <= Metrics.activeUsers (Metrics.overview m)
         <= Metrics.totalListings (Metrics.overview m)
    /\ 0 <= Metrics.connectedAccounts (Metrics.overview m)
         <= Z.of_nat (List.length (marketplace_accounts d))
    /\ 0 <= Metrics.premiumUsers (Metrics.revenue m)
    /\ 0 <= Metrics.premiumPlusUsers (Metrics.revenue m)
    /\ Metrics.premiumUsers (Metrics.revenue m)
       + Metrics.premiumPlusUsers (Metrics.revenue m)
       <= Metrics.totalUsers (Metrics.overview m).
Proof.
  intros Hadmin Hh.
  destruct (metrics_report userId ip env d Hadmin (fun n _ => Hh n))
    as (m & tiers & top & E & _ & _ & _ & _ & O).
  destruct (metrics_succeeds userId ip env d Hadmin (fun n _ => Hh n))
    as (m' & E' & _ & _ & R & _).
  rewrite E in E'. injection E' as <-.
  exists m. split; [exact E|]. rewrite O, R.
  cbn [Metrics.totalUsers Metrics.totalListings Metrics.ebayListings
       Metrics.recentUsers Metrics.activeUsers Metrics.connectedAccounts
       Metrics.premiumUsers Metrics.premiumPlusUsers Controller.revenue_of].
  rewrite !count_all.
  split; [reflexivity|]. split; [reflexivity|]. split; [reflexivity|].
  split.
  { split; [apply count_nonneg|]. rewrite <- count_all. apply count_le. reflexivity. }
  split.
  { split; [unfold Sql.count_distinct; lia|].
    etransitivity; [apply count_distinct_le|]. rewrite length_map.
    apply inj_le, filter_length_le. }
  split.
  { split; [apply count_nonneg|]. rewrite <- count_all. apply count_le. reflexivity. }
  split; [apply count_nonneg|]. split; [apply count_nonneg|].
  rewrite (count_disjoint _ _ _ tiers_exclusive), <- count_all.
  apply count_le. reflexivity.
Qed.

Lemma overview_counts_fit_together_witness :
  exists m,
    fst (Controller.getDashboardMetrics 1 "10.0.0.1" (Sample.clock no_faults)
           (fresh Sample.store))
    = inr (Controller.ok m)
    /\ Metrics.totalUsers (Metrics.overview m) = 3.
Proof.
  assert (A : has_admin 1 Sample.store).
  { exists Sample.root. split; reflexivity. }
  destruct (overview_counts_fit_together 1 "10.0.0.1" (Sample.clock no_faults)
              Sample.store A (fun _ => eq_refl)) as (m & E & T & _).
  exists m. split; [exact E | exact T].
Defined.

(* ================================================================= *)
(** ** The seven parallel reads *)

Lemma settled_any {A R : Type} (q : Query R) (k : string + R -> M A) env w :
  exists p w',
    bind (pool_query_settled q) k env w = k p env w'
    /\ List.length (issued w') = S (List.length (issued w))
    /\ logged w' = logged w
    /\ (read_only q -> db w' = db w)
    /\ (forall e, fault env (List.length (issued w)) = Some e -> p = inl e).
Proof.
  unfold bind, pool_query_settled.
  destruct (fault env (List.length (issued w))) as [e|] eqn:F.
  - do 2 eexists. split; [reflexivity|]. cbn [issued logged db].
    rewrite length_app. cbn [List.length].
    split; [lia|]. split; [reflexivity|]. split; [reflexivity|].
    intros e' E. congruence.
  - destruct (answer q (now env) (db w)) as [e|[r d']] eqn:An.
    + do 2 eexists. split; [reflexivity|]. cbn [issued logged db].
      rewrite length_app. cbn [List.length].
      split; [lia|]. split; [reflexivity|]. split; [reflexivity|]. discriminate.
    + do 2 eexists. split; [reflexivity|]. cbn [issued logged db].
      rewrite length_app. cbn [List.length].
      split; [lia|]. split; [reflexivity|].
      split; [intros Hr; exact (Hr _ _ _ _ An) | discriminate].
Qed.

Ltac send_any :=
  match goal with
  | |- context [bind (pool_query_settled ?q) ?k ?env ?w] =>
      let p := fresh "p" in
      let w' := fresh "w" in
      let L := fresh "L" in
      let G := fresh "G" in
      let D := fresh "D" in
      let P := fresh "P" in
      destruct (settled_any q k env w) as (p & w' & -> & L & G & D & P);
      specialize (D ltac:(auto with reads))
  end.

Lemma parallel_reads_body (userId : Z) (ip : string) (env : Env) (d : DB)
  (i : nat) (e : string) (h : string -> M (Res.t Metrics.Report))
  (rest : Z -> Z -> Z -> Z -> list (option string * Z) -> Z -> Z
          -> M (Res.t Metrics.Report)) :
  fault env 0%nat = None ->
  (1 <= i <= 7)%nat ->
  fault env i = Some e ->
  Controller.first_is_admin
    (map User.is_admin (filter (fun u => User.id u =? userId) (users d))) = true ->
  exists e' w',
    (adminRows <- pool_query (Controller.adminCheck userId) ;;
     if negb (Controller.first_is_admin adminRows)
     then ret (Controller.denied "Access denied. Admin privileges required.")
     else
       p1 <- pool_query_settled Controller.usersResult ;;
       p2 <- pool_query_settled Controller.listingsResult ;;
       p3 <- pool_query_settled Controller.marketplaceAccountsResult ;;
       p4 <- pool_query_settled Controller.ebayListingsResult ;;
       p5 <- pool_query_settled Controller.subscriptionTiersResult ;;
       p6 <- pool_query_settled Controller.recentUsersResult ;;
       p7 <- pool_query_settled Controller.activeUsersResult ;;
       totalUsers <- await p1 ;;
       totalListings <- await p2 ;;
       connectedAccounts <- await p3 ;;
       ebayListings <- await p4 ;;
       tiers <- await p5 ;;
       recentUsers <- await p6 ;;
       activeUsers <- await p7 ;;
       rest totalUsers totalListings connectedAccounts ebayListings tiers
         recentUsers activeUsers) env (fresh d)
    = (inl e', w')
    /\ db w' = d
    /\ List.length (issued w') = 8%nat
    /\ logged w' = [].
Proof.
  intros F0 Hi Fi Hadmin.
  erewrite query_ok; [ | exact F0 | reflexivity ]. tidy.
  rewrite Hadmin. cbn [negb].
  do 7 send_any.
  cbn [db logged issued List.length] in *.
  assert (Dw : db w5 = d) by congruence.
  assert (Lw : List.length (issued w5) = 8%nat) by lia.
  assert (Gw : logged w5 = []) by congruence.
  assert (Bad : p = inl e \/ p0 = inl e \/ p1 = inl e \/ p2 = inl e
                \/ p3 = inl e \/ p4 = inl e \/ p5 = inl e).
  { assert (Ii : (i = 1 \/ i = 2 \/ i = 3 \/ i = 4 \/ i = 5 \/ i = 6 \/ i = 7)%nat)
      by lia.
    rewrite L in P0. rewrite L0, L in P1. rewrite L1, L0, L in P2.
    rewrite L2, L1, L0, L in P3. rewrite L3, L2, L1, L0, L in P4.
    rewrite L4, L3, L2, L1, L0, L in P5.
    destruct Ii as [->|[->|[->|[->|[->|[->| ->]]]]]]; auto 10. }
  clear - Dw Lw Gw Bad.
  destruct p as [x|x]; [do 2 eexists; split; [reflexivity | auto]|].
  rewrite await_ok.
  destruct p0 as [x0|x0]; [do 2 eexists; split; [reflexivity | auto]|].
  rewrite await_ok.
  destruct p1 as [x1|x1]; [do 2 eexists; split; [reflexivity | auto]|].
  rewrite await_ok.
  destruct p2 as [x2|x2]; [do 2 eexists; split; [reflexivity | auto]|].
  rewrite await_ok.
  destruct p3 as [x3|x3]; [do 2 eexists; split; [reflexivity | auto]|].
  rewrite await_ok.
  destruct p4 as [x4|x4]; [do 2 eexists; split; [reflexivity | auto]|].
  rewrite await_ok.
  destruct p5 as [x5|x5]; [do 2 eexists; split; [reflexivity | auto]|].
  exfalso. intuition discriminate.
Qed.

(** X28. The seven reads of the metrics handler are sent together:
    when any of them fails, the other six have been sent all the same,
    the four statements that follow (the status counts, the top users,
    the revenue counts and the audit insert) are not sent, and the
    answer is the 500 envelope with the store unchanged and one line
    logged. *)
Theorem parallel_reads_fail_together (userId : Z) (ip : string) (env : Env)
  (d : DB) (i : nat) (e : string) :
  has_admin userId d ->
  fault env 0%nat = None ->
  (1 <= i <= 7)%nat ->
  fault env i = Some e ->
  let r := Controller.getDashboardMetrics userId ip env (fresh d) in
  fst r = inr (Controller.failed "Failed to fetch dashboard metrics")
  /\ List.length (issued (snd r)) = 8%nat
  /\ db (snd r) = d
  /\ List.length (logged (snd r)) = 1%nat.
Proof.
  intros Hadmin F0 Hi Fi. cbv zeta.
  unfold Controller.getDashboardMetrics.
  match goal with
  | |- context [try_catch ?body ?h] =>
      assert (B : exists e' w', body env (fresh d) = (inl e', w') /\ db w' = d
                                /\ List.length (issued w') = 8%nat /\ logged w' = [])
  end.
  { eapply (parallel_reads_body userId ip env d i e
              (fun _ => ret (Controller.failed "Failed to fetch dashboard metrics")));
      [exact F0 | exact Hi | exact Fi | apply has_admin_check; exact Hadmin]. }
  destruct B as (e' & w' & B & Dw & Lw & Gw).
  rewrite (caught _ _ _ _ _ _ B).
  unfold bind, logger_error, ret. cbn [fst snd db issued logged].
  rewrite Gw. repeat split; assumption.
Qed.

Lemma parallel_reads_fail_together_witness :
  List.length
    (issued (snd (Controller.getDashboardMetrics 1 "10.0.0.1"
                    (Sample.clock (fun n => if (n =? 3)%nat then Some "timeout"
                                            else None))
                    (fresh Sample.store))))
  = 8%nat.
Proof.
  assert (A : has_admin 1 Sample.store).
  { exists Sample.root. split; reflexivity. }
  exact (proj1 (proj2 (parallel_reads_fail_together 1 "10.0.0.1"
           (Sample.clock (fun n => if (n =? 3)%nat then Some "timeout" else None))
           Sample.store 3 "timeout" A eq_refl ltac:(lia) eq_refl))).
Defined.

(* ================================================================= *)
(** ** The caller's own row *)

Lemma forbidden_outcome (e : Endpoint) (req : Request) (env : Env) (d : DB) :
  lacks_admin (userId req) d ->
  fault env 0%nat = None ->
  fst (serve e req env (fresh d)) = Some (403, false).
Proof.
  intros H F.
  destruct e; cbn [serve]; try (rewrite (gated_outcome _ _ _ _ H); reflexivity).
  all: unfold Controller.getDashboardMetrics, Controller.getUsers,
         Controller.getSystemStats, Controller.getAdminActivity; cbv zeta.
  all: erewrite inline_check_denies;
    [ reflexivity | intros rows E; rewrite E; reflexivity | exact H | exact F ].
Qed.

(** X29. Nothing protects the caller's own row.  An admin who updates
    the own user row with a body whose admin flag is not true, or who
    deletes the own user row, is answered 403 by every endpoint from
    then on. *)
Theorem admins_can_lock_themselves_out (k : Z) (b : Router.Body) (e : Endpoint)
  (req : Request) (env env' : Env) (d : DB) :
  has_admin k d ->
  userId req = k ->
  fault env 0%nat = None ->
  fault env 1%nat = None ->
  fault env' 0%nat = None ->
  (Router.is_admin b <> Some true ->
   fst (serve e req env' (fresh (db (snd (Router.putUser k b env (fresh d))))))
   = Some (403, false))
  /\ fst (serve e req env' (fresh (db (snd (Router.deleteUser k env (fresh d))))))
     = Some (403, false).
Proof.
  intros (u & Hu & Ha) Hk F0 F1 F'. split.
  - intros Hb. apply forbidden_outcome; [|exact F'].
    rewrite Hk, (putUser_run k b env d F0). cbn [snd db].
    right. exists (Router.assign b (now env) u). split; [|exact Hb].
    unfold user_by_id in *. cbn [set_users users].
    rewrite find_after_update, Z.eqb_refl, Hu. reflexivity.
  - apply forbidden_outcome; [|exact F'].
    rewrite Hk, (deleteUser_run k env d F0 F1). cbn [snd db].
    left. unfold user_by_id. cbn [set_users set_listings users].
    unfold users_without.
    destruct (find _ (filter _ (users d))) as [x|] eqn:Fx; [|reflexivity].
    apply find_some in Fx. destruct Fx as [Ix Ex]. apply filter_In in Ix.
    destruct Ix as [_ Nx]. rewrite Ex in Nx. discriminate.
Qed.

Lemma admins_can_lock_themselves_out_witness :
  fst (serve GetDashboard (request_of 1) (Sample.clock no_faults)
         (fresh (db (snd (Router.putUser 1 Sample.only_username
                            (Sample.clock no_faults) (fresh Sample.store))))))
  = Some (403, false).
Proof.
  assert (A : has_admin 1 Sample.store).
  { exists Sample.root. split; reflexivity. }
  refine (proj1 (admins_can_lock_themselves_out 1 Sample.only_username GetDashboard
                   (request_of 1) (Sample.clock no_faults) (Sample.clock no_faults)
                   Sample.store A eq_refl eq_refl eq_refl eq_refl) _).
  discriminate.
Defined.
